(** * Railway-Status-Crew: the tool pipeline of [tools.py]

    A shallow embedding of the tools that make up the data pipeline
    (validation, retrieval with cache and mock fallback, normalisation,
    geospatial computation, response formatting, error handling), of the
    input checks and the result handling of [crew.py], and the properties
    of the pipeline contract.

    Conventions of the embedding.
    - A Python [str] is a [string]; a character stands for its code point
      (code points below 256).
    - A value decoded by [json.loads] is a [json]; a Python [dict] is an
      association list in insertion order, read by [dict_get] and written
      by [dict_set] (replace in place, else append).
    - A Python [float] is read as the rational (or, for trigonometry, the
      real) number it denotes; rounding error of the hardware arithmetic is
      not part of the model.
    - Functions of the Python runtime that the tools call but do not define
      ([json.loads], [datetime.fromisoformat], [strptime], [str] of a
      container, the two regular expressions of the extraction heuristics)
      are fields of a [PyRuntime]; every theorem holds for all of them.
    - The clock, the random generator and the search service are read from
      an environment given to each call. *)

From stdpp Require Import gmap strings list pretty.
From Stdlib Require Import Ascii String ZArith QArith Qround Qminmax Lqa Lra Lia.
From Stdlib Require Import Reals Ratan Qreals.

Close Scope Q_scope.
Local Open Scope string_scope.
Set Warnings "-register-all".

(** ** Characters and strings *)

Module Str.

Definition code (c : ascii) : nat := nat_of_ascii c.

Definition between (lo hi : nat) (c : ascii) : bool :=
  (lo <=? code c)%nat && (code c <=? hi)%nat.

(** [str.isspace] on the code points below 256: the characters removed
    by [str.strip()]. *)
Definition is_space (c : ascii) : bool :=
  between 9 13 c || between 28 32 c
  || (code c =? 133)%nat || (code c =? 160)%nat.

(** The character class [[0-9]]. *)
Definition is_digit (c : ascii) : bool := between 48 57 c.

Definition dquote : ascii := "034"%char.
Definition squote : ascii := "039"%char.
Definition backslash : ascii := "092"%char.
Definition newline : ascii := "010"%char.

Definition is_empty (s : string) : bool :=
  match s with EmptyString => true | String _ _ => false end.

Fixpoint lstrip (s : string) : string :=
  match s with
  | EmptyString => EmptyString
  | String c s' => if is_space c then lstrip s' else s
  end.

Fixpoint rstrip (s : string) : string :=
  match s with
  | EmptyString => EmptyString
  | String c s' =>
      let r := rstrip s' in
      if is_space c && is_empty r then EmptyString else String c r
  end.

(** [s.strip()] *)
Definition strip (s : string) : string := rstrip (lstrip s).

Fixpoint last_char (s : string) : option ascii :=
  match s with
  | EmptyString => None
  | String c EmptyString => Some c
  | String _ s' => last_char s'
  end.

Definition first_char (s : string) : option ascii :=
  match s with EmptyString => None | String c _ => Some c end.

Definition char_is (c : ascii) (o : option ascii) : bool :=
  match o with Some d => Ascii.eqb c d | None => false end.

(** [s.startswith(c)] and [s.endswith(c)] for a one-character [c]. *)
Definition startswith (c : ascii) (s : string) : bool := char_is c (first_char s).
Definition endswith (c : ascii) (s : string) : bool := char_is c (last_char s).

Fixpoint drop_last (s : string) : string :=
  match s with
  | EmptyString => EmptyString
  | String _ EmptyString => EmptyString
  | String c s' => String c (drop_last s')
  end.

(** The slice [s[1:-1]]. *)
Definition slice_1_m1 (s : string) : string :=
  match s with
  | EmptyString => EmptyString
  | String _ s' => drop_last s'
  end.

(** [s.replace(old, new)] for a non-empty [old]: occurrences are replaced
    from left to right and do not overlap. [skip] counts the characters
    of a matched occurrence still to be passed over. *)
Fixpoint replace_from (old new s : string) (skip : nat) : string :=
  match s with
  | EmptyString => EmptyString
  | String c s' =>
      match skip with
      | S k => replace_from old new s' k
      | O =>
          if String.prefix old s
          then new ++ replace_from old new s' (String.length old - 1)
          else String c (replace_from old new s' 0)
      end
  end.

Definition replace (old new s : string) : string := replace_from old new s 0.

(** [needle in s] for strings. *)
Fixpoint contains (needle s : string) : bool :=
  String.prefix needle s ||
  match s with
  | EmptyString => false
  | String _ s' => contains needle s'
  end.

(** [str.lower()] on the code points below 256. *)
Definition lower_char (c : ascii) : ascii :=
  if between 65 90 c || between 192 214 c || between 216 222 c
  then ascii_of_nat (code c + 32) else c.

Fixpoint lower (s : string) : string :=
  match s with
  | EmptyString => EmptyString
  | String c s' => String (lower_char c) (lower s')
  end.

Fixpoint all_digits (s : string) : bool :=
  match s with
  | EmptyString => true
  | String c s' => is_digit c && all_digits s'
  end.

(** Exactly five characters, each an ASCII digit. *)
Definition five_digits (s : string) : bool :=
  (String.length s =? 5)%nat && all_digits s.

(** [re.match(r'^[0-9]{5}$', s)]: Python's [$] matches at the end of the
    string and also just before a newline that ends the string. *)
Definition re_match_train (s : string) : bool :=
  five_digits s
  || (endswith newline s && five_digits (drop_last s)).

(** A word character of [\w] (and so a side of [\b]) below 256. *)
Definition is_word (c : ascii) : bool :=
  between 48 57 c || between 65 90 c || between 97 122 c
  || (code c =? 95)%nat || (code c =? 170)%nat
  || between 178 179 c || (code c =? 181)%nat
  || between 185 186 c || between 188 190 c
  || between 192 214 c || between 216 246 c || between 248 255 c.

Definition take (n : nat) (s : string) : string := String.substring 0 n s.

Definition boundary_after (s : string) : bool :=
  match s with
  | EmptyString => true
  | String c _ => negb (is_word c)
  end.

(** The class [\d] of a pattern on a [str]: the decimal digits of
    Unicode, which below code point 256 are the ten ASCII digits. On
    texts with characters beyond, which a [string] does not hold, [\d]
    is more than [[0-9]]. *)
Definition is_decimal (c : ascii) : bool := between 48 57 c.

Fixpoint all_decimal (s : string) : bool :=
  match s with
  | EmptyString => true
  | String c s' => is_decimal c && all_decimal s'
  end.

(** [re.search(r'\b\d{5}\b', s)]: the leftmost group of five decimal
    digits with no word character on either side; [prev_word] tells
    whether the character before [s] is a word character. *)
Fixpoint search_train_from (prev_word : bool) (s : string) : option string :=
  match s with
  | EmptyString => None
  | String c s' =>
      if negb prev_word
         && (5 <=? String.length s)%nat
         && all_decimal (take 5 s)
         && boundary_after (String.substring 5 (String.length s - 5) s)
      then Some (take 5 s)
      else search_train_from (is_word c) s'
  end.

Definition re_search_train (s : string) : option string :=
  search_train_from false s.

End Str.

(** ** JSON values and Python dictionaries *)

Inductive json : Type :=
| JNull
| JBool (b : bool)
| JInt (n : Z)
| JFloat (x : Q)
| JStr (s : string)
| JList (l : list json)
| JDict (d : list (string * json)).

Abbreviation dict := (list (string * json)).

Module Py.

(** [d.get(k)] as an option, [k in d], [d.get(k, default)] and
    [d[k] = v]. *)
Fixpoint dict_get (k : string) (d : dict) : option json :=
  match d with
  | [] => None
  | (k', v) :: d' => if String.eqb k k' then Some v else dict_get k d'
  end.

Definition dict_has (k : string) (d : dict) : bool :=
  match dict_get k d with Some _ => true | None => false end.

Definition get_or (k : string) (default : json) (d : dict) : json :=
  match dict_get k d with Some v => v | None => default end.

Fixpoint dict_set (k : string) (v : json) (d : dict) : dict :=
  match d with
  | [] => [(k, v)]
  | (k', v') :: d' =>
      if String.eqb k k' then (k', v) :: d' else (k', v') :: dict_set k v d'
  end.

(** Truth value of an object in a condition. *)
Definition truthy (v : json) : bool :=
  match v with
  | JNull => false
  | JBool b => b
  | JInt n => negb (n =? 0)%Z
  | JFloat x => negb (Qeq_bool x 0)
  | JStr s => negb (Str.is_empty s)
  | JList l => match l with [] => false | _ => true end
  | JDict d => match d with [] => false | _ => true end
  end.

(** [v == s] for a string literal [s]. *)
Definition eq_str (v : json) (s : string) : bool :=
  match v with JStr t => String.eqb t s | _ => false end.

(** [a or b] *)
Definition or_else (a b : json) : json := if truthy a then a else b.

(** [float.__round__] and [int()] on the rationals: [round] goes to the
    nearest integer and takes the even one at a tie, [int] drops the
    fraction (rounds towards zero). *)
Definition round_half_even (q : Q) : Z :=
  let n := Qfloor q in
  match Qcompare (q - inject_Z n) (1 # 2) with
  | Lt => n
  | Gt => (n + 1)%Z
  | Eq => if Z.even n then n else (n + 1)%Z
  end.

(** [round(q, 1)] *)
Definition round1 (q : Q) : Q :=
  (inject_Z (round_half_even (q * 10)) / 10)%Q.

Definition int_of_float (q : Q) : Z := Z.quot (Qnum q) (Z.pos (Qden q)).

(** [min(a, b)] and [max(a, b)]: the first argument unless the second is
    strictly smaller (larger). *)
Definition min (a b : Q) : Q := if QMicromega.Qlt_bool b a then b else a.
Definition max (a b : Q) : Q := if QMicromega.Qlt_bool a b then b else a.

(** The number that an object is in a comparison or in arithmetic: an
    [int], a [float] or a [bool]; [None] for the objects for which the
    comparison with a number raises [TypeError]. *)
Definition number_of (v : json) : option Q :=
  match v with
  | JInt n => Some (inject_Z n)
  | JFloat x => Some x
  | JBool b => Some (if b then 1 else 0)%Q
  | _ => None
  end.

End Py.

(** ** Dates and times *)

(** A [datetime]: the wall-clock reading in microseconds since
    0001-01-01T00:00:00, and the UTC offset in microseconds of an aware
    value ([None] for a naive one). *)
Record datetime : Type := Datetime {
  dt_wall : Z;
  dt_offset : option Z
}.

Module Dt.

Definition us_per_second : Z := 1000000.
Definition us_per_minute : Z := 60 * us_per_second.
Definition us_per_day : Z := 86400 * us_per_second.

(** Ordinal 3652059 is 9999-12-31, the last representable day. *)
Definition max_wall : Z := 3652059 * us_per_day - 1.

(** [a - b] as a [timedelta] in microseconds; mixing a naive and an aware
    value raises [TypeError]. *)
Definition sub (a b : datetime) : option Z :=
  match dt_offset a, dt_offset b with
  | None, None => Some (dt_wall a - dt_wall b)%Z
  | Some oa, Some ob => Some ((dt_wall a - oa) - (dt_wall b - ob))%Z
  | _, _ => None
  end.

(** [d + timedelta(minutes=m)]; leaving the years 1..9999 raises
    [OverflowError]. *)
Definition add_minutes (d : datetime) (m : Z) : option datetime :=
  let w := (dt_wall d + m * us_per_minute)%Z in
  if (0 <=? w)%Z && (w <=? max_wall)%Z
  then Some (Datetime w (dt_offset d)) else None.

(** [timedelta.total_seconds()] *)
Definition total_seconds (us : Z) : Q := (inject_Z us / inject_Z us_per_second)%Q.

End Dt.

(** ** The Python runtime *)

(** The exceptions that the tools catch, by the operation that raises
    them: [k in v] on a scalar ([TypeError]), a method such as [get] or
    [lower] that [v] does not have ([AttributeError]), [re.match] on an
    object that is not text ([TypeError]), a slice of a scalar or of a
    dictionary ([TypeError], [KeyError]), a date beyond the year 9999
    ([OverflowError]), an attribute that a class does not have
    ([AttributeError]), and whatever the search tool raises. *)
Inductive exn : Type :=
| NotContainer (v : json)
| NoMethod (v : json) (method : string)
| NotText (v : json)
| NotSliceable (v : json)
| Overflow
| NoClassAttribute (name : string)
| SearchError (msg : string).

Record PyRuntime : Type := {
  (** [json.loads]; [None] is [JSONDecodeError]. *)
  json_loads : string -> option json;
  (** [str(v)] for a float, a list or a dict. *)
  repr_other : json -> string;
  (** [str(e)] for an exception. *)
  exn_text : exn -> string;
  (** [datetime.strptime(s, "%Y-%m-%d").date()] as a day ordinal; [None]
      is [ValueError]. *)
  strptime_ymd : string -> option Z;
  (** [d.strftime("%Y-%m-%d")] of a day ordinal. *)
  strftime_ymd : Z -> string;
  (** [datetime.fromisoformat]; [None] is [ValueError]. *)
  fromisoformat : string -> option datetime;
  (** [datetime.isoformat] *)
  isoformat : datetime -> string;
  (** [re.search] with the station pattern of [_extract_train_info];
      the result is group 1. *)
  re_search_station : string -> option string;
  (** [re.search] with the delay pattern of [_extract_train_info];
      the result is [int(group(1))]. *)
  re_search_delay : string -> option Z
}.

(** [str(v)], also what an f-string writes for [{v}]. *)
Definition py_str (rt : PyRuntime) (v : json) : string :=
  match v with
  | JStr s => s
  | JNull => "None"
  | JBool true => "True"
  | JBool false => "False"
  | JInt n => pretty n
  | _ => repr_other rt v
  end.

(** The input of a tool: a [str], or an object passed as it is. *)
Inductive py_input : Type :=
| InStr (s : string)
| InObj (v : json).

(** ** DataProcessingTool (the status normaliser) *)

Module DataProcessingTool.

(** The six [status_emoji] literals of [_run], by what they depict. *)
Inductive emoji : Type :=
| EmojiMagnifier
| EmojiCheckMark
| EmojiYellowCircle
| EmojiOrangeCircle
| EmojiRedCircle
| EmojiQuestionMark.

(** The dictionary built at the end of [_run], nested keys flattened. *)
Record processed_data : Type := {
  train_info_number : json;
  train_info_name : json;
  status_category : string;
  status_emoji : emoji;
  status_delay_minutes : Z;
  status_delay_text : string;
  current_location_station : json;
  current_location_lat : json;
  current_location_lon : json;
  next_stations : list json;
  timing_scheduled_arrival : json;
  timing_actual_arrival : json;
  timing_last_updated : json;
  reliability_score : Q;
  data_source : json;
  processed_at : string;
  note : option json
}.

(** What [_run] returns (before [json.dumps]): an error dictionary, with
    the [processed] flag when it forwards an incoming error, or the
    processed record. *)
Inductive output : Type :=
| Error (error : json) (processed : option bool)
| Processed (p : processed_data).

(** [_calculate_reliability_score] *)
Definition _calculate_reliability_score (raw_data : dict) (delay_minutes : Z) : Q :=
  let score := 100%Q in
  let score :=
    if (delay_minutes >? 0)%Z
    then (score - Py.min (inject_Z delay_minutes * 0.5) 30)%Q
    else score in
  let score :=
    if Py.eq_str (Py.get_or "data_source" JNull raw_data) "mock_data"
    then (score - 20)%Q else score in
  let score :=
    if Py.eq_str (Py.get_or "current_station" JNull raw_data)
                 "Information not available"
    then (score - 15)%Q else score in
  Py.max 0 (Py.min 100 (Py.round1 score)).

(** [_format_delay_text] *)
Definition _format_delay_text (delay_minutes : Z) : string :=
  if (delay_minutes <=? 0)%Z then "On time"
  else if (delay_minutes <? 60)%Z then pretty delay_minutes ++ " minutes late"
  else
    let hours := (delay_minutes / 60)%Z in
    let minutes := (delay_minutes mod 60)%Z in
    if (minutes =? 0)%Z
    then pretty hours ++ " hour"
         ++ (if (hours >? 1)%Z then "s" else EmptyString) ++ " late"
    else pretty hours ++ "h " ++ pretty minutes ++ "m late".

(** The status category and emoji chosen from the delay. *)
Definition categorise (delay_minutes : Z) : string * emoji :=
  if (delay_minutes <=? 0)%Z then ("On Time", EmojiCheckMark)
  else if (delay_minutes <=? 15)%Z then ("Slightly Delayed", EmojiYellowCircle)
  else if (delay_minutes <=? 60)%Z then ("Delayed", EmojiOrangeCircle)
  else ("Significantly Delayed", EmojiRedCircle).

Section WithRuntime.

Context (rt : PyRuntime).

(** [datetime.fromisoformat(v.replace('Z', '+00:00'))]; [None] when it
    raises: [v] is not a string, or the string does not parse. *)
Definition parse_timestamp (v : json) : option datetime :=
  match v with
  | JStr s => fromisoformat rt (Str.replace "Z" "+00:00" s)
  | _ => None
  end.

(** The first four statements of the [try] block of [_run]: both
    timestamps parsed, subtracted, and the minutes taken with [int];
    [None] when one of them raises. *)
Definition compute_delay (scheduled_arrival actual_arrival : json) : option Z :=
  match parse_timestamp scheduled_arrival with
  | None => None
  | Some scheduled_time =>
      match parse_timestamp actual_arrival with
      | None => None
      | Some actual_time =>
          match Dt.sub actual_time scheduled_time with
          | None => None
          | Some time_diff =>
              Some (Py.int_of_float (Dt.total_seconds time_diff / 60)%Q)
          end
      end
  end.

(** The delay block of [_run]: delay, category and emoji. *)
Definition delay_status (scheduled_arrival actual_arrival : json)
  : Z * (string * emoji) :=
  if Py.truthy scheduled_arrival && Py.truthy actual_arrival then
    match compute_delay scheduled_arrival actual_arrival with
    | Some delay_minutes => (delay_minutes, categorise delay_minutes)
    | None => (0%Z, ("Status Unknown", EmojiQuestionMark))
    end
  else (0%Z, ("Unknown", EmojiMagnifier)).

(** The cleanup of a [str] input before [json.loads]. *)
Definition clean_input (input_data : string) : string :=
  let cleaned_input := Str.strip input_data in
  let cleaned_input :=
    if Str.startswith Str.dquote cleaned_input
       && Str.endswith Str.dquote cleaned_input
    then Str.slice_1_m1 cleaned_input else cleaned_input in
  Str.replace (String Str.backslash (String Str.squote EmptyString))
              (String Str.squote EmptyString)
    (Str.replace (String Str.backslash (String Str.dquote EmptyString))
                 (String Str.dquote EmptyString) cleaned_input).

(** The body of [_run] once [parsed_data] is known to be a [dict]
    without an [error] key; [now] is [datetime.now()]. *)
Definition process (now : datetime) (parsed_data : dict) : processed_data :=
  let train_number := Py.get_or "train_number" (JStr "Unknown") parsed_data in
  let train_name :=
    Py.get_or "train_name" (JStr ("Train " ++ py_str rt train_number)) parsed_data in
  let current_station :=
    Py.get_or "current_station" (JStr "Unknown Location") parsed_data in
  let scheduled_arrival := Py.get_or "scheduled_arrival" JNull parsed_data in
  let actual_arrival := Py.get_or "actual_arrival" JNull parsed_data in
  let '(delay_minutes, (category, emo)) :=
    delay_status scheduled_arrival actual_arrival in
  let upcoming_stations :=
    match Py.get_or "upcoming_stations" (JList []) parsed_data with
    | JList l => l
    | _ => []
    end in
  {| train_info_number := train_number;
     train_info_name := train_name;
     status_category := category;
     status_emoji := emo;
     status_delay_minutes := delay_minutes;
     status_delay_text := _format_delay_text delay_minutes;
     current_location_station := current_station;
     current_location_lat := Py.get_or "current_lat" (JFloat 0) parsed_data;
     current_location_lon := Py.get_or "current_lon" (JFloat 0) parsed_data;
     next_stations := firstn 3 upcoming_stations;
     timing_scheduled_arrival := scheduled_arrival;
     timing_actual_arrival := actual_arrival;
     timing_last_updated :=
       Py.get_or "last_updated" (JStr (isoformat rt now)) parsed_data;
     reliability_score := _calculate_reliability_score parsed_data delay_minutes;
     data_source := Py.get_or "data_source" (JStr "unknown") parsed_data;
     processed_at := isoformat rt now;
     note :=
       match Py.dict_get "note" parsed_data with
       | Some v => if Py.truthy v then Some v else None
       | None => None
       end |}.

(** [_run] *)
Definition _run (now : datetime) (input_data : py_input) : output :=
  let parsed :=
    match input_data with
    | InStr s => json_loads rt (clean_input s)
    | InObj v => Some v
    end in
  match parsed with
  | None => Error (JStr "Could not parse input data") None
  | Some (JDict parsed_data) =>
      match Py.dict_get "error" parsed_data with
      | Some e => Error e (Some false)
      | None => Processed (process now parsed_data)
      end
  | Some _ => Error (JStr "Invalid input format") None
  end.

End WithRuntime.

Section Serialise.

(** The text of each emoji literal. *)
Context (glyph : emoji -> string).

(** The dictionary [processed_data] of [_run], as it is handed to
    [json.dumps]. *)
Definition to_json (p : processed_data) : dict :=
  [ ("train_info",
      JDict [ ("number", train_info_number p); ("name", train_info_name p) ]);
    ("status",
      JDict [ ("category", JStr (status_category p));
              ("emoji", JStr (glyph (status_emoji p)));
              ("delay_minutes", JInt (status_delay_minutes p));
              ("delay_text", JStr (status_delay_text p)) ]);
    ("current_location",
      JDict [ ("station", current_location_station p);
              ("lat", current_location_lat p);
              ("lon", current_location_lon p) ]);
    ("next_stations", JList (next_stations p));
    ("timing",
      JDict [ ("scheduled_arrival", timing_scheduled_arrival p);
              ("actual_arrival", timing_actual_arrival p);
              ("last_updated", timing_last_updated p) ]);
    ("reliability_score", JFloat (reliability_score p));
    ("data_source", data_source p);
    ("processed_at", JStr (processed_at p)) ]
  ++ match note p with
     | Some v => [("note", v)]
     | None => []
     end.

(** The dictionary that [_run] hands to [json.dumps]. *)
Definition output_json (o : output) : dict :=
  match o with
  | Error e None => [("error", e)]
  | Error e (Some flag) => [("error", e); ("processed", JBool flag)]
  | Processed p => to_json p
  end.

End Serialise.

End DataProcessingTool.

(** ** TrainValidationTool (the input validator) *)

Module TrainValidationTool.

(** What [_run] returns (before [json.dumps]): the success dictionary
    [{valid: True, train_number, date, message}] or the dictionary of
    [_format_error], [{valid: False, error, train_number: None,
    date: None}]. *)
Inductive output : Type :=
| Valid (train_number date message : string)
| Invalid (error : string).

Definition _format_error (error_message : string) : output :=
  Invalid error_message.

(** The dictionary behind an [output]. *)
Definition to_json (o : output) : dict :=
  match o with
  | Valid train_number date message =>
      [ ("valid", JBool true); ("train_number", JStr train_number);
        ("date", JStr date); ("message", JStr message) ]
  | Invalid error =>
      [ ("valid", JBool false); ("error", JStr error);
        ("train_number", JNull); ("date", JNull) ]
  end.

(** The last day ordinal of [datetime.date]: adding a [timedelta] beyond
    it raises [OverflowError]. *)
Definition max_ordinal : Z := 3652059.

Section WithRuntime.

Context (rt : PyRuntime).

(** [_run]; [today] is the day ordinal of [datetime.now().date()]. *)
Definition _run (today : Z) (train_number date : json) : output :=
  let train_number := Str.strip (py_str rt train_number) in
  if negb (Str.re_match_train train_number)
  then _format_error "Train number must be exactly 5 digits"
  else
    let success (date : string) :=
      Valid train_number date
        ("Train " ++ train_number ++ " validated successfully for " ++ date) in
    if Py.truthy date then
      let date := Str.strip (py_str rt date) in
      match strptime_ymd rt date with
      | None => _format_error "Invalid date format. Use YYYY-MM-DD"
      | Some parsed_date =>
          if (parsed_date <? today)%Z
          then _format_error "Date cannot be in the past"
          else if (max_ordinal <? today + 120)%Z
          then _format_error
                 ("Validation error: " ++ exn_text rt Overflow)
          else if (parsed_date >? today + 120)%Z
          then _format_error "Date cannot be more than 120 days in the future"
          else success date
      end
    else success (strftime_ymd rt today).

(** [run], the entry point that takes a JSON string or a dictionary. *)
Definition run (today : Z) (input_data : py_input) : output :=
  let parsed :=
    match input_data with
    | InStr s =>
        match json_loads rt s with
        | Some v => Some v
        | None =>
            match Str.re_search_train s with
            | Some m => Some (JDict [("train_number", JStr m)])
            | None => None
            end
        end
    | InObj v => Some v
    end in
  match parsed with
  | None => _format_error "Could not parse train number from input"
  | Some (JDict parsed_data) =>
      _run today (Py.get_or "train_number" (JStr EmptyString) parsed_data)
                 (Py.get_or "date" JNull parsed_data)
  | Some _ => _format_error "Invalid input format"
  end.

End WithRuntime.

End TrainValidationTool.

(** ** GeospatialTool (the great-circle distance) *)

Module GeospatialTool.

Local Open Scope R_scope.

(** [math.radians] *)
Definition radians (x : R) : R := x * (PI / 180).

(** The coordinate check of [_run]. *)
Definition valid_point (lat lon : R) : Prop :=
  -90 <= lat <= 90 /\ -180 <= lon <= 180.

(** [_haversine_distance] *)
Definition _haversine_distance (lat1 lon1 lat2 lon2 : R) : R :=
  let R := 6371 in
  let lat1 := radians lat1 in
  let lon1 := radians lon1 in
  let lat2 := radians lat2 in
  let lon2 := radians lon2 in
  let dlat := lat2 - lat1 in
  let dlon := lon2 - lon1 in
  let a := sin (dlat / 2) ^ 2 + cos lat1 * cos lat2 * sin (dlon / 2) ^ 2 in
  let c := 2 * asin (sqrt a) in
  R * c.

(** [math.degrees] *)
Definition degrees (x : R) : R := x * (180 / PI).

(** [math.atan2(y, x)]: the angle of the point [(x, y)], in the interval
    from [-PI] (excluded) to [PI]; the signed zeros of the floats are
    not modelled. *)
Definition atan2 (y x : R) : R :=
  if Rlt_dec 0 x then atan (y / x)
  else if Rlt_dec x 0 then
    if Rle_dec 0 y then atan (y / x) + PI else atan (y / x) - PI
  else if Rlt_dec 0 y then PI / 2
  else if Rlt_dec y 0 then - (PI / 2)
  else 0.

(** [a % m] on floats, for a positive [m]: [a] less the multiple of [m]
    below it. *)
Definition fmod (a m : R) : R := a - m * IZR (Int_part (a / m)).

(** [_calculate_bearing] *)
Definition _calculate_bearing (lat1 lon1 lat2 lon2 : R) : R :=
  let lat1 := radians lat1 in
  let lon1 := radians lon1 in
  let lat2 := radians lat2 in
  let lon2 := radians lon2 in
  let dlon := lon2 - lon1 in
  let y := sin dlon * cos lat2 in
  let x := cos lat1 * sin lat2 - sin lat1 * cos lat2 * cos dlon in
  let bearing_rad := atan2 y x in
  let bearing_deg := degrees bearing_rad in
  fmod (bearing_deg + 360) 360.

(** [round(x)] of a float: the nearest integer, the even one at a tie. *)
Definition round_half_even (x : R) : Z :=
  let n := Int_part x in
  if Rlt_dec (x - IZR n) (1 / 2) then n
  else if Rlt_dec (1 / 2) (x - IZR n) then (n + 1)%Z
  else if Z.even n then n else (n + 1)%Z.

Definition directions : list string :=
  [ "North"; "North-Northeast"; "Northeast"; "East-Northeast";
    "East"; "East-Southeast"; "Southeast"; "South-Southeast";
    "South"; "South-Southwest"; "Southwest"; "West-Southwest";
    "West"; "West-Northwest"; "Northwest"; "North-Northwest" ].

(** [_bearing_to_direction]; the index is never out of range, since
    [%] with a positive modulus is not negative. *)
Definition _bearing_to_direction (bearing : R) : string :=
  let index := (round_half_even (bearing / 22.5) mod 16)%Z in
  nth (Z.to_nat index) directions EmptyString.

(** The dictionary of [_get_region_info]; the keys [region] and
    [likely_state] may be absent. *)
Record region_info : Type := {
  hemisphere : string;
  longitude_zone : string;
  region : option string;
  likely_state : option string
}.

(** [lo <= x <= hi] *)
Definition within (lo hi x : Q) : bool := Qle_bool lo x && Qle_bool x hi.

(** [_get_region_info] *)
Definition _get_region_info (lat lon : Q) : region_info :=
  let hemisphere := if Qle_bool 0 lat then "Northern" else "Southern" in
  let longitude_zone := if Qle_bool 0 lon then "Eastern" else "Western" in
  if within 6 37 lat && within 68 97 lon then
    {| hemisphere := hemisphere;
       longitude_zone := longitude_zone;
       region := Some "Indian Subcontinent";
       likely_state :=
         if within 8 13 lat && within 76 80 lon
         then Some "Tamil Nadu/Karnataka"
         else if within 19 24 lat && within 72 75 lon
         then Some "Maharashtra"
         else if within 28 31 lat && within 76 78 lon
         then Some "Delhi/Haryana"
         else if within 22 26 lat && within 88 92 lon
         then Some "West Bengal"
         else None |}
  else
    {| hemisphere := hemisphere;
       longitude_zone := longitude_zone;
       region := None;
       likely_state := None |}.

(** The operations of [_run] that can raise: [location.get] on an
    object that is not a dictionary ([AttributeError]), and the
    comparison of a coordinate that is not a number with a bound
    ([TypeError]). *)
Inductive failure : Type :=
| NoGet (v : json)
| NotOrdered (v : json).

(** The part of the result that is there when both target coordinates
    are given. *)
Record target_report : Type := {
  target_lat : json;
  target_lon : json;
  distance_km : R;
  bearing_degrees : R;
  direction : string
}.

(** What [_run] returns (before [json.dumps]): an error dictionary, the
    error dictionary of the outer [except] (its text is "Geospatial
    calculation failed: " and the text of the exception), or the
    result. *)
Inductive output : Type :=
| Error (error : string)
| Failed (cause : failure)
| Report (current_lat current_lon : json) (target : option target_report)
         (info : region_info).

(** [round(x, digits)] of a float. *)
Definition round_to (digits : nat) (x : R) : R :=
  IZR (round_half_even (x * 10 ^ digits)) / 10 ^ digits.

(** [not (-90 <= lat <= 90) or not (-180 <= lon <= 180)], evaluated from
    left to right: the numbers when both are in range, [None] when one
    is not, and the failure of the first comparison that raises. *)
Definition check (lat lon : json) : failure + option (Q * Q) :=
  match Py.number_of lat with
  | None => inl (NotOrdered lat)
  | Some a =>
      if negb (within (-90) 90 a) then inr None
      else
        match Py.number_of lon with
        | None => inl (NotOrdered lon)
        | Some b =>
            if negb (within (-180) 180 b) then inr None else inr (Some (a, b))
        end
  end.

Definition is_none (v : json) : bool :=
  match v with JNull => true | _ => false end.

(** The body of [_run] once [parsed_data] is a dictionary. *)
Definition locate (parsed_data : dict) : output :=
  let coordinates :=
    match Py.dict_get "current_location" parsed_data with
    | Some (JDict location) =>
        inr (Py.get_or "lat" (JInt 0) location, Py.get_or "lon" (JInt 0) location)
    | Some location => inl (NoGet location)
    | None =>
        inr (Py.get_or "current_lat" (JInt 0) parsed_data,
             Py.get_or "current_lon" (JInt 0) parsed_data)
    end in
  match coordinates with
  | inl cause => Failed cause
  | inr (current_lat, current_lon) =>
      let target_lat := Py.get_or "target_lat" JNull parsed_data in
      let target_lon := Py.get_or "target_lon" JNull parsed_data in
      match check current_lat current_lon with
      | inl cause => Failed cause
      | inr None => Error "Invalid current coordinates"
      | inr (Some (lat, lon)) =>
          if is_none target_lat || is_none target_lon
          then Report current_lat current_lon None (_get_region_info lat lon)
          else
            match check target_lat target_lon with
            | inl cause => Failed cause
            | inr None => Error "Invalid target coordinates"
            | inr (Some (tlat, tlon)) =>
                let distance_km :=
                  _haversine_distance (Q2R lat) (Q2R lon) (Q2R tlat) (Q2R tlon) in
                let bearing_deg :=
                  _calculate_bearing (Q2R lat) (Q2R lon) (Q2R tlat) (Q2R tlon) in
                Report current_lat current_lon
                  (Some {| target_lat := target_lat;
                           target_lon := target_lon;
                           distance_km := round_to 2 distance_km;
                           bearing_degrees := round_to 1 bearing_deg;
                           direction := _bearing_to_direction bearing_deg |})
                  (_get_region_info lat lon)
            end
      end
  end.

(** [_run] *)
Definition _run (rt : PyRuntime) (input_data : py_input) : output :=
  let parsed :=
    match input_data with
    | InStr s => json_loads rt (DataProcessingTool.clean_input s)
    | InObj v => Some v
    end in
  match parsed with
  | None => Error "Could not parse input data"
  | Some (JDict parsed_data) => locate parsed_data
  | Some _ => Error "Invalid input format"
  end.

End GeospatialTool.

(** ** RailwayAPITool (the status fetcher) *)

Module RailwayAPITool.

(** The dictionary [cache], from a key to the cached dictionary and the
    [time.time()] of its insertion, and the queries for which a search
    was attempted so far (a ghost log, oldest first). *)
Record state : Type := State {
  cache : gmap string (dict * Q);
  queries : list string
}.

(** The results of the [random] calls of [_get_mock_data]. *)
Record random_draws : Type := {
  choice_index : nat;
  randint_0_45 : Z;
  uniform_lat : Q;
  uniform_lon : Q;
  sample_indices : nat * nat * nat
}.

(** What one call of [_run] reads from the outside: the two readings of
    [time.time()], [datetime.now()], the outcome of
    [SerperDevTool()._run(query)] and the random draws. *)
Record env : Type := {
  time_at_lookup : Q;
  time_at_store : Q;
  now : datetime;
  search : string -> exn + json;
  draws : random_draws
}.

(** The frame of one call: the shared state and the two locals that the
    outer handler inspects through [locals()]. *)
Record frame : Type := Frame {
  shared : state;
  v_train_number : option json;
  v_date : option json
}.

(** Computations that may raise and that act on the frame. *)
Definition M (A : Type) : Type := frame -> (exn + A) * frame.

#[export] Instance M_ret : MRet M := fun A x f => (inr x, f).
#[export] Instance M_bind : MBind M := fun A B k m f =>
  match m f with
  | (inl e, f') => (inl e, f')
  | (inr x, f') => k x f'
  end.

Definition lift {A} (r : exn + A) : M A := fun f => (r, f).

(** [try: body except Exception as e: handler e] *)
Definition try_except {A} (body : M A) (handler : exn -> M A) : M A :=
  fun f =>
    match body f with
    | (inl e, f') => handler e f'
    | (inr x, f') => (inr x, f')
    end.

(** [self.__class__.cache]. The class derives from [BaseTool], a
    pydantic model: a name that the class body annotates and gives a
    default ([cache], [cache_timeout]) is a field of the instances and
    is taken out of the namespace of the class. The class has no
    attribute [cache], so reading it there raises [AttributeError]. *)
Definition class_cache : M (gmap string (dict * Q)) :=
  lift (inl (NoClassAttribute "cache")).

Definition put_cache (c : gmap string (dict * Q)) : M unit :=
  fun f => (inr tt, Frame (State c (queries (shared f)))
                          (v_train_number f) (v_date f)).

Definition log_query (q : string) : M unit :=
  fun f => (inr tt, Frame (State (cache (shared f)) (queries (shared f) ++ [q]))
                          (v_train_number f) (v_date f)).

Definition set_train_number (v : json) : M unit :=
  fun f => (inr tt, Frame (shared f) (Some v) (v_date f)).

Definition set_date (v : json) : M unit :=
  fun f => (inr tt, Frame (shared f) (v_train_number f) (Some v)).

Definition get_locals : M (option json * option json) :=
  fun f => (inr (v_train_number f, v_date f), f).

Definition cache_timeout : Q := 300.

Definition error_record (msg : json) : json := JDict [("error", msg)].

Definition mock_stations : list string :=
  [ "New Delhi"; "Mumbai Central"; "Chennai Central"; "Kolkata";
    "Bangalore City"; "Hyderabad"; "Pune"; "Ahmedabad"; "Jaipur";
    "Lucknow"; "Kanpur"; "Nagpur"; "Bhopal"; "Indore"; "Surat" ].

(** [random.choice(l)] for the draw [i]. *)
Definition choice (i : nat) (l : list string) : string :=
  nth (i mod List.length l) l EmptyString.

Definition remove_nth (i : nat) (l : list string) : list string :=
  firstn i l ++ skipn (S i) l.

(** [random.sample(l, 3)]: three picks without replacement. *)
Definition sample3 (ijk : nat * nat * nat) (l : list string) : list string :=
  let '(i, j, k) := ijk in
  let i := (i mod List.length l)%nat in
  let l1 := remove_nth i l in
  let j := (j mod List.length l1)%nat in
  let l2 := remove_nth j l1 in
  [nth i l EmptyString; nth j l1 EmptyString; choice k l2].

(** ["valid" in parsed_data] *)
Definition contains_valid (parsed_data : json) : exn + bool :=
  match parsed_data with
  | JDict d => inr (Py.dict_has "valid" d)
  | JList l => inr (existsb (fun v => Py.eq_str v "valid") l)
  | JStr s => inr (Str.contains "valid" s)
  | _ => inl (NotContainer parsed_data)
  end.

(** [parsed_data.get(k, default)] *)
Definition method_get (parsed_data : json) (k : string) (default : json)
  : exn + json :=
  match parsed_data with
  | JDict d => inr (Py.get_or k default d)
  | _ => inl (NoMethod parsed_data "get")
  end.

Section WithRuntime.

Context (rt : PyRuntime).

(** The parsing block of [_run]: an early result or [parsed_data]. *)
Definition parse_input (input_data : py_input) : json + json :=
  match input_data with
  | InStr s =>
      let cleaned_input := Str.strip s in
      match json_loads rt cleaned_input with
      | Some v => inr v
      | None =>
          if Str.startswith Str.dquote cleaned_input
             && Str.endswith Str.dquote cleaned_input
          then
            match json_loads rt (Str.slice_1_m1 cleaned_input) with
            | Some v => inr v
            | None =>
                match Str.re_search_train s with
                | Some m =>
                    inr (JDict [("train_number", JStr m); ("valid", JBool true)])
                | None => inl (error_record (JStr "Could not parse input data"))
                end
            end
          else inl (error_record (JStr "Invalid JSON format"))
      end
  | InObj (JDict d) => inr (JDict d)
  | InObj _ => inr (JDict [])
  end.

(** The dictionary that [_get_mock_data] returns; [actual] is
    [now + timedelta(minutes=delay_minutes)]. *)
Definition mock_record (e : env) (actual : datetime) (train_number : json)
    (error_context : string) : dict :=
  [ ("train_number", JStr (py_str rt train_number));
    ("train_name", JStr ("Express Train " ++ py_str rt train_number));
    ("current_station", JStr (choice (choice_index (draws e)) mock_stations));
    ("current_lat", JFloat (uniform_lat (draws e)));
    ("current_lon", JFloat (uniform_lon (draws e)));
    ("scheduled_arrival", JStr (isoformat rt (now e)));
    ("actual_arrival", JStr (isoformat rt actual));
    ("upcoming_stations",
      JList (map JStr (sample3 (sample_indices (draws e)) mock_stations)));
    ("last_updated", JStr (isoformat rt (now e)));
    ("data_source", JStr "mock_data");
    ("note",
      JStr (if Str.is_empty error_context
            then "Using mock data for demonstration"
            else "Using mock data - " ++ error_context)) ].

(** [_get_mock_data]; it does not use [date]. *)
Definition _get_mock_data (e : env) (train_number date : json)
    (error_context : string) : M dict :=
  let delay_minutes := randint_0_45 (draws e) in
  actual ← lift (match Dt.add_minutes (now e) delay_minutes with
                 | Some d => inr d
                 | None => inl Overflow
                 end);
  mret (mock_record e actual train_number error_context).

(** The dictionary [train_info] as [_extract_train_info] creates it. *)
Definition initial_train_info (e : env) (train_number : string) : dict :=
  [ ("train_number", JStr train_number);
    ("train_name", JStr ("Train " ++ train_number));
    ("current_station", JStr "Information not available");
    ("current_lat", JFloat 0);
    ("current_lon", JFloat 0);
    ("scheduled_arrival", JNull);
    ("actual_arrival", JNull);
    ("upcoming_stations", JList []);
    ("last_updated", JStr (isoformat rt (now e)));
    ("data_source", JStr "web_search") ].

Definition status_keywords : list string :=
  ["running"; "departed"; "arrived"; "delayed"; "on time"].

(** The parsing of [search_results] into [results_data]. *)
Definition load_results (search_results : json) : json :=
  let empty := JDict [("organic", JList [])] in
  match search_results with
  | JStr s => match json_loads rt s with Some v => v | None => empty end
  | JDict d => JDict d
  | _ => empty
  end.

(** [organic_results[:5]], as the list the loop runs over; slicing a
    dictionary or a scalar raises. *)
Definition first_five (organic_results : json) : exn + list json :=
  match organic_results with
  | JList l => inr (firstn 5 l)
  | JStr s =>
      inr (map (fun c => JStr (String c EmptyString))
               (list_ascii_of_string (Str.take 5 s)))
  | _ => inl (NotSliceable organic_results)
  end.

(** One iteration of the loop over the results. *)
Definition scan_result (e : env) (train_number : string)
    (train_info : dict) (result : json) : exn + dict :=
  match result with
  | JDict r =>
      match Py.get_or "title" (JStr EmptyString) r,
            Py.get_or "snippet" (JStr EmptyString) r with
      | JStr raw_title, JStr raw_snippet =>
          let title := Str.lower raw_title in
          let snippet := Str.lower raw_snippet in
          let train_info :=
            if Str.contains train_number title && Str.contains "train" title
            then Py.dict_set "train_name"
                   (JStr (Str.strip
                            (Str.replace train_number EmptyString raw_title)))
                   train_info
            else train_info in
          if existsb (fun keyword => Str.contains keyword snippet) status_keywords
          then
            let train_info :=
              match re_search_station rt snippet with
              | Some group1 =>
                  Py.dict_set "current_station" (JStr (Str.strip group1)) train_info
              | None => train_info
              end in
            match re_search_delay rt snippet with
            | Some n =>
                let delay_minutes :=
                  if Str.contains "hr" snippet || Str.contains "hour" snippet
                  then (n * 60)%Z else n in
                match Dt.add_minutes (now e) delay_minutes with
                | Some actual =>
                    inr (Py.dict_set "actual_arrival" (JStr (isoformat rt actual))
                           (Py.dict_set "scheduled_arrival"
                              (JStr (isoformat rt (now e))) train_info))
                | None => inl Overflow
                end
            | None => inr train_info
            end
          else inr train_info
      | JStr _, v => inl (NoMethod v "lower")
      | v, _ => inl (NoMethod v "lower")
      end
  | _ => inr train_info
  end.

Definition scan_results (e : env) (train_number : string)
    (train_info : dict) (results : list json) : exn + dict :=
  fold_left
    (fun acc result =>
       match acc with
       | inl ex => inl ex
       | inr info => scan_result e train_number info result
       end)
    results (inr train_info).

(** [_extract_train_info] *)
Definition _extract_train_info (e : env) (search_results : json)
    (train_number : string) : M dict :=
  try_except
    (organic_results ←
       lift (method_get (load_results search_results) "organic" (JList []));
     results ← lift (first_five organic_results);
     lift (scan_results e train_number
             (initial_train_info e train_number) results))
    (fun ex =>
       _get_mock_data e (JStr train_number) JNull
         ("Data extraction failed: " ++ exn_text rt ex)).

(** [datetime.now().strftime("%Y-%m-%d")] *)
Definition today_text (e : env) : string :=
  strftime_ymd rt (dt_wall (now e) / Dt.us_per_day + 1)%Z.

Definition cache_key (train_number : string) (date : json) : string :=
  train_number ++ "_" ++ py_str rt (Py.or_else date (JStr "today")).

Definition search_query (e : env) (train_number : string) (date : json) : string :=
  let q := "train " ++ train_number
           ++ " live status running status current location indian railway" in
  if Py.truthy date && negb (Py.eq_str date (today_text e))
  then q ++ " " ++ py_str rt date else q.

(** A cache entry that is still fresh at the lookup time of [e]. *)
Definition fresh (e : env) (entry : dict * Q) : bool :=
  QMicromega.Qlt_bool (time_at_lookup e - snd entry)%Q cache_timeout.

(** The inner [try] of [_run]: the search, the extraction and the
    insertion into the cache; any exception falls back to mock data,
    which is returned without being stored. The insertion reads
    [self.__class__.cache] and so ends in that fallback. As the source
    is written, the dictionary put in the cache and the dictionary
    returned are one object, and the [source] key written after the
    insertion would be in the cached entry too. *)
Definition search_or_mock (e : env) (train_number : string) (date : json)
  : M json :=
  try_except
    (_ ← log_query (search_query e train_number date);
     search_results ← lift (search e (search_query e train_number date));
     train_data ← _extract_train_info e search_results train_number;
     let train_data := Py.dict_set "source" (JStr "web_search") train_data in
     c ← class_cache;
     _ ← put_cache (<[cache_key train_number date
                        := (train_data, time_at_store e)]> c);
     mret (JDict train_data))
    (fun search_error =>
       mock_data ← _get_mock_data e (JStr train_number) date
                     ("Search failed: " ++ exn_text rt search_error);
       mret (JDict mock_data)).

(** The rest of [_run] once the train number has passed the format
    check: the cache lookup first, then [search_or_mock]. The lookup
    begins by reading [self.__class__.cache], which raises, so that
    the outer handler of [_run] takes over. As the source is written,
    a hit would write the [source] key into the cached dictionary
    itself. *)
Definition lookup_or_search (e : env) (train_number : string) (date : json)
  : M json :=
  c ← class_cache;
  match c !! cache_key train_number date with
  | Some (cached_data, timestamp) =>
      if fresh e (cached_data, timestamp) then
        let cached_data := Py.dict_set "source" (JStr "cache") cached_data in
        _ ← put_cache (<[cache_key train_number date
                           := (cached_data, timestamp)]> c);
        mret (JDict cached_data)
      else search_or_mock e train_number date
  | None => search_or_mock e train_number date
  end.

(** The checks of [_run] on the train number, then the lookup. *)
Definition check_and_fetch (e : env) (train_number date : json) : M json :=
  if negb (Py.truthy train_number)
  then mret (error_record (JStr "Train number is required"))
  else
    match train_number with
    | JStr tn =>
        if negb (Str.re_match_train tn)
        then mret (error_record
                     (JStr "Invalid train number format - must be 5 digits"))
        else lookup_or_search e tn date
    | _ => lift (inl (NotText train_number))
    end.

(** The body of the outer [try] of [_run]. *)
Definition body (e : env) (input_data : py_input) : M json :=
  match parse_input input_data with
  | inl early => mret early
  | inr parsed_data =>
      has_valid ← lift (contains_valid parsed_data);
      if has_valid : bool then
        valid ← lift (method_get parsed_data "valid" (JBool false));
        if negb (Py.truthy valid) then
          error_msg ← lift (method_get parsed_data "error"
                              (JStr "Invalid input from validation"));
          mret (error_record error_msg)
        else
          train_number ← lift (method_get parsed_data "train_number"
                                 (JStr EmptyString));
          _ ← set_train_number train_number;
          date ← lift (method_get parsed_data "date" JNull);
          _ ← set_date date;
          check_and_fetch e train_number date
      else
        raw ← lift (method_get parsed_data "train_number" (JStr EmptyString));
        let train_number := JStr (Str.strip (py_str rt raw)) in
        _ ← set_train_number train_number;
        date ← lift (method_get parsed_data "date" JNull);
        _ ← set_date date;
        check_and_fetch e train_number date
  end.

(** The outer [except] of [_run]: mock data for the train number and
    date bound so far. *)
Definition handler (e : env) (ex : exn) : M json :=
  '(train_number, date) ← get_locals;
  let train_number :=
    match train_number with
    | Some v => if Py.truthy v then v else JStr "00000"
    | None => JStr "00000"
    end in
  let date := match date with Some v => v | None => JNull end in
  mock_data ← _get_mock_data e train_number date
                ("API tool failed: " ++ exn_text rt ex);
  mret (JDict mock_data).

(** [_run]: the value returned (before [json.dumps]) or the exception
    raised, and the state left behind. *)
Definition _run (e : env) (input_data : py_input) (st : state)
  : (exn + json) * state :=
  let '(r, f) := try_except (body e input_data) (handler e)
                   (Frame st None None) in
  (r, shared f).

End WithRuntime.

End RailwayAPITool.

(** ** ResponseGeneratorTool (the formatter) *)

Module ResponseGeneratorTool.

(** The emoji literals of [_run] that the normaliser does not use, by
    what they depict. *)
Inductive icon : Type :=
| IconTrain
| IconTimer
| IconPin
| IconTarget
| IconGreenCircle
| IconInformation
| IconDisk
| IconGlobe
| IconClock
| IconMemo
| IconCross.

(** The operations of [_run] that can raise: [get] on an object that is
    not a dictionary ([AttributeError]); [len] of a number or a truth
    value, a slice of a dictionary, an item of [join] that is not text,
    and the comparison of an object that is not a number with 80 (all
    [TypeError]). *)
Inductive failure : Type :=
| NoGet (v : json)
| NoLength (v : json)
| NoSlice (v : json)
| NotText (v : json)
| NotOrdered (v : json).

#[export] Instance failure_ret : MRet (sum failure) := fun A x => inr x.
#[export] Instance failure_bind : MBind (sum failure) := fun A B k m =>
  match m with
  | inl f => inl f
  | inr x => k x
  end.

(** The dictionary [summary_data]. *)
Record summary_data : Type := {
  train : string;
  status : json;
  delay : json;
  location : json;
  reliability : json;
  data_source : json
}.

(** What [_run] returns (before [json.dumps]): an error dictionary; the
    refusal of an error record, with [success] false; the dictionary of
    the outer [except], with [success] false; or the response, with
    [success] true. *)
Inductive output : Type :=
| Error (error : string)
| Refused (message : string) (error : json)
| Failed (message : string) (error : string)
| Response (message : string) (summary : summary_data) (response_data : dict).

(** [v.get(k, default)] *)
Definition get (v : json) (k : string) (default : json) : failure + json :=
  match v with
  | JDict d => inr (Py.get_or k default d)
  | _ => inl (NoGet v)
  end.

(** [sep.join(l)] for a list of texts. *)
Fixpoint join (sep : string) (l : list string) : string :=
  match l with
  | [] => EmptyString
  | [x] => x
  | x :: l' => x ++ sep ++ join sep l'
  end.

(** The items of a list as texts, as [join] needs them. *)
Fixpoint texts (l : list json) : failure + list string :=
  match l with
  | [] => inr []
  | JStr s :: l' =>
      match texts l' with
      | inl f => inl f
      | inr ts => inr (s :: ts)
      end
  | v :: _ => inl (NotText v)
  end.

(** [', '.join(next_stations[:3])] under the condition
    [next_stations and len(next_stations) > 0]; [None] when the
    condition is false. *)
Definition joined_stations (next_stations : json) : failure + option string :=
  if negb (Py.truthy next_stations) then inr None
  else
    match next_stations with
    | JList l =>
        match texts (firstn 3 l) with
        | inl f => inl f
        | inr ts => inr (Some (join ", " ts))
        end
    | JStr s =>
        inr (Some (join ", "
                     (map (fun c => String c EmptyString)
                          (list_ascii_of_string (Str.take 3 s)))))
    | JDict _ => inl (NoSlice next_stations)
    | _ => inl (NoLength next_stations)
    end.

Definition optional (line : option string) : list string :=
  match line with
  | Some l => [l]
  | None => []
  end.

Section WithRuntime.

(** The runtime, the texts of the emoji literals and of the
    exceptions, and [strftime("%H:%M on %Y-%m-%d")]. *)
Context (rt : PyRuntime)
        (glyph : DataProcessingTool.emoji -> string)
        (icon_text : icon -> string)
        (failure_text : failure -> string)
        (strftime_hm : datetime -> string).

(** The emoji of the reliability line. *)
Definition reliability_emoji (reliability_score : json) : failure + string :=
  match Py.number_of reliability_score with
  | None => inl (NotOrdered reliability_score)
  | Some x =>
      inr (if Qle_bool 80 x then icon_text IconGreenCircle
           else if Qle_bool 60 x then glyph DataProcessingTool.EmojiYellowCircle
           else glyph DataProcessingTool.EmojiRedCircle)
  end.

(** The line about the data source, if there is one. *)
Definition source_line (data_source : json) : option string :=
  if Py.eq_str data_source "mock_data"
  then Some (icon_text IconInformation ++ " *Using demonstration data*")
  else if Py.eq_str data_source "cache"
  then Some (icon_text IconDisk ++ " *Data from cache*")
  else if Py.eq_str data_source "web_search"
  then Some (icon_text IconGlobe ++ " *Data from web search*")
  else None.

(** The line about the last update; a value that does not parse is
    passed over. *)
Definition updated_line (last_updated : json) : option string :=
  if Py.truthy last_updated then
    match DataProcessingTool.parse_timestamp rt last_updated with
    | Some update_time =>
        Some (icon_text IconClock ++ " **Last Updated:** "
              ++ strftime_hm update_time)
    | None => None
    end
  else None.

(** The body of [_run] once [parsed_data] is a dictionary without an
    [error] key. *)
Definition generate (parsed_data : dict) : failure + output :=
  let train_info := Py.get_or "train_info" (JDict []) parsed_data in
  let status := Py.get_or "status" (JDict []) parsed_data in
  let current_location := Py.get_or "current_location" (JDict []) parsed_data in
  let next_stations := Py.get_or "next_stations" (JList []) parsed_data in
  let timing := Py.get_or "timing" (JDict []) parsed_data in
  let reliability_score := Py.get_or "reliability_score" (JInt 0) parsed_data in
  let data_source := Py.get_or "data_source" (JStr "unknown") parsed_data in
  train_number ← get train_info "number" (JStr "Unknown");
  train_name ← get train_info "name"
                 (JStr ("Train " ++ py_str rt train_number));
  let header :=
    icon_text IconTrain ++ " **" ++ py_str rt train_name
    ++ "** (#" ++ py_str rt train_number ++ ")" in
  status_emoji ← get status "emoji"
                   (JStr (glyph DataProcessingTool.EmojiMagnifier));
  status_category ← get status "category" (JStr "Unknown");
  delay_text ← get status "delay_text" (JStr "Status unknown");
  let status_line :=
    py_str rt status_emoji ++ " **Status:** " ++ py_str rt status_category in
  let timing_line :=
    icon_text IconTimer ++ " **Timing:** " ++ py_str rt delay_text in
  current_station ← get current_location "station" (JStr "Unknown location");
  let location_line :=
    icon_text IconPin ++ " **Current Location:** "
    ++ py_str rt current_station in
  stations ← joined_stations next_stations;
  let stations_line :=
    match stations with
    | Some text => Some (icon_text IconTarget ++ " **Upcoming Stations:** " ++ text)
    | None => None
    end in
  emoji ← reliability_emoji reliability_score;
  let reliability_line :=
    emoji ++ " **Reliability Score:** " ++ py_str rt reliability_score ++ "%" in
  last_updated ← get timing "last_updated" JNull;
  let response_lines :=
    ([header; status_line; timing_line; location_line]
     ++ optional stations_line ++ [reliability_line]
     ++ optional (source_line data_source)
     ++ optional (updated_line last_updated))%list in
  let response_message :=
    join (String Str.newline EmptyString) response_lines in
  delay_minutes ← get status "delay_minutes" (JInt 0);
  let summary :=
    {| train := py_str rt train_name ++ " (#" ++ py_str rt train_number ++ ")";
       status := status_category;
       delay := delay_minutes;
       location := current_station;
       reliability := reliability_score;
       data_source := data_source |} in
  let note := Py.get_or "note" JNull parsed_data in
  let response_message :=
    if Py.truthy note
    then response_message
         ++ String Str.newline (String Str.newline EmptyString)
         ++ icon_text IconMemo ++ " **Note:** " ++ py_str rt note
    else response_message in
  mret (Response response_message summary parsed_data).

(** [_run] *)
Definition _run (input_data : py_input) : output :=
  let parsed :=
    match input_data with
    | InStr s => json_loads rt (DataProcessingTool.clean_input s)
    | InObj v => Some v
    end in
  match parsed with
  | None => Error "Could not parse input data"
  | Some (JDict parsed_data) =>
      match Py.dict_get "error" parsed_data with
      | Some e =>
          Refused (icon_text IconCross ++ " Error: " ++ py_str rt e) e
      | None =>
          match generate parsed_data with
          | inr o => o
          | inl f =>
              Failed (icon_text IconCross ++ " Response generation failed: "
                      ++ failure_text f)
                     (failure_text f)
          end
      end
  | Some _ => Error "Invalid input format"
  end.

(** The dictionary that [_run] hands to [json.dumps]. *)
Definition output_json (o : output) : dict :=
  match o with
  | Error e => [("error", JStr e)]
  | Refused m e => [("success", JBool false); ("message", JStr m); ("error", e)]
  | Failed m e =>
      [("success", JBool false); ("message", JStr m); ("error", JStr e)]
  | Response m s d =>
      [ ("success", JBool true);
        ("message", JStr m);
        ("summary",
          JDict [ ("train", JStr (train s)); ("status", status s);
                  ("delay", delay s); ("location", location s);
                  ("reliability", reliability s);
                  ("data_source", data_source s) ]);
        ("response_data", JDict d) ]
  end.

End WithRuntime.

End ResponseGeneratorTool.

(** ** ErrorHandlingTool *)

Module ErrorHandlingTool.

(** The dictionary that [_run] returns (before [json.dumps]). *)
Record response : Type := {
  error_type : json;
  message : string;
  suggestions : list string;
  retry_recommended : bool;
  handled_at : string
}.

(** The suggestions and the retry flag chosen from the error type. *)
Definition advice (error_type : json) : list string * bool :=
  if Py.eq_str error_type "validation" then
    ([ "Check that the train number is exactly 5 digits";
       "Ensure date is in YYYY-MM-DD format";
       "Verify that the date is not in the past";
       "Try with today's date if no specific date is needed" ], true)
  else if Py.eq_str error_type "api" || Py.eq_str error_type "network" then
    ([ "Check your internet connection";
       "Try again in a few moments";
       "The railway data service might be temporarily unavailable";
       "Consider trying with a different train number" ], true)
  else if Py.eq_str error_type "processing" then
    ([ "The train data might be incomplete";
       "Try with a different train number";
       "Check if the train number is correct";
       "Some trains might not have real-time tracking" ], true)
  else if Py.eq_str error_type "execution" then
    ([ "There was a system error during processing";
       "Try the request again";
       "If the problem persists, contact support";
       "Check that all required services are running" ], true)
  else
    ([ "An unexpected error occurred";
       "Try the request again";
       "Check your input parameters";
       "Contact support if the problem persists" ], false).

Section WithRuntime.

Context (rt : PyRuntime).

(** The body of [_run] once [parsed_data] is a dictionary; [now] is
    [datetime.now()]. *)
Definition handle (now : datetime) (parsed_data : dict) : response :=
  let error_type := Py.get_or "error_type" (JStr "unknown") parsed_data in
  let error_message :=
    Py.get_or "error_message" (JStr "Unknown error occurred") parsed_data in
  {| error_type := error_type;
     message := "Error in " ++ py_str rt error_type ++ ": "
                ++ py_str rt error_message;
     suggestions := fst (advice error_type);
     retry_recommended := snd (advice error_type);
     handled_at := isoformat rt now |}.

(** The outer [except] of [_run]. *)
Definition fallback (now : datetime) (ex : exn) : response :=
  {| error_type := JStr "error_handler_failure";
     message := "Error handler itself failed: " ++ exn_text rt ex;
     suggestions := [ "Critical system error occurred";
                      "Please contact technical support";
                      "Try restarting the application" ];
     retry_recommended := false;
     handled_at := isoformat rt now |}.

(** [_run]: a text that is not JSON becomes an error of type
    [parsing]; a text that is JSON but not an object has no [get] and
    ends in the fallback; an object that is not a dictionary is read
    as an empty one. *)
Definition _run (now : datetime) (input_data : py_input) : response :=
  match input_data with
  | InStr s =>
      match json_loads rt (DataProcessingTool.clean_input s) with
      | None =>
          handle now [ ("error_type", JStr "parsing");
                       ("error_message", JStr "Could not parse error context") ]
      | Some (JDict parsed_data) => handle now parsed_data
      | Some v => fallback now (NoMethod v "get")
      end
  | InObj (JDict parsed_data) => handle now parsed_data
  | InObj _ => handle now []
  end.

End WithRuntime.

End ErrorHandlingTool.

(** ** RailwayStatusCrew (the checks of [crew.py] before the crew runs) *)

Module RailwayStatusCrew.

(** [s.lstrip()], [s.rstrip()] and [s.strip()] for the characters that
    satisfy [p]: [str.strip(chars)] is [strip_by] for the members of
    [chars]. *)
Fixpoint lstrip_by (p : ascii -> bool) (s : string) : string :=
  match s with
  | EmptyString => EmptyString
  | String c s' => if p c then lstrip_by p s' else s
  end.

Fixpoint rstrip_by (p : ascii -> bool) (s : string) : string :=
  match s with
  | EmptyString => EmptyString
  | String c s' =>
      let r := rstrip_by p s' in
      if p c && Str.is_empty r then EmptyString else String c r
  end.

Definition strip_by (p : ascii -> bool) (s : string) : string :=
  rstrip_by p (lstrip_by p s).

(** [s.strip(c)] for a one-character [c]. *)
Definition strip_char (c : ascii) (s : string) : string :=
  strip_by (Ascii.eqb c) s.

(** [str.isdigit] on the code points below 256: the ASCII digits and the
    superscripts one, two and three; the empty string is not a digit
    string. *)
Definition is_digit_char (c : ascii) : bool :=
  Str.is_digit c || Str.between 178 179 c || (Str.code c =? 185)%nat.

Fixpoint all_digit_chars (s : string) : bool :=
  match s with
  | EmptyString => true
  | String c s' => is_digit_char c && all_digit_chars s'
  end.

Definition isdigit (s : string) : bool :=
  negb (Str.is_empty s) && all_digit_chars s.

(** The [str] branch of [_sanitize_input]. *)
Definition sanitize_text (value : string) : string :=
  let cleaned :=
    strip_char Str.squote (strip_char Str.dquote (Str.strip value)) in
  Str.replace (String Str.backslash (String Str.squote EmptyString))
              (String Str.squote EmptyString)
    (Str.replace (String Str.backslash (String Str.dquote EmptyString))
                 (String Str.dquote EmptyString) cleaned).

(** [_sanitize_input] *)
Definition _sanitize_input (value : json) : json :=
  match value with
  | JStr s => JStr (sanitize_text s)
  | _ => value
  end.

(** The dictionary that [_process_crew_result] returns for a result that
    it can read. *)
Record crew_result : Type := {
  success : bool;
  data : dict;
  message : json;
  timestamp : string
}.

Section WithRuntime.

Context (rt : PyRuntime).

(** [_validate_train_number]: the pair it returns, a flag and the
    cleaned train number or the message. *)
Definition _validate_train_number (train_number : json) : bool * json :=
  if negb (Py.truthy train_number)
  then (false, JStr "Train number is required")
  else
    let clean_number := sanitize_text (py_str rt train_number) in
    if negb (isdigit clean_number)
    then (false, JStr "Train number must contain only digits")
    else if negb (String.length clean_number =? 5)%nat
    then (false, JStr "Train number must be exactly 5 digits")
    else (true, JStr clean_number).

(** [_validate_date]: the date is optional, and only its format is
    checked. *)
Definition _validate_date (date : json) : bool * json :=
  if negb (Py.truthy date) then (true, JNull)
  else
    let clean_date := sanitize_text (py_str rt date) in
    match strptime_ymd rt clean_date with
    | Some _ => (true, JStr clean_date)
    | None => (false, JStr "Date must be in YYYY-MM-DD format")
    end.

(** The dictionary [error_inputs] that [_handle_execution_error]
    prepares for the error handling task; [original_inputs] is the
    dictionary of [_prepare_inputs_as_dict]. *)
Definition error_inputs (now : datetime) (error_message : string)
    (original_inputs : dict) : dict :=
  [ ("error_type", JStr "execution_error");
    ("error_message", JStr error_message);
    ("original_train_number",
      Py.get_or "train_number" (JStr "unknown") original_inputs);
    ("timestamp", JStr (isoformat rt now)) ].

(** [_process_crew_result] on the raw output of the crew. *)
Definition _process_crew_result (now : datetime) (raw_data : json)
  : crew_result :=
  let '(processed_data, message) :=
    match raw_data with
    | JDict d =>
        (d, Py.get_or "message" (JStr "Train status retrieved successfully") d)
    | JStr s =>
        match json_loads rt s with
        | Some (JDict d) => (d, Py.get_or "message" (JStr s) d)
        | _ => ([("response", JStr s)], JStr s)
        end
    | _ =>
        ([("response", JStr (py_str rt raw_data))], JStr (py_str rt raw_data))
    end in
  {| success := true;
     data := processed_data;
     message := message;
     timestamp := isoformat rt now |}.

End WithRuntime.

End RailwayStatusCrew.

(** ** A reference runtime

    An executable [PyRuntime] on which the tools can be run. It follows
    the Python library on the inputs that the examples of this file use:
    JSON texts without [\u] escapes and without [NaN] or [Infinity]; dates
    written [YYYY-MM-DD]; timestamps written as [isoformat] writes them,
    [YYYY-MM-DDTHH:MM:SS] with an optional fraction of six digits and an
    optional offset [+HH:MM]. The theorems do not depend on it. *)

Module Runtime.

(** *** The proleptic Gregorian calendar of [datetime] *)

Definition is_leap (year : Z) : bool :=
  (year mod 4 =? 0)%Z && (negb (year mod 100 =? 0)%Z || (year mod 400 =? 0)%Z).

Definition days_before_year (year : Z) : Z :=
  let y := (year - 1)%Z in (y * 365 + y / 4 - y / 100 + y / 400)%Z.

Definition days_in_month (year month : Z) : Z :=
  if (month =? 2)%Z then (if is_leap year then 29 else 28)%Z
  else if (month =? 4)%Z || (month =? 6)%Z || (month =? 9)%Z || (month =? 11)%Z
  then 30%Z else 31%Z.

Definition days_before_month (year month : Z) : Z :=
  fold_left (fun acc m => (acc + days_in_month year (Z.of_nat m))%Z)
            (seq 1 (Z.to_nat month - 1)) 0%Z.

Definition ymd2ord (year month day : Z) : Z :=
  (days_before_year year + days_before_month year month + day)%Z.

(** The month and the day of the [n]-th day (from 0) of [year]. *)
Fixpoint month_day (year : Z) (months : list nat) (n : Z) : Z * Z :=
  match months with
  | [] => (12, 31)%Z
  | m :: rest =>
      let len := days_in_month year (Z.of_nat m) in
      if (n <? len)%Z then (Z.of_nat m, n + 1)%Z
      else month_day year rest (n - len)%Z
  end.

Definition ord2ymd (ordinal : Z) : Z * Z * Z :=
  let n := (ordinal - 1)%Z in
  let n400 := (n / 146097)%Z in
  let n := (n mod 146097)%Z in
  let n100 := (n / 36524)%Z in
  let n := (n mod 36524)%Z in
  let n4 := (n / 1461)%Z in
  let n := (n mod 1461)%Z in
  let n1 := (n / 365)%Z in
  let n := (n mod 365)%Z in
  let year := (n400 * 400 + 1 + n100 * 100 + n4 * 4 + n1)%Z in
  if (n1 =? 4)%Z || (n100 =? 4)%Z then (year - 1, 12, 31)%Z
  else let '(m, d) := month_day year (seq 1 12) n in (year, m, d).

(** *** Numbers in text *)

Definition digit_value (c : ascii) : Z := (Z.of_nat (Str.code c) - 48)%Z.

Fixpoint number_from (acc : Z) (s : string) : Z :=
  match s with
  | EmptyString => acc
  | String c s' => number_from (acc * 10 + digit_value c)%Z s'
  end.

(** The value of a non-empty string of digits. *)
Definition number (s : string) : option Z :=
  if negb (Str.is_empty s) && Str.all_digits s
  then Some (number_from 0%Z s) else None.

(** [n] in decimal, padded with zeros to [width]. *)
Definition padded (width : nat) (n : Z) : string :=
  let s := pretty n in
  String.concat EmptyString (repeat "0" (width - String.length s)) ++ s.

Definition drop (n : nat) (s : string) : string :=
  String.substring n (String.length s - n) s.

Fixpoint split_at (sep : ascii) (s : string) : string * option string :=
  match s with
  | EmptyString => (EmptyString, None)
  | String c s' =>
      if Ascii.eqb c sep then (EmptyString, Some s')
      else let '(a, b) := split_at sep s' in (String c a, b)
  end.

(** *** [strptime] with [%Y-%m-%d] and [strftime] *)

Definition valid_ymd (year month day : Z) : bool :=
  (1 <=? year)%Z && (year <=? 9999)%Z && (1 <=? month)%Z && (month <=? 12)%Z
  && (1 <=? day)%Z && (day <=? days_in_month year month)%Z.

Definition short_field (s : string) : option Z :=
  if (String.length s <=? 2)%nat then number s else None.

Definition ref_strptime_ymd (s : string) : option Z :=
  match split_at "-" s with
  | (y, Some rest) =>
      match split_at "-" rest with
      | (m, Some d) =>
          match (if (String.length y =? 4)%nat then number y else None),
                short_field m, short_field d with
          | Some year, Some month, Some day =>
              if valid_ymd year month day
              then Some (ymd2ord year month day) else None
          | _, _, _ => None
          end
      | _ => None
      end
  | _ => None
  end.

Definition ref_strftime_ymd (ordinal : Z) : string :=
  let '(y, m, d) := ord2ymd ordinal in
  padded 4 y ++ "-" ++ padded 2 m ++ "-" ++ padded 2 d.

(** *** [fromisoformat] and [isoformat] *)

Definition fixed_field (width : nat) (s : string) : option Z :=
  if (String.length s =? width)%nat then number s else None.

(** [HH:MM] or [HH:MM:SS] as seconds. *)
Definition clock_seconds (need_seconds : bool) (s : string) : option Z :=
  match fixed_field 2 (Str.take 2 s), fixed_field 2 (Str.take 2 (drop 3 s)) with
  | Some h, Some m =>
      if negb (Str.char_is ":" (Str.first_char (drop 2 s))) then None
      else if negb ((h <? 24)%Z && (m <? 60)%Z) then None
      else if need_seconds then
        match fixed_field 2 (drop 6 s) with
        | Some sec =>
            if Str.char_is ":" (Str.first_char (drop 5 s)) && (sec <? 60)%Z
            then Some (h * 3600 + m * 60 + sec)%Z else None
        | None => None
        end
      else if (String.length s =? 5)%nat then Some (h * 3600 + m * 60)%Z
      else None
  | _, _ => None
  end.

(** The offset [+HH:MM] or [-HH:MM] in microseconds. *)
Definition parse_offset (negative : bool) (s : string) : option Z :=
  match clock_seconds false s with
  | Some sec =>
      Some ((if negative then -1 else 1) * sec * Dt.us_per_second)%Z
  | None => None
  end.

(** The time of day [HH:MM:SS] or [HH:MM:SS.ffffff] in microseconds. *)
Definition parse_time (s : string) : option Z :=
  match split_at "." s with
  | (hms, None) =>
      match clock_seconds true hms with
      | Some sec => Some (sec * Dt.us_per_second)%Z
      | None => None
      end
  | (hms, Some frac) =>
      match clock_seconds true hms, fixed_field 6 frac with
      | Some sec, Some us => Some (sec * Dt.us_per_second + us)%Z
      | _, _ => None
      end
  end.

Definition ref_fromisoformat (s : string) : option datetime :=
  match ref_strptime_ymd (Str.take 10 s) with
  | None => None
  | Some ordinal =>
      if negb (String.length (Str.take 10 s) =? 10)%nat then None
      else if negb (Str.char_is "T" (Str.first_char (drop 10 s))) then None
      else
        let rest := drop 11 s in
        let '(time, offset) :=
          match split_at "+" rest with
          | (t, Some o) => (t, Some (false, o))
          | (_, None) =>
              match split_at "-" rest with
              | (t, Some o) => (t, Some (true, o))
              | (t, None) => (t, None)
              end
          end in
        match parse_time time with
        | None => None
        | Some us =>
            let wall := ((ordinal - 1) * Dt.us_per_day + us)%Z in
            match offset with
            | None => Some (Datetime wall None)
            | Some (negative, o) =>
                match parse_offset negative o with
                | Some off => Some (Datetime wall (Some off))
                | None => None
                end
            end
        end
  end.

Definition ref_isoformat (d : datetime) : string :=
  let day := (dt_wall d / Dt.us_per_day)%Z in
  let us := (dt_wall d mod Dt.us_per_day)%Z in
  let sec := (us / Dt.us_per_second)%Z in
  let frac := (us mod Dt.us_per_second)%Z in
  ref_strftime_ymd (day + 1) ++ "T"
  ++ padded 2 (sec / 3600) ++ ":" ++ padded 2 (sec / 60 mod 60) ++ ":"
  ++ padded 2 (sec mod 60)
  ++ (if (frac =? 0)%Z then EmptyString else "." ++ padded 6 frac)
  ++ match dt_offset d with
     | None => EmptyString
     | Some off =>
         let m := (Z.abs off / Dt.us_per_minute)%Z in
         (if (off <? 0)%Z then "-" else "+")
         ++ padded 2 (m / 60) ++ ":" ++ padded 2 (m mod 60)
     end.

(** *** [json.loads] *)

Definition is_json_space (c : ascii) : bool :=
  (Str.code c =? 32)%nat || (Str.code c =? 9)%nat
  || (Str.code c =? 10)%nat || (Str.code c =? 13)%nat.

Fixpoint skip_space (s : string) : string :=
  match s with
  | String c s' => if is_json_space c then skip_space s' else s
  | EmptyString => EmptyString
  end.

(** The characters of a string literal after its opening quote, and the
    text after the closing quote. *)
Fixpoint string_body (s : string) : option (string * string) :=
  match s with
  | EmptyString => None
  | String c s' =>
      if Ascii.eqb c Str.dquote then Some (EmptyString, s')
      else if Ascii.eqb c Str.backslash then
        match s' with
        | String e s'' =>
            let plain :=
              if Ascii.eqb e "n" then Some Str.newline
              else if Ascii.eqb e "t" then Some "009"%char
              else if Ascii.eqb e "r" then Some "013"%char
              else if Ascii.eqb e "b" then Some "008"%char
              else if Ascii.eqb e "f" then Some "012"%char
              else if Ascii.eqb e Str.dquote || Ascii.eqb e Str.backslash
                      || Ascii.eqb e "/" then Some e
              else None in
            match plain, string_body s'' with
            | Some ch, Some (body, rest) => Some (String ch body, rest)
            | _, _ => None
            end
        | EmptyString => None
        end
      else if (Str.code c <? 32)%nat then None
      else
        match string_body s' with
        | Some (body, rest) => Some (String c body, rest)
        | None => None
        end
  end.

Fixpoint span_digits (s : string) : string * string :=
  match s with
  | String c s' =>
      if Str.is_digit c
      then let '(a, b) := span_digits s' in (String c a, b)
      else (EmptyString, s)
  | EmptyString => (EmptyString, EmptyString)
  end.

(** A JSON number: an integer part without a leading zero, then an
    optional fraction and an optional exponent, which make it a float. *)
Definition parse_number (s : string) : option (json * string) :=
  let '(negative, s) :=
    match s with
    | String "-" s' => (true, s')
    | _ => (false, s)
    end in
  let sign := (if negative then -1 else 1)%Z in
  let '(int_part, rest) := span_digits s in
  if Str.is_empty int_part
     || (Str.startswith "0" int_part && (1 <? String.length int_part)%nat)
  then None
  else
    let '(frac_part, rest, has_frac) :=
      match rest with
      | String "." r => let '(f, r') := span_digits r in (f, r', true)
      | _ => (EmptyString, rest, false)
      end in
    if has_frac && Str.is_empty frac_part then None
    else
      let mantissa :=
        (inject_Z (sign * number_from 0 (int_part ++ frac_part))
         / inject_Z (10 ^ Z.of_nat (String.length frac_part)))%Q in
      let exponent (r : string) : option (Z * string) :=
        let '(neg, r) :=
          match r with
          | String "-" r' => (true, r')
          | String "+" r' => (false, r')
          | _ => (false, r)
          end in
        let '(digits, r') := span_digits r in
        if Str.is_empty digits then None
        else Some (((if neg then -1 else 1) * number_from 0 digits)%Z, r') in
      match rest with
      | String c r =>
          if Ascii.eqb c "e" || Ascii.eqb c "E" then
            match exponent r with
            | Some (ex, r') =>
                Some (JFloat (Qred (mantissa * Qpower 10 ex)), r')
            | None => None
            end
          else if has_frac then Some (JFloat (Qred mantissa), rest)
          else Some (JInt (sign * number_from 0 int_part), rest)
      | EmptyString =>
          if has_frac then Some (JFloat (Qred mantissa), rest)
          else Some (JInt (sign * number_from 0 int_part), rest)
      end.

Definition literal (word : string) (v : json) (s : string) : option (json * string) :=
  if String.prefix word s then Some (v, drop (String.length word) s) else None.

(** A value, then the elements of an array after its first one, then the
    members of an object after [{]; [fuel] bounds the nesting and the
    number of items. *)
Fixpoint parse_value (fuel : nat) (s : string) : option (json * string) :=
  match fuel with
  | O => None
  | S fuel =>
      match skip_space s with
      | String c rest =>
          if Ascii.eqb c "{" then
            match skip_space rest with
            | String "}" rest' => Some (JDict [], rest')
            | _ => parse_members fuel rest []
            end
          else if Ascii.eqb c "[" then
            match skip_space rest with
            | String "]" rest' => Some (JList [], rest')
            | _ => parse_elements fuel rest []
            end
          else if Ascii.eqb c Str.dquote then
            match string_body rest with
            | Some (body, rest') => Some (JStr body, rest')
            | None => None
            end
          else if Ascii.eqb c "t" then literal "true" (JBool true) (String c rest)
          else if Ascii.eqb c "f" then literal "false" (JBool false) (String c rest)
          else if Ascii.eqb c "n" then literal "null" JNull (String c rest)
          else parse_number (String c rest)
      | EmptyString => None
      end
  end
with parse_elements (fuel : nat) (s : string) (acc : list json)
  : option (json * string) :=
  match fuel with
  | O => None
  | S fuel =>
      match parse_value fuel s with
      | Some (v, rest) =>
          match skip_space rest with
          | String "," rest' => parse_elements fuel rest' (acc ++ [v])
          | String "]" rest' => Some (JList (acc ++ [v]), rest')
          | _ => None
          end
      | None => None
      end
  end
with parse_members (fuel : nat) (s : string) (acc : dict)
  : option (json * string) :=
  match fuel with
  | O => None
  | S fuel =>
      match skip_space s with
      | String c rest =>
          if Ascii.eqb c Str.dquote then
            match string_body rest with
            | Some (key, rest1) =>
                match skip_space rest1 with
                | String ":" rest2 =>
                    match parse_value fuel rest2 with
                    | Some (v, rest3) =>
                        match skip_space rest3 with
                        | String "," rest4 =>
                            parse_members fuel rest4 (Py.dict_set key v acc)
                        | String "}" rest4 =>
                            Some (JDict (Py.dict_set key v acc), rest4)
                        | _ => None
                        end
                    | None => None
                    end
                | _ => None
                end
            | None => None
            end
          else None
      | EmptyString => None
      end
  end.

Definition ref_json_loads (s : string) : option json :=
  match parse_value (S (String.length s)) s with
  | Some (v, rest) => if Str.is_empty (skip_space rest) then Some v else None
  | None => None
  end.

(** *** The two patterns of [_extract_train_info] *)

(** [(?:at|from|departed|arrived)\s+([A-Z][a-zA-Z\s]+?)(?:\s|$|\.)]
    needs an upper-case ASCII letter; the tool searches a lowered
    snippet, which has none. *)
Definition ref_re_search_station (snippet : string) : option string := None.

Fixpoint skip_any_space (s : string) : string :=
  match s with
  | String c s' => if Str.is_space c then skip_any_space s' else s
  | EmptyString => EmptyString
  end.

Definition line_of (s : string) : string := fst (split_at Str.newline s).

(** A match of [(\d+)\s*(?:min|minute|hr|hour).*(?:late|delay)] that
    starts at the head of [s]: the value of group 1. *)
Definition delay_here (s : string) : option Z :=
  let '(digits, rest) := span_digits s in
  if Str.is_empty digits then None
  else
    let rest := skip_any_space rest in
    let after_unit :=
      if String.prefix "min" rest then Some (drop 3 rest)
      else if String.prefix "hr" rest then Some (drop 2 rest)
      else if String.prefix "hour" rest then Some (drop 4 rest)
      else None in
    match after_unit with
    | Some tail =>
        if Str.contains "late" (line_of tail) || Str.contains "delay" (line_of tail)
        then Some (number_from 0 digits) else None
    | None => None
    end.

Fixpoint ref_re_search_delay (snippet : string) : option Z :=
  match delay_here snippet with
  | Some n => Some n
  | None =>
      match snippet with
      | String _ s' => ref_re_search_delay s'
      | EmptyString => None
      end
  end.

(** *** [str] of the other objects *)

Definition type_name (v : json) : string :=
  match v with
  | JNull => "NoneType"
  | JBool _ => "bool"
  | JInt _ => "int"
  | JFloat _ => "float"
  | JStr _ => "str"
  | JList _ => "list"
  | JDict _ => "dict"
  end.

(** [str(e)]: the text of an exception. *)
Definition ref_exn_text (ex : exn) : string :=
  match ex with
  | NotContainer v => "argument of type '" ++ type_name v ++ "' is not iterable"
  | NoMethod v method =>
      "'" ++ type_name v ++ "' object has no attribute '" ++ method ++ "'"
  | NotText v => "expected string or bytes-like object, got '" ++ type_name v ++ "'"
  | NotSliceable (JDict _) => "unhashable type: 'slice'"
  | NotSliceable v => "'" ++ type_name v ++ "' object is not subscriptable"
  | Overflow => "date value out of range"
  | NoClassAttribute name => name
  | SearchError msg => msg
  end.

(** [str] of a float, a list or a dictionary: a tag for the type, which
    is all the examples need of it (no such text is five digits). *)
Definition ref_repr_other (v : json) : string :=
  match v with
  | JFloat _ => "<float>"
  | JList _ => "[...]"
  | JDict _ => "{...}"
  | _ => EmptyString
  end.

Definition reference : PyRuntime :=
  {| json_loads := ref_json_loads;
     repr_other := ref_repr_other;
     exn_text := ref_exn_text;
     strptime_ymd := ref_strptime_ymd;
     strftime_ymd := ref_strftime_ymd;
     fromisoformat := ref_fromisoformat;
     isoformat := ref_isoformat;
     re_search_station := ref_re_search_station;
     re_search_delay := ref_re_search_delay |}.

End Runtime.

(** ** The formulas of the specification and the predicates of the
       properties *)

Module Spec.

(** The points lost to the delay: half a point a minute, thirty at most,
    nothing for a train that is not late. *)
Definition delay_deduction (delay_minutes : Z) : Q :=
  if (delay_minutes >? 0)%Z
  then Qmin (inject_Z delay_minutes * 0.5) 30
  else 0%Q.

(** The reliability score: 100, less the three deductions, clamped to
    [0, 100] and rounded to one decimal. *)
Definition reliability (delay_minutes : Z) (data_source current_station : json) : Q :=
  let score :=
    (100 - delay_deduction delay_minutes
     - (if Py.eq_str data_source "mock_data" then 20 else 0)
     - (if Py.eq_str current_station "Information not available" then 15 else 0))%Q in
  Py.round1 (Qmax 0 (Qmin 100 score)).

(** The delay as the difference of the two timestamps in seconds,
    divided by 60 and rounded to the nearest integer. *)
Definition delay_minutes (scheduled actual : datetime) : option Z :=
  match Dt.sub actual scheduled with
  | Some us => Some (Py.round_half_even (Dt.total_seconds us / 60)%Q)
  | None => None
  end.

(** The validator accepts: its result carries [valid: True]. *)
Definition accepted (o : TrainValidationTool.output) : bool :=
  match o with
  | TrainValidationTool.Valid _ _ _ => true
  | TrainValidationTool.Invalid _ => false
  end.

(** Whitespace only. *)
Fixpoint all_space (s : string) : bool :=
  match s with
  | EmptyString => true
  | String c s' => Str.is_space c && all_space s'
  end.

(** The keys that every raw status record has. *)
Definition record_keys : list string :=
  [ "train_number"; "train_name"; "current_station"; "current_lat";
    "current_lon"; "scheduled_arrival"; "actual_arrival";
    "upcoming_stations"; "last_updated"; "data_source" ].

(** A raw status record, and an error record. *)
Definition status_record (d : dict) : bool :=
  forallb (fun k => Py.dict_has k d) record_keys && negb (Py.dict_has "error" d).

Definition error_record (d : dict) : bool := Py.dict_has "error" d.

(** Every dictionary in the cache is a status record. *)
Definition cache_ok (st : RailwayAPITool.state) : Prop :=
  forall key cached ts,
    RailwayAPITool.cache st !! key = Some (cached, ts) ->
    status_record cached = true.

(** The random delay is in its range and the clock is at least 45
    minutes before the end of the calendar, so that the arrival time of
    a mock record exists. *)
Definition env_ok (e : RailwayAPITool.env) : Prop :=
  (0 <= RailwayAPITool.randint_0_45 (RailwayAPITool.draws e) <= 45)%Z
  /\ (0 <= dt_wall (RailwayAPITool.now e))%Z
  /\ (dt_wall (RailwayAPITool.now e) + 45 * Dt.us_per_minute <= Dt.max_wall)%Z.

(** The input passes the checks of [_run] with this train number and
    this date: it parses to a dictionary that either carries a true
    [valid] and the train number as a string, or carries no [valid] and
    a train number whose stripped text is taken. *)
Definition selects (rt : PyRuntime) (input_data : py_input)
    (train_number : string) (date : json) : Prop :=
  exists d,
    RailwayAPITool.parse_input rt input_data = inr (JDict d)
    /\ Str.re_match_train train_number = true
    /\ date = Py.get_or "date" JNull d
    /\ ((Py.dict_has "valid" d = true
         /\ Py.truthy (Py.get_or "valid" (JBool false) d) = true
         /\ Py.get_or "train_number" (JStr EmptyString) d = JStr train_number)
        \/ (Py.dict_has "valid" d = false
            /\ Str.strip (py_str rt (Py.get_or "train_number" (JStr EmptyString) d))
               = train_number)).

(** No entry under the key of this request that is fresh at the lookup
    time of [e]. *)
Definition no_fresh_entry (rt : PyRuntime) (e : RailwayAPITool.env)
    (st : RailwayAPITool.state) (train_number : string) (date : json) : Prop :=
  match RailwayAPITool.cache st !! RailwayAPITool.cache_key rt train_number date with
  | Some entry => RailwayAPITool.fresh e entry = false
  | None => True
  end.

(** The frame after the query is logged. *)
Definition logged (q : string) (f : RailwayAPITool.frame) : RailwayAPITool.frame :=
  RailwayAPITool.Frame
    (RailwayAPITool.State
       (RailwayAPITool.cache (RailwayAPITool.shared f))
       (RailwayAPITool.queries (RailwayAPITool.shared f) ++ [q]))
    (RailwayAPITool.v_train_number f) (RailwayAPITool.v_date f).

(** A call that began in state [st] ended well: it returned a
    dictionary, either an error record with the state untouched, or a
    status record with a cache that still holds status records only. *)
Definition ended_well (st : RailwayAPITool.state)
    (res : (exn + json) * RailwayAPITool.frame) : Prop :=
  exists record f,
    res = (inr (JDict record), f)
    /\ ((error_record record = true /\ RailwayAPITool.shared f = st)
        \/ (status_record record = true /\ cache_ok (RailwayAPITool.shared f))).

(** What one call of the fetcher may do to the shared state: nothing;
    one search; one search and one entry stored with the time of the
    insertion; or the [source] annotation written into one entry that
    is fresh. *)
Inductive effect (e : RailwayAPITool.env) (st : RailwayAPITool.state)
  : RailwayAPITool.state -> Prop :=
| Untouched : effect e st st
| Searched (q : string) :
    effect e st
      (RailwayAPITool.State (RailwayAPITool.cache st)
                            (RailwayAPITool.queries st ++ [q]))
| Stored (q key : string) (record : dict) :
    effect e st
      (RailwayAPITool.State
         (<[key := (record, RailwayAPITool.time_at_store e)]>
            (RailwayAPITool.cache st))
         (RailwayAPITool.queries st ++ [q]))
| Served (key : string) (cached : dict) (ts : Q) :
    RailwayAPITool.cache st !! key = Some (cached, ts) ->
    RailwayAPITool.fresh e (cached, ts) = true ->
    effect e st
      (RailwayAPITool.State
         (<[key := (Py.dict_set "source" (JStr "cache") cached, ts)]>
            (RailwayAPITool.cache st))
         (RailwayAPITool.queries st)).

(** The state after a sequence of calls of the fetcher, each with its
    own environment and input. *)
Fixpoint run_all (rt : PyRuntime)
    (calls : list (RailwayAPITool.env * py_input)) (st : RailwayAPITool.state)
  : RailwayAPITool.state :=
  match calls with
  | [] => st
  | (e, input_data) :: calls' =>
      run_all rt calls' (snd (RailwayAPITool._run rt e input_data st))
  end.

(** What a record extracted from search results looks like: the train
    number asked for, a name and a station that are text, no
    coordinates (0.0, 0.0), no upcoming stations, and either no arrival
    times at all or the time of the extraction as the scheduled arrival
    with an actual arrival some minutes from it. *)
Definition live_shape (rt : PyRuntime) (e : RailwayAPITool.env)
    (train_number : string) (info : dict) : Prop :=
  Py.dict_get "train_number" info = Some (JStr train_number)
  /\ (exists name, Py.dict_get "train_name" info = Some (JStr name))
  /\ (exists station, Py.dict_get "current_station" info = Some (JStr station))
  /\ Py.dict_get "current_lat" info = Some (JFloat 0)
  /\ Py.dict_get "current_lon" info = Some (JFloat 0)
  /\ Py.dict_get "upcoming_stations" info = Some (JList [])
  /\ Py.dict_get "last_updated" info
     = Some (JStr (isoformat rt (RailwayAPITool.now e)))
  /\ Py.dict_get "data_source" info = Some (JStr "web_search")
  /\ ((Py.dict_get "scheduled_arrival" info = Some JNull
       /\ Py.dict_get "actual_arrival" info = Some JNull)
      \/ (Py.dict_get "scheduled_arrival" info
          = Some (JStr (isoformat rt (RailwayAPITool.now e)))
          /\ exists minutes actual,
               Dt.add_minutes (RailwayAPITool.now e) minutes = Some actual
               /\ Py.dict_get "actual_arrival" info
                  = Some (JStr (isoformat rt actual)))).

(** The haversine term of two points given in degrees: the square of
    half the chord between them on the unit sphere, of which
    [_haversine_distance] takes the square root and the arc sine. *)
Definition haversine_term (lat1 lon1 lat2 lon2 : R) : R :=
  (sin ((GeospatialTool.radians lat2 - GeospatialTool.radians lat1) / 2) ^ 2
   + cos (GeospatialTool.radians lat1) * cos (GeospatialTool.radians lat2)
     * sin ((GeospatialTool.radians lon2 - GeospatialTool.radians lon1) / 2) ^ 2)%R.

(** Every character of [s] satisfies [p]. *)
Fixpoint all_chars (p : ascii -> bool) (s : string) : bool :=
  match s with
  | EmptyString => true
  | String c s' => p c && all_chars p s'
  end.

(** The point lies in the box of latitudes and longitudes. *)
Definition in_box (lat_lo lat_hi lon_lo lon_hi lat lon : Q) : Prop :=
  (lat_lo <= lat <= lat_hi /\ lon_lo <= lon <= lon_hi)%Q.

(** A text. *)
Definition is_text (v : json) : bool :=
  match v with JStr _ => true | _ => false end.

(** A record as the fetcher makes them: a status record whose upcoming
    stations are a list of texts, whose coordinates are floats and whose
    [data_source] is the web search or the mock data. *)
Definition fetched_record (d : dict) : Prop :=
  status_record d = true
  /\ (exists stations,
        Py.dict_get "upcoming_stations" d = Some (JList (map JStr stations)))
  /\ (exists lat lon,
        Py.dict_get "current_lat" d = Some (JFloat lat)
        /\ Py.dict_get "current_lon" d = Some (JFloat lon))
  /\ (Py.dict_get "data_source" d = Some (JStr "web_search")
      \/ Py.dict_get "data_source" d = Some (JStr "mock_data")).

(** Every dictionary in the cache satisfies [P]. *)
Definition cache_all (P : dict -> Prop) (st : RailwayAPITool.state) : Prop :=
  forall key cached ts,
    RailwayAPITool.cache st !! key = Some (cached, ts) -> P cached.

(** A call ended with every cached dictionary in [P] and, if it returned,
    with an error record or a dictionary in [P]. *)
Definition outcome (P : dict -> Prop)
    (res : (exn + json) * RailwayAPITool.frame) : Prop :=
  cache_all P (RailwayAPITool.shared (snd res))
  /\ match fst res with
     | inl _ => True
     | inr v =>
         exists record,
           v = JDict record /\ ((exists msg, record = [("error", msg)]) \/ P record)
     end.

(** The formatter answered with [success] true. *)
Definition succeeded (o : ResponseGeneratorTool.output) : bool :=
  match o with
  | ResponseGeneratorTool.Response _ _ _ => true
  | _ => false
  end.

Section Pipeline.

Context (rt : PyRuntime)
        (glyph : DataProcessingTool.emoji -> string)
        (icon_text : ResponseGeneratorTool.icon -> string)
        (failure_text : ResponseGeneratorTool.failure -> string)
        (strftime_hm : datetime -> string).

(** The normaliser and the formatter in a row, each taking the
    dictionary that the tool before it returned. *)
Definition present (now : datetime) (fetched : json)
  : ResponseGeneratorTool.output :=
  ResponseGeneratorTool._run rt glyph icon_text failure_text strftime_hm
    (InObj (JDict (DataProcessingTool.output_json glyph
                     (DataProcessingTool._run rt now (InObj fetched))))).

(** The four tools of the sequential process in a row: the validator,
    the fetcher, the normaliser and the formatter. *)
Definition pipeline (today : Z) (e : RailwayAPITool.env) (now : datetime)
    (train_number date : json) (st : RailwayAPITool.state)
  : (exn + ResponseGeneratorTool.output) * RailwayAPITool.state :=
  let validated := TrainValidationTool._run rt today train_number date in
  match RailwayAPITool._run rt e
          (InObj (JDict (TrainValidationTool.to_json validated))) st with
  | (inl ex, st') => (inl ex, st')
  | (inr fetched, st') => (inr (present now fetched), st')
  end.

End Pipeline.

(** No word character just before a group that follows [pre]: the last
    character of [pre] is none, or else, at the head of the text, the
    character before the text is none ([prev_word] is false at the
    beginning of a text). *)
Definition no_word_before (prev_word : bool) (pre : string) : Prop :=
  match Str.last_char pre with
  | Some c => Str.is_word c = false
  | None => prev_word = false
  end.

(** No word character just after a group that [post] follows. *)
Definition no_word_after (post : string) : Prop :=
  match post with
  | String c _ => Str.is_word c = false
  | EmptyString => True
  end.

(** Five decimal digits, the [\d{5}] of a pattern. *)
Definition five_decimal (m : string) : bool :=
  (String.length m =? 5)%nat && Str.all_decimal m.

(** The five decimal digits [m] stand on their own between [pre] and
    [post]: no word character just before them and none just after,
    which for a group of digits is what the two [\b] of the pattern
    ask. *)
Definition stands_alone (pre m post : string) : Prop :=
  five_decimal m = true
  /\ no_word_before false pre
  /\ no_word_after post.

(** [m], between [pre] and [post], is the leftmost group of [s] that
    stands on its own. *)
Definition leftmost_group (s pre m post : string) : Prop :=
  s = pre ++ m ++ post
  /\ stands_alone pre m post
  /\ forall pre' m' post',
       s = pre' ++ m' ++ post' -> stands_alone pre' m' post' ->
       (String.length pre <= String.length pre')%nat.

(** The text is empty or begins with a character that is not a digit. *)
Definition no_leading_digit (s : string) : bool :=
  match s with
  | EmptyString => true
  | String c _ => negb (Str.is_digit c)
  end.

(** [s] with a backslash put before each double quote, as a text is
    written inside a JSON string. *)
Fixpoint escape_quotes (s : string) : string :=
  match s with
  | EmptyString => EmptyString
  | String c s' =>
      if Ascii.eqb c Str.dquote
      then String Str.backslash (String Str.dquote (escape_quotes s'))
      else String c (escape_quotes s')
  end.

(** No character of [s] is a backslash. *)
Definition no_backslash (s : string) : bool :=
  all_chars (fun c => negb (Ascii.eqb c Str.backslash)) s.

End Spec.

(** ** Example data *)

Module Examples.

(** A raw record of the mock source, and the same record with one more
    key. *)
Definition mock_record : dict :=
  [ ("train_number", JStr "12622");
    ("current_station", JStr "Pune");
    ("data_source", JStr "mock_data") ].

Definition mock_record_with_note : dict :=
  mock_record ++ [("note", JStr "Using mock data for demonstration")].

(** 2024-01-01T12:00:00, naive. *)
Definition noon : datetime := Datetime 63839707200000000 None.

(** A train that arrives 100 seconds after its scheduled time. *)
Definition late_100_seconds : dict :=
  [ ("scheduled_arrival", JStr "2024-01-01T10:00:00");
    ("actual_arrival", JStr "2024-01-01T10:01:40") ].

(** A scheduled time with the UTC suffix and an actual time without an
    offset: each parses, their difference is not defined. *)
Definition mixed_offsets : dict :=
  [ ("scheduled_arrival", JStr "2024-01-01T10:00:00Z");
    ("actual_arrival", JStr "2024-01-01T10:05:00") ].

(** An actual time that is not a timestamp. *)
Definition unparseable_actual : dict :=
  [ ("scheduled_arrival", JStr "2024-01-01T10:00:00");
    ("actual_arrival", JStr "soon") ].

(** [s] between double quotes. *)
Definition quoted (s : string) : string :=
  String Str.dquote (s ++ String Str.dquote EmptyString).

(** What the validator returns for train 12345 on 2024-01-01, what it
    returns for a bad train number, and a request that has a train
    number of three digits and no [valid] key. *)
Definition validated : py_input :=
  InStr ("{" ++ quoted "valid" ++ ": true, "
         ++ quoted "train_number" ++ ": " ++ quoted "12345" ++ ", "
         ++ quoted "date" ++ ": " ++ quoted "2024-01-01" ++ ", "
         ++ quoted "message" ++ ": "
         ++ quoted "Train 12345 validated successfully for 2024-01-01" ++ "}").

Definition rejected : py_input :=
  InStr ("{" ++ quoted "valid" ++ ": false, "
         ++ quoted "error" ++ ": "
         ++ quoted "Train number must be exactly 5 digits" ++ ", "
         ++ quoted "train_number" ++ ": null, "
         ++ quoted "date" ++ ": null}").

Definition short_number : py_input :=
  InStr ("{" ++ quoted "train_number" ++ ": " ++ quoted "123" ++ "}").

Definition draws_a : RailwayAPITool.random_draws :=
  {| RailwayAPITool.choice_index := 3;
     RailwayAPITool.randint_0_45 := 20;
     RailwayAPITool.uniform_lat := 12.5;
     RailwayAPITool.uniform_lon := 77.25;
     RailwayAPITool.sample_indices := (0, 0, 0)%nat |}.

Definition draws_b : RailwayAPITool.random_draws :=
  {| RailwayAPITool.choice_index := 6;
     RailwayAPITool.randint_0_45 := 5;
     RailwayAPITool.uniform_lat := 28.5;
     RailwayAPITool.uniform_lon := 77;
     RailwayAPITool.sample_indices := (1, 2, 3)%nat |}.

(** A call at [t] seconds with the search tool failing, and one with the
    search tool answering. *)
Definition offline (t : Q) (d : RailwayAPITool.random_draws) : RailwayAPITool.env :=
  {| RailwayAPITool.time_at_lookup := t;
     RailwayAPITool.time_at_store := t;
     RailwayAPITool.now := noon;
     RailwayAPITool.search := fun _ => inl (SearchError "Missing API key");
     RailwayAPITool.draws := d |}.

Definition online (t : Q) : RailwayAPITool.env :=
  {| RailwayAPITool.time_at_lookup := t;
     RailwayAPITool.time_at_store := t;
     RailwayAPITool.now := noon;
     RailwayAPITool.search := fun _ =>
       inr (JDict [("organic",
                    JList [JDict [("title", JStr "12345 Rajdhani Train");
                                  ("snippet", JStr "Running 15 min late")]])]);
     RailwayAPITool.draws := draws_a |}.

(** A call at [t] seconds with the search tool answering as in [online]
    and the random draws [d]. *)
Definition online_drawing (t : Q) (d : RailwayAPITool.random_draws)
  : RailwayAPITool.env :=
  {| RailwayAPITool.time_at_lookup := t;
     RailwayAPITool.time_at_store := t;
     RailwayAPITool.now := noon;
     RailwayAPITool.search := RailwayAPITool.search (online t);
     RailwayAPITool.draws := d |}.

Definition empty_state : RailwayAPITool.state := RailwayAPITool.State ∅ [].

(** A validated request whose train number is a JSON number. *)
Definition validated_number : py_input :=
  InStr ("{" ++ quoted "valid" ++ ": true, "
         ++ quoted "train_number" ++ ": 12345}").

(** A request in plain words, and one between double quotes that is not
    JSON even without them. *)
Definition plain_words : string := "train 12345".

Definition quoted_words : string := quoted ("train " ++ quoted "12345").

End Examples.

(** * Properties *)

(** ** Rounding and clamping *)

Section Rounding.

Local Open Scope Q_scope.

Lemma round_half_even_integer (q : Q) (z : Z) :
  q == inject_Z z -> Py.round_half_even q = z.
Proof.
  intros Hq. unfold Py.round_half_even.
  rewrite (Qfloor_comp _ _ Hq), Qfloor_Z.
  destruct (Qcompare_spec (q - inject_Z z) (1 # 2)); [Lqa.lra | reflexivity | Lqa.lra].
Qed.

(** [round(q, 1)] leaves a multiple of one half as it is. *)
Lemma round1_half (k : Z) :
  Py.round1 (inject_Z k * (1 # 2)) == inject_Z k * (1 # 2).
Proof.
  unfold Py.round1, Qdiv. change (/ 10) with (1 # 10).
  rewrite (round_half_even_integer _ (5 * k));
    rewrite inject_Z_mult; change (inject_Z 5) with 5; Lqa.lra.
Qed.

Lemma round_half_even_comp (p q : Q) :
  p == q -> Py.round_half_even p = Py.round_half_even q.
Proof.
  intros H. unfold Py.round_half_even.
  rewrite (Qfloor_comp _ _ H).
  assert (H' : p - inject_Z (Qfloor q) == q - inject_Z (Qfloor q)) by Lqa.lra.
  pose proof (Qcompare_comp _ _ H' (1 # 2) (1 # 2) (Qeq_refl _)) as Hc.
  unfold Qcompare in *. now rewrite Hc.
Qed.

Lemma round1_comp (p q : Q) : p == q -> Py.round1 p == Py.round1 q.
Proof.
  intros H. unfold Py.round1.
  rewrite (round_half_even_comp (p * 10) (q * 10)); [reflexivity | Lqa.lra].
Qed.

Lemma py_min_spec (a b : Q) :
  (b < a /\ Py.min a b = b) \/ (a <= b /\ Py.min a b = a).
Proof.
  unfold Py.min. destruct (QMicromega.Qlt_bool b a) eqn:E.
  - left. split; [now apply QMicromega.Qlt_bool_iff | reflexivity].
  - right. split; [| reflexivity].
    apply Qnot_lt_le. intros H. apply QMicromega.Qlt_bool_iff in H. congruence.
Qed.

Lemma py_max_spec (a b : Q) :
  (a < b /\ Py.max a b = b) \/ (b <= a /\ Py.max a b = a).
Proof.
  unfold Py.max. destruct (QMicromega.Qlt_bool a b) eqn:E.
  - left. split; [now apply QMicromega.Qlt_bool_iff | reflexivity].
  - right. split; [| reflexivity].
    apply Qnot_lt_le. intros H. apply QMicromega.Qlt_bool_iff in H. congruence.
Qed.

(** The clamp of [_calculate_reliability_score] does nothing inside
    [0, 100]. *)
Lemma clamp_inside (x : Q) : 0 <= x <= 100 -> Py.max 0 (Py.min 100 x) == x.
Proof.
  intros [H0 H100].
  destruct (py_min_spec 100 x) as [[H1 ->] | [H1 ->]];
    [destruct (py_max_spec 0 x) as [[H2 ->] | [H2 ->]]
    | destruct (py_max_spec 0 100) as [[H2 ->] | [H2 ->]]]; Lqa.lra.
Qed.

End Rounding.

(** ** The reliability score *)

Section Reliability.

Local Open Scope Q_scope.
Import DataProcessingTool.

(** The score before rounding and clamping: the three deductions. *)
Lemma delay_deduction_half (d : Z) :
  exists k : Z, Spec.delay_deduction d == inject_Z k * (1 # 2)
                /\ 0 <= Spec.delay_deduction d <= 30.
Proof.
  unfold Spec.delay_deduction. destruct (d >? 0)%Z eqn:Hd.
  - apply Z.gtb_lt in Hd. rewrite Zlt_Qlt in Hd. change (inject_Z 0) with 0 in Hd.
    destruct (Q.min_spec (inject_Z d * 0.5) 30) as [[Hlt He] | [Hle He]].
    + exists d. split; Lqa.lra.
    + exists 60%Z. change (inject_Z 60) with 60. split; Lqa.lra.
  - exists 0%Z. change (inject_Z 0) with 0. split; Lqa.lra.
Qed.

Lemma py_min_Qmin (a b : Q) : Py.min a b == Qmin a b.
Proof.
  destruct (py_min_spec a b) as [[H ->] | [H ->]];
    destruct (Q.min_spec a b) as [[H' He] | [H' He]]; Lqa.lra.
Qed.

Lemma clamp_round_half (s : Q) (k : Z) :
  s == inject_Z k * (1 # 2) -> 0 <= s <= 100 ->
  Py.max 0 (Py.min 100 (Py.round1 s)) == s.
Proof.
  intros Hk Hs.
  assert (Hr : Py.round1 s == s).
  { rewrite (round1_comp _ _ Hk), round1_half. symmetry. exact Hk. }
  rewrite clamp_inside; [exact Hr | rewrite Hr; exact Hs].
Qed.

(** The value of [_calculate_reliability_score]: rounding and clamping
    change nothing, the score is 100 less the deductions. *)
Lemma reliability_value (raw_data : dict) (d : Z) :
  _calculate_reliability_score raw_data d
  == 100 - Spec.delay_deduction d
     - (if Py.eq_str (Py.get_or "data_source" JNull raw_data) "mock_data"
        then 20 else 0)
     - (if Py.eq_str (Py.get_or "current_station" JNull raw_data)
                     "Information not available" then 15 else 0).
Proof.
  destruct (delay_deduction_half d) as (k & Hk & Hb).
  unfold _calculate_reliability_score.
  set (mock := Py.eq_str _ "mock_data").
  set (lost := Py.eq_str _ "Information not available").
  assert (Hdel : (if (d >? 0)%Z
                  then 100 - Py.min (inject_Z d * 0.5) 30 else 100)
                 == 100 - Spec.delay_deduction d).
  { unfold Spec.delay_deduction. destruct (d >? 0)%Z; [| Lqa.lra].
    rewrite py_min_Qmin. reflexivity. }
  assert (Hinj : forall c : Z, inject_Z (c + - k) == inject_Z c - inject_Z k).
  { intros c. rewrite inject_Z_plus, inject_Z_opp. Lqa.lra. }
  destruct mock, lost;
    [ rewrite (clamp_round_half _ (130 + - k)%Z)
    | rewrite (clamp_round_half _ (160 + - k)%Z)
    | rewrite (clamp_round_half _ (170 + - k)%Z)
    | rewrite (clamp_round_half _ (200 + - k)%Z) ];
    rewrite ?Hinj;
    try change (inject_Z 130) with 130; try change (inject_Z 160) with 160;
    try change (inject_Z 170) with 170; try change (inject_Z 200) with 200;
    destruct (d >? 0)%Z; Lqa.lra.
Qed.

End Reliability.

Section ReliabilityResults.

Local Open Scope Q_scope.
Import DataProcessingTool.

Lemma delay_deduction_mono (d d' : Z) :
  (d <= d')%Z -> Spec.delay_deduction d <= Spec.delay_deduction d'.
Proof.
  intros Hle. unfold Spec.delay_deduction.
  destruct (d >? 0)%Z eqn:Hd; destruct (d' >? 0)%Z eqn:Hd'.
  - rewrite Zle_Qle in Hle.
    destruct (Q.min_spec (inject_Z d * 0.5) 30) as [[H1 E1] | [H1 E1]];
      destruct (Q.min_spec (inject_Z d' * 0.5) 30) as [[H2 E2] | [H2 E2]];
      Lqa.lra.
  - apply Z.gtb_lt in Hd. rewrite Z.gtb_ltb in Hd'. apply Z.ltb_ge in Hd'. lia.
  - apply Z.gtb_lt in Hd'. rewrite Zlt_Qlt in Hd'. change (inject_Z 0) with 0 in Hd'.
    destruct (Q.min_spec (inject_Z d' * 0.5) 30) as [[H2 E2] | [H2 E2]]; Lqa.lra.
  - Lqa.lra.
Qed.

Lemma spec_reliability_value (d : Z) (data_source current_station : json) :
  Spec.reliability d data_source current_station
  == 100 - Spec.delay_deduction d
     - (if Py.eq_str data_source "mock_data" then 20 else 0)
     - (if Py.eq_str current_station "Information not available" then 15 else 0).
Proof.
  destruct (delay_deduction_half d) as (k & Hk & Hb).
  unfold Spec.reliability.
  set (s := 100 - _ - _ - _).
  assert (Hs : 35 <= s <= 100).
  { subst s. destruct (Py.eq_str data_source _), (Py.eq_str current_station _);
      Lqa.lra. }
  assert (Hclamp : Qmax 0 (Qmin 100 s) == s).
  { destruct (Q.min_spec 100 s) as [[H1 E1] | [H1 E1]];
      destruct (Q.max_spec 0 (Qmin 100 s)) as [[H2 E2] | [H2 E2]]; Lqa.lra. }
  assert (Hhalf : exists k' : Z, s == inject_Z k' * (1 # 2)).
  { assert (Hinj : forall c : Z, inject_Z (c + - k) == inject_Z c - inject_Z k).
    { intros c. rewrite inject_Z_plus, inject_Z_opp. Lqa.lra. }
    subst s. destruct (Py.eq_str data_source _), (Py.eq_str current_station _);
      [ exists (130 + - k)%Z | exists (160 + - k)%Z
      | exists (170 + - k)%Z | exists (200 + - k)%Z ];
      rewrite Hinj;
      try change (inject_Z 130) with 130; try change (inject_Z 160) with 160;
      try change (inject_Z 170) with 170; try change (inject_Z 200) with 200;
      Lqa.lra. }
  destruct Hhalf as (k' & Hk').
  rewrite (round1_comp _ _ Hclamp), (round1_comp _ _ Hk'), round1_half.
  symmetry. exact Hk'.
Qed.

(** C6. The reliability score is 100 less [min(delay * 0.5, 30)] for a
    positive delay, less 20 for the mock source, less 15 for the station
    "Information not available", clamped to [0, 100] and rounded to one
    decimal; it depends on the record through [data_source] and
    [current_station] only, and it does not increase with the delay. *)
Theorem reliability_score_formula (raw_data raw_data' : dict) (d d' : Z)
    (Hsource : Py.get_or "data_source" JNull raw_data'
               = Py.get_or "data_source" JNull raw_data)
    (Hstation : Py.get_or "current_station" JNull raw_data'
                = Py.get_or "current_station" JNull raw_data)
    (Hdelay : (d <= d')%Z) :
  _calculate_reliability_score raw_data d
  == Spec.reliability d (Py.get_or "data_source" JNull raw_data)
                        (Py.get_or "current_station" JNull raw_data)
  /\ _calculate_reliability_score raw_data' d
     = _calculate_reliability_score raw_data d
  /\ _calculate_reliability_score raw_data d'
     <= _calculate_reliability_score raw_data d.
Proof.
  split; [| split].
  - rewrite reliability_value, spec_reliability_value. reflexivity.
  - unfold _calculate_reliability_score. now rewrite Hsource, Hstation.
  - rewrite !reliability_value.
    pose proof (delay_deduction_mono d d' Hdelay). Lqa.lra.
Qed.

Lemma reliability_score_formula_witness :
  _calculate_reliability_score Examples.mock_record 10
  == Spec.reliability 10 (JStr "mock_data") (JStr "Pune")
  /\ _calculate_reliability_score Examples.mock_record_with_note 10
     = _calculate_reliability_score Examples.mock_record 10
  /\ _calculate_reliability_score Examples.mock_record 20
     <= _calculate_reliability_score Examples.mock_record 10.
Proof.
  apply (reliability_score_formula
           Examples.mock_record Examples.mock_record_with_note 10 20).
  - reflexivity.
  - reflexivity.
  - lia.
Defined.

(** C10. The reliability score is never below 35, since the three
    deductions are at most 30, 20 and 15; a record of the mock source
    scores at most 80. *)
Theorem reliability_score_bounds (raw_data : dict) (d : Z) :
  35 <= _calculate_reliability_score raw_data d
  /\ (Py.eq_str (Py.get_or "data_source" JNull raw_data) "mock_data" = true ->
      _calculate_reliability_score raw_data d <= 80).
Proof.
  destruct (delay_deduction_half d) as (k & Hk & Hb).
  rewrite reliability_value. split.
  - destruct (Py.eq_str _ "mock_data"), (Py.eq_str _ "Information not available");
      Lqa.lra.
  - intros ->. destruct (Py.eq_str _ "Information not available"); Lqa.lra.
Qed.

Lemma reliability_score_bounds_witness :
  35 <= _calculate_reliability_score Examples.mock_record 10 <= 80.
Proof.
  destruct (reliability_score_bounds Examples.mock_record 10) as [Hlow Hmock].
  split; [exact Hlow | apply Hmock; reflexivity].
Defined.

End ReliabilityResults.

(** ** Delay and status category *)

Section Delay.

Import DataProcessingTool.
Context (rt : PyRuntime).

Lemma minutes_of_microseconds (us : Z) :
  Py.int_of_float (Dt.total_seconds us / 60)%Q = (us ÷ Dt.us_per_minute)%Z.
Proof.
  unfold Py.int_of_float, Dt.total_seconds. cbn.
  rewrite !Z.mul_1_r. reflexivity.
Qed.

(** The delay and the category of the processed record are those of the
    delay block. *)
Lemma process_status (now : datetime) (raw_data : dict) :
  let st := delay_status rt (Py.get_or "scheduled_arrival" JNull raw_data)
                            (Py.get_or "actual_arrival" JNull raw_data) in
  status_delay_minutes (process rt now raw_data) = fst st
  /\ status_category (process rt now raw_data) = fst (snd st).
Proof.
  unfold process. cbv zeta.
  destruct (delay_status rt _ _) as [d [c e]]. split; reflexivity.
Qed.

Lemma delay_status_computed (scheduled actual : json) (ts ta : datetime) (us : Z) :
  Py.truthy scheduled = true -> Py.truthy actual = true ->
  parse_timestamp rt scheduled = Some ts ->
  parse_timestamp rt actual = Some ta ->
  Dt.sub ta ts = Some us ->
  delay_status rt scheduled actual
  = ((us ÷ Dt.us_per_minute)%Z, categorise (us ÷ Dt.us_per_minute)%Z).
Proof.
  intros Hs Ha Hps Hpa Hsub. unfold delay_status, compute_delay.
  rewrite Hs, Ha, Hps, Hpa, Hsub, minutes_of_microseconds. reflexivity.
Qed.

Lemma delay_status_failed (scheduled actual : json) :
  Py.truthy scheduled = true -> Py.truthy actual = true ->
  compute_delay rt scheduled actual = None ->
  delay_status rt scheduled actual = (0%Z, ("Status Unknown", EmojiQuestionMark)).
Proof.
  intros Hs Ha Hc. unfold delay_status. now rewrite Hs, Ha, Hc.
Qed.

Lemma categorise_thresholds (d : Z) :
  ((d <= 0)%Z -> fst (categorise d) = "On Time")
  /\ ((1 <= d <= 15)%Z -> fst (categorise d) = "Slightly Delayed")
  /\ ((16 <= d <= 60)%Z -> fst (categorise d) = "Delayed")
  /\ ((60 < d)%Z -> fst (categorise d) = "Significantly Delayed").
Proof.
  unfold categorise.
  destruct (Z.leb_spec d 0), (Z.leb_spec d 15), (Z.leb_spec d 60);
    repeat split; intros; try reflexivity; lia.
Qed.

End Delay.

Section DelayResults.

Import DataProcessingTool.

(** C4, as the code has it. When both timestamps are present and parse,
    and both carry an offset or neither does, [delay_minutes] is the
    difference (actual minus scheduled) in minutes with the fraction
    dropped, that is rounded towards zero and not to the nearest integer.
    When both are present and one of them does not parse, it is 0 and the
    category is "Status Unknown"; when one of them is absent, nothing is
    parsed, it is 0 and the category is "Unknown". *)
Theorem delay_minutes_truncated (rt : PyRuntime) (now : datetime) (raw_data : dict) :
  let scheduled := Py.get_or "scheduled_arrival" JNull raw_data in
  let actual := Py.get_or "actual_arrival" JNull raw_data in
  let p := process rt now raw_data in
  (forall ts ta us,
      Py.truthy scheduled = true -> Py.truthy actual = true ->
      parse_timestamp rt scheduled = Some ts ->
      parse_timestamp rt actual = Some ta ->
      Dt.sub ta ts = Some us ->
      status_delay_minutes p = (us ÷ Dt.us_per_minute)%Z)
  /\ (Py.truthy scheduled = true -> Py.truthy actual = true ->
      parse_timestamp rt scheduled = None \/ parse_timestamp rt actual = None ->
      status_delay_minutes p = 0%Z /\ status_category p = "Status Unknown")
  /\ (Py.truthy scheduled = false \/ Py.truthy actual = false ->
      status_delay_minutes p = 0%Z /\ status_category p = "Unknown").
Proof.
  intros scheduled actual p.
  destruct (process_status rt now raw_data) as [Hd Hc].
  fold scheduled actual p in Hd, Hc. split; [| split].
  - intros ts ta us Hs Ha Hps Hpa Hsub.
    rewrite Hd, (delay_status_computed rt _ _ ts ta us); auto.
  - intros Hs Ha Hnone. rewrite Hd, Hc, delay_status_failed; auto.
    unfold compute_delay.
    destruct Hnone as [-> | ->]; [reflexivity |].
    now destruct (parse_timestamp rt scheduled).
  - intros Habsent. rewrite Hd, Hc. unfold delay_status.
    destruct Habsent as [-> | ->]; [| rewrite andb_false_r]; split; reflexivity.
Qed.

Lemma delay_minutes_truncated_witness :
  status_delay_minutes
    (process Runtime.reference Examples.noon Examples.late_100_seconds) = 1%Z
  /\ status_delay_minutes
       (process Runtime.reference Examples.noon Examples.unparseable_actual) = 0%Z
  /\ status_category
       (process Runtime.reference Examples.noon Examples.unparseable_actual)
     = "Status Unknown".
Proof.
  split.
  - destruct (delay_minutes_truncated Runtime.reference Examples.noon
                Examples.late_100_seconds) as [Hdelay _].
    apply (Hdelay (Datetime 63839700000000000 None)
                  (Datetime 63839700100000000 None) 100000000%Z);
      vm_compute; reflexivity.
  - destruct (delay_minutes_truncated Runtime.reference Examples.noon
                Examples.unparseable_actual) as (_ & Hfail & _).
    apply Hfail; [reflexivity | reflexivity |]. right. vm_compute. reflexivity.
Defined.

(** C4 fails as stated: both timestamps parse and are 100 seconds apart;
    100 / 60 rounds to 2, and the delay computed is 1. *)
Lemma delay_is_not_rounded :
  parse_timestamp Runtime.reference (JStr "2024-01-01T10:00:00")
  = Some (Datetime 63839700000000000 None)
  /\ parse_timestamp Runtime.reference (JStr "2024-01-01T10:01:40")
     = Some (Datetime 63839700100000000 None)
  /\ Spec.delay_minutes (Datetime 63839700000000000 None)
                        (Datetime 63839700100000000 None) = Some 2%Z
  /\ status_delay_minutes
       (process Runtime.reference Examples.noon Examples.late_100_seconds) = 1%Z.
Proof. vm_compute. repeat split; reflexivity. Qed.

(** C5, as the code has it. When both timestamps are present and parse,
    and both carry an offset or neither does, the category follows the
    delay: at most 0 is "On Time", 1 to 15 "Slightly Delayed", 16 to 60
    "Delayed", more than 60 "Significantly Delayed"; so 0, 15, 16, 60 and
    61 minutes give "On Time", "Slightly Delayed", "Delayed", "Delayed"
    and "Significantly Delayed". *)
Theorem category_by_thresholds (rt : PyRuntime) (now : datetime)
    (raw_data : dict) (ts ta : datetime) (us : Z) :
  let scheduled := Py.get_or "scheduled_arrival" JNull raw_data in
  let actual := Py.get_or "actual_arrival" JNull raw_data in
  let p := process rt now raw_data in
  Py.truthy scheduled = true -> Py.truthy actual = true ->
  parse_timestamp rt scheduled = Some ts ->
  parse_timestamp rt actual = Some ta ->
  Dt.sub ta ts = Some us ->
  ((status_delay_minutes p <= 0)%Z -> status_category p = "On Time")
  /\ ((1 <= status_delay_minutes p <= 15)%Z ->
      status_category p = "Slightly Delayed")
  /\ ((16 <= status_delay_minutes p <= 60)%Z -> status_category p = "Delayed")
  /\ ((60 < status_delay_minutes p)%Z ->
      status_category p = "Significantly Delayed")
  /\ map (fun d => fst (categorise d)) [0; 15; 16; 60; 61]%Z
     = ["On Time"; "Slightly Delayed"; "Delayed"; "Delayed";
        "Significantly Delayed"].
Proof.
  intros scheduled actual p Hs Ha Hps Hpa Hsub.
  destruct (process_status rt now raw_data) as [Hd Hc].
  fold scheduled actual p in Hd, Hc.
  rewrite (delay_status_computed rt _ _ ts ta us) in Hd, Hc by assumption.
  cbn [fst snd] in Hd, Hc. rewrite Hd, Hc.
  destruct (categorise_thresholds (us ÷ Dt.us_per_minute)) as (H1 & H2 & H3 & H4).
  repeat split; assumption || reflexivity.
Qed.

Lemma category_by_thresholds_witness :
  status_category
    (process Runtime.reference Examples.noon Examples.late_100_seconds)
  = "Slightly Delayed".
Proof.
  destruct (category_by_thresholds Runtime.reference Examples.noon
              Examples.late_100_seconds
              (Datetime 63839700000000000 None)
              (Datetime 63839700100000000 None) 100000000%Z
              eq_refl eq_refl eq_refl eq_refl eq_refl)
    as (_ & Hslight & _).
  apply Hslight. vm_compute. split; discriminate.
Defined.

(** C5 fails as stated: each of the two timestamps parses, one with an
    offset and one without; the delay is 0 and the category is not
    "On Time". *)
Lemma parseable_but_status_unknown :
  parse_timestamp Runtime.reference (JStr "2024-01-01T10:00:00Z")
  = Some (Datetime 63839700000000000 (Some 0%Z))
  /\ parse_timestamp Runtime.reference (JStr "2024-01-01T10:05:00")
     = Some (Datetime 63839700300000000 None)
  /\ status_delay_minutes
       (process Runtime.reference Examples.noon Examples.mixed_offsets) = 0%Z
  /\ status_category
       (process Runtime.reference Examples.noon Examples.mixed_offsets)
     = "Status Unknown".
Proof. vm_compute. repeat split; reflexivity. Qed.

End DelayResults.

(** ** Stripping and the train-number pattern *)

Section Strip.

Import Str.

Lemma digit_not_space (c : ascii) : is_digit c = true -> is_space c = false.
Proof.
  unfold is_digit, is_space, between. intros H.
  apply andb_true_iff in H as [H1 H2].
  apply Nat.leb_le in H1. apply Nat.leb_le in H2.
  repeat (apply orb_false_iff; split);
    try (apply andb_false_iff; right; apply Nat.leb_gt; lia);
    apply Nat.eqb_neq; lia.
Qed.

Lemma rstrip_last (s : string) (c : ascii) :
  last_char (rstrip s) = Some c -> is_space c = false.
Proof.
  induction s as [| a s IH]; cbn [rstrip]; [discriminate |].
  destruct (is_space a) eqn:Ha; cbn [andb].
  - destruct (rstrip s) as [| b r] eqn:Hr; cbn [is_empty]; [discriminate |].
    intros H. apply IH. exact H.
  - destruct (rstrip s) as [| b r] eqn:Hr.
    + cbn. intros [= <-]. exact Ha.
    + intros H. apply IH. exact H.
Qed.

Lemma strip_no_newline (s : string) : endswith newline (strip s) = false.
Proof.
  unfold endswith, strip.
  destruct (last_char (rstrip (lstrip s))) as [c |] eqn:Hl; [| reflexivity].
  apply rstrip_last in Hl. cbn [char_is].
  destruct (Ascii.eqb_spec newline c) as [<- | _]; [| reflexivity].
  discriminate Hl.
Qed.

(** After [strip], the pattern of the train number holds exactly for
    five digits. *)
Lemma re_match_train_strip (s : string) :
  re_match_train (strip s) = five_digits (strip s).
Proof.
  unfold re_match_train. rewrite strip_no_newline. cbn [andb].
  apply orb_false_r.
Qed.

Lemma lstrip_spaces (pre t : string) :
  Spec.all_space pre = true -> lstrip (pre ++ t) = lstrip t.
Proof.
  induction pre as [| c pre IH]; [reflexivity |].
  change (String c pre ++ t) with (String c (pre ++ t)).
  cbn [Spec.all_space lstrip].
  intros H. apply andb_true_iff in H as [-> H]. auto.
Qed.

Lemma rstrip_spaces (post : string) :
  Spec.all_space post = true -> rstrip post = EmptyString.
Proof.
  induction post as [| c post IH]; [reflexivity |].
  cbn [Spec.all_space rstrip].
  intros H. apply andb_true_iff in H as [-> H]. now rewrite IH.
Qed.

Lemma rstrip_app_spaces (s post : string) :
  Spec.all_space post = true -> rstrip (s ++ post) = rstrip s.
Proof.
  intros H. induction s as [| c s IH].
  - now apply rstrip_spaces.
  - change (String c s ++ post) with (String c (s ++ post)).
    cbn [rstrip]. now rewrite IH.
Qed.

Lemma rstrip_digits (s : string) : all_digits s = true -> rstrip s = s.
Proof.
  induction s as [| c s IH]; [reflexivity |]. cbn [all_digits rstrip].
  intros H. apply andb_true_iff in H as [Hc Hs].
  rewrite (digit_not_space c Hc), IH by assumption. reflexivity.
Qed.

(** Stripping removes the whitespace around a group of five digits. *)
Lemma strip_padded (pre s post : string) :
  Spec.all_space pre = true -> Spec.all_space post = true ->
  five_digits s = true -> strip (pre ++ s ++ post) = s.
Proof.
  intros Hpre Hpost Hs. unfold strip. rewrite lstrip_spaces by assumption.
  apply andb_true_iff in Hs as [Hlen Hdig].
  destruct s as [| c s]; [discriminate |].
  cbn [all_digits] in Hdig. apply andb_true_iff in Hdig as [Hc Hdig].
  change (String c s ++ post) with (String c (s ++ post)).
  cbn [lstrip]. rewrite (digit_not_space c Hc).
  change (String c (s ++ post)) with (String c s ++ post).
  rewrite rstrip_app_spaces by assumption.
  apply rstrip_digits. cbn [all_digits]. now rewrite Hc, Hdig.
Qed.

(** A character that is not whitespace survives at the head. *)
Lemma strip_keeps_head (q : ascii) (s : string) :
  is_space q = false -> startswith q (lstrip s) = true ->
  startswith q (strip s) = true.
Proof.
  intros Hq. unfold strip.
  destruct (lstrip s) as [| c t]; [discriminate |].
  unfold startswith. cbn [first_char char_is].
  destruct (Ascii.eqb_spec q c) as [<- | ]; [| discriminate].
  intros _. cbn [rstrip]. rewrite Hq. cbn. apply Ascii.eqb_refl.
Qed.

Lemma quoted_not_matched (q : ascii) (s : string) :
  is_digit q = false -> startswith q s = true -> re_match_train s = false.
Proof.
  intros Hq Hs. destruct s as [| c t]; [discriminate |].
  unfold startswith in Hs. cbn in Hs.
  apply Ascii.eqb_eq in Hs. subst c.
  unfold re_match_train, five_digits.
  cbn [all_digits]. rewrite Hq. cbn [andb]. rewrite andb_false_r. cbn [orb].
  destruct t as [| c t]; cbn [drop_last].
  - cbn. apply andb_false_r.
  - cbn [all_digits]. rewrite Hq. cbn [andb]. rewrite !andb_false_r. reflexivity.
Qed.

End Strip.

(** ** The input validator *)

Section ValidatorResults.

Import TrainValidationTool.

(** C7. The validator accepts exactly when the train number, converted
    to text and stripped, is five ASCII digits and the date, if one is
    given, parses and lies between today and today plus 120 days; any
    other train number is rejected with the message about the train
    number, a bad date with a message about the date, and without a date
    the result carries today's date. The clock is taken to be more than
    120 days before the last day of the calendar. *)
Theorem validator_accepts_exactly (rt : PyRuntime) (today : Z)
    (train_number date : json) :
  (today + 120 <= max_ordinal)%Z ->
  let cleaned := Str.strip (py_str rt train_number) in
  let date_text := Str.strip (py_str rt date) in
  let result := _run rt today train_number date in
  let success (d : string) :=
    Valid cleaned d ("Train " ++ cleaned ++ " validated successfully for " ++ d) in
  (Spec.accepted result = true <->
     Str.five_digits cleaned = true
     /\ (Py.truthy date = false
         \/ exists o, strptime_ymd rt date_text = Some o
                      /\ (today <= o <= today + 120)%Z))
  /\ (Str.five_digits cleaned = false ->
      result = Invalid "Train number must be exactly 5 digits")
  /\ (Str.five_digits cleaned = true -> Py.truthy date = false ->
      result = success (strftime_ymd rt today))
  /\ (Str.five_digits cleaned = true -> Py.truthy date = true ->
      (strptime_ymd rt date_text = None ->
       result = Invalid "Invalid date format. Use YYYY-MM-DD")
      /\ (forall o, strptime_ymd rt date_text = Some o ->
            ((o < today)%Z -> result = Invalid "Date cannot be in the past")
            /\ ((today + 120 < o)%Z ->
                result = Invalid "Date cannot be more than 120 days in the future")
            /\ ((today <= o <= today + 120)%Z -> result = success date_text))).
Proof.
  intros Hclock cleaned date_text result success.
  assert (Hrun : result =
    if Str.five_digits cleaned then
      if Py.truthy date then
        match strptime_ymd rt date_text with
        | None => Invalid "Invalid date format. Use YYYY-MM-DD"
        | Some o =>
            if (o <? today)%Z then Invalid "Date cannot be in the past"
            else if (o >? today + 120)%Z
            then Invalid "Date cannot be more than 120 days in the future"
            else success date_text
        end
      else success (strftime_ymd rt today)
    else Invalid "Train number must be exactly 5 digits").
  { subst result. unfold _run, _format_error. fold cleaned date_text.
    unfold cleaned at 1. rewrite re_match_train_strip. fold cleaned.
    destruct (Str.five_digits cleaned); [| reflexivity]. cbn [negb].
    destruct (Py.truthy date); [| reflexivity].
    destruct (strptime_ymd rt date_text) as [o |]; [| reflexivity].
    destruct (o <? today)%Z; [reflexivity |].
    destruct (Z.ltb_spec max_ordinal (today + 120)); [lia | reflexivity]. }
  rewrite Hrun. clear Hrun. split; [| split; [| split]].
  - destruct (Str.five_digits cleaned);
      [| split; [discriminate | intros [? _]; discriminate]].
    destruct (Py.truthy date);
      [| split; [intros _; split; [reflexivity | now left] | reflexivity]].
    destruct (strptime_ymd rt date_text) as [o |];
      [| split; [discriminate
                | intros (_ & [? | (o' & ? & _)]); discriminate]].
    destruct (Z.ltb_spec o today);
      [split; [discriminate
              | intros (_ & [? | (o' & [= <-] & Hr)]); [discriminate | lia]] |].
    destruct (Z.gtb_spec o (today + 120));
      [split; [discriminate
              | intros (_ & [? | (o' & [= <-] & Hr)]); [discriminate | lia]] |].
    split; [| reflexivity].
    intros _. split; [reflexivity |]. right. exists o. split; [reflexivity | lia].
  - intros ->. reflexivity.
  - intros -> ->. reflexivity.
  - intros -> ->. split.
    + intros ->. reflexivity.
    + intros o ->. split; [| split]; intros Hr.
      * destruct (Z.ltb_spec o today); [reflexivity | lia].
      * destruct (Z.ltb_spec o today); [lia |].
        destruct (Z.gtb_spec o (today + 120)); [reflexivity | lia].
      * destruct (Z.ltb_spec o today); [lia |].
        destruct (Z.gtb_spec o (today + 120)); [lia | reflexivity].
Qed.

Lemma validator_accepts_exactly_witness :
  _run Runtime.reference 738886 (JStr " 12345 ") (JStr "2024-02-01")
  = Valid "12345" "2024-02-01"
          "Train 12345 validated successfully for 2024-02-01".
Proof.
  assert (Hclock : (738886 + 120 <= max_ordinal)%Z) by (vm_compute; discriminate).
  destruct (validator_accepts_exactly Runtime.reference 738886
              (JStr " 12345 ") (JStr "2024-02-01") Hclock)
    as (_ & _ & _ & Hdate).
  destruct (Hdate eq_refl eq_refl) as [_ Hparsed].
  destruct (Hparsed 738917%Z eq_refl) as (_ & _ & Hin).
  apply Hin. vm_compute. split; discriminate.
Defined.

(** C8, as the code has it. Before validating, the validator converts the
    train number to text and strips the whitespace around it, and nothing
    else: five digits between whitespace are accepted, and a train number
    that starts with a quote character, so also five digits wrapped in
    quote characters, is rejected with the message about the train
    number. *)
Theorem validator_strips_whitespace_only (rt : PyRuntime) (today : Z)
    (pre digits post quoted : string) (q : ascii) (date : json) :
  Spec.all_space pre = true -> Spec.all_space post = true ->
  Str.five_digits digits = true ->
  q = Str.dquote \/ q = Str.squote ->
  Str.startswith q (Str.lstrip quoted) = true ->
  _run rt today (JStr (pre ++ digits ++ post)) JNull
  = Valid digits (strftime_ymd rt today)
      ("Train " ++ digits ++ " validated successfully for " ++ strftime_ymd rt today)
  /\ _run rt today (JStr quoted) date
     = Invalid "Train number must be exactly 5 digits".
Proof.
  intros Hpre Hpost Hdigits Hq Hquoted. split.
  - unfold _run. cbn [py_str Py.truthy].
    rewrite strip_padded by assumption.
    assert (Hm : Str.re_match_train digits = true).
    { unfold Str.re_match_train. now rewrite Hdigits. }
    now rewrite Hm.
  - unfold _run. cbn [py_str].
    rewrite (quoted_not_matched q); [reflexivity | |].
    + destruct Hq as [-> | ->]; reflexivity.
    + apply strip_keeps_head; [| assumption].
      destruct Hq as [-> | ->]; reflexivity.
Qed.

Lemma validator_strips_whitespace_only_witness :
  _run Runtime.reference 738886 (JStr " 12345 ") JNull
  = Valid "12345" "2024-01-01" "Train 12345 validated successfully for 2024-01-01"
  /\ _run Runtime.reference 738886 (JStr "'12345'") JNull
     = Invalid "Train number must be exactly 5 digits".
Proof.
  apply (validator_strips_whitespace_only Runtime.reference 738886
           " " "12345" " " "'12345'" Str.squote JNull);
    solve [reflexivity | right; reflexivity].
Defined.

(** C8 fails as stated: five digits wrapped in double quotes, or in
    single quotes, are rejected. *)
Lemma quoted_train_number_rejected :
  _run Runtime.reference 738886
       (JStr (String Str.dquote ("12345" ++ String Str.dquote EmptyString))) JNull
  = Invalid "Train number must be exactly 5 digits"
  /\ _run Runtime.reference 738886 (JStr "'12345'") JNull
     = Invalid "Train number must be exactly 5 digits".
Proof. split; reflexivity. Qed.

End ValidatorResults.

(** ** Dictionaries *)

Section Dictionaries.

Import Py.

Lemma dict_get_set (k k' : string) (v : json) (d : dict) :
  dict_get k (dict_set k' v d)
  = if String.eqb k k' then Some v else dict_get k d.
Proof.
  induction d as [| [k0 v0] d IH]; cbn [dict_set dict_get].
  - destruct (String.eqb k k'); reflexivity.
  - destruct (String.eqb_spec k' k0) as [<- | Hne]; cbn [dict_get].
    + destruct (String.eqb k k'); reflexivity.
    + rewrite IH. destruct (String.eqb_spec k k0) as [<- | Hne'];
        [| reflexivity].
      destruct (String.eqb_spec k k') as [<- | _]; [congruence | reflexivity].
Qed.

Lemma dict_get_set_other (k k' : string) (v : json) (d : dict) :
  k <> k' -> dict_get k (dict_set k' v d) = dict_get k d.
Proof.
  intros Hne. rewrite dict_get_set.
  destruct (String.eqb_spec k k'); [contradiction | reflexivity].
Qed.

Lemma dict_has_set (k k' : string) (v : json) (d : dict) :
  dict_has k (dict_set k' v d) = String.eqb k k' || dict_has k d.
Proof.
  unfold dict_has. rewrite dict_get_set.
  destruct (String.eqb k k'); reflexivity.
Qed.

(** Writing a key that is there keeps the keys and their order. *)
Lemma dict_set_keys (k : string) (v : json) (d : dict) :
  dict_has k d = true -> map fst (dict_set k v d) = map fst d.
Proof.
  unfold dict_has. induction d as [| [k0 v0] d IH]; cbn [dict_get dict_set].
  - discriminate.
  - destruct (String.eqb k k0); [reflexivity |].
    intros H. cbn [map fst]. now rewrite IH.
Qed.

Lemma dict_has_keys (k : string) (d : dict) :
  dict_has k d = existsb (String.eqb k) (map fst d).
Proof.
  unfold dict_has. induction d as [| [k0 v0] d IH]; cbn [dict_get map fst existsb].
  - reflexivity.
  - destruct (String.eqb k k0); [reflexivity | exact IH].
Qed.

Lemma status_record_keys (d d' : dict) :
  map fst d = map fst d' -> Spec.status_record d = Spec.status_record d'.
Proof.
  intros H. unfold Spec.status_record, Spec.record_keys. cbn [forallb].
  rewrite !dict_has_keys, H. reflexivity.
Qed.

(** The [source] annotation keeps a status record a status record. *)
Lemma status_record_source (v : json) (d : dict) :
  Spec.status_record d = true ->
  Spec.status_record (dict_set "source" v d) = true.
Proof.
  unfold Spec.status_record. intros H.
  apply andb_true_iff in H as [Hkeys Herr].
  apply andb_true_iff. split.
  - rewrite forallb_forall in *. intros k Hk.
    rewrite dict_has_set, (Hkeys k Hk). apply orb_true_r.
  - rewrite dict_has_set. exact Herr.
Qed.

Lemma status_not_error (d : dict) :
  Spec.status_record d = true -> Spec.error_record d = false.
Proof.
  unfold Spec.status_record, Spec.error_record. intros H.
  apply andb_true_iff in H as [_ H]. now apply negb_true_iff.
Qed.

End Dictionaries.

(** ** The status fetcher *)

Section Fetch.

Import RailwayAPITool.
Context (rt : PyRuntime) (e : env).

(** The mock record is there whenever the clock is in range. *)
Lemma mock_succeeds (tn date : json) (ctx : string) (f : frame) :
  Spec.env_ok e ->
  exists actual,
    _get_mock_data rt e tn date ctx f = (inr (mock_record rt e actual tn ctx), f).
Proof.
  intros (Hdelay & Hlow & Hhigh).
  unfold _get_mock_data, Dt.add_minutes.
  set (w := (dt_wall (now e) + randint_0_45 (draws e) * Dt.us_per_minute)%Z).
  assert (Hw : (0 <=? w)%Z && (w <=? Dt.max_wall)%Z = true).
  { apply andb_true_iff. unfold Dt.us_per_minute, Dt.us_per_second in *.
    split; [apply Z.leb_le | apply Z.leb_le]; subst w; lia. }
  rewrite Hw. eexists. reflexivity.
Qed.

Lemma mock_is_status_record (actual : datetime) (tn : json) (ctx : string) :
  Spec.status_record (mock_record rt e actual tn ctx) = true.
Proof. reflexivity. Qed.

Lemma scan_result_keys (tn : string) (info info' : dict) (result : json) :
  map fst info = Spec.record_keys ->
  scan_result rt e tn info result = inr info' ->
  map fst info' = Spec.record_keys.
Proof.
  intros Hkeys. unfold scan_result.
  assert (Hset : forall k v d, map fst d = Spec.record_keys ->
                   In k Spec.record_keys ->
                   map fst (Py.dict_set k v d) = Spec.record_keys).
  { intros k v d Hd Hin. rewrite dict_set_keys; [exact Hd |].
    rewrite dict_has_keys, Hd.
    apply existsb_exists. exists k. split; [exact Hin | apply String.eqb_refl]. }
  destruct result; try (intros [= <-]; exact Hkeys).
  destruct (Py.get_or "title" _ _); try discriminate;
    destruct (Py.get_or "snippet" _ _); try discriminate.
  set (info1 := if _ && _ then _ else info).
  assert (H1 : map fst info1 = Spec.record_keys).
  { subst info1. destruct (_ && _); [| exact Hkeys].
    apply Hset; [exact Hkeys | cbn; tauto]. }
  destruct (existsb _ status_keywords); [| intros [= <-]; exact H1].
  set (info2 := match re_search_station rt _ with Some _ => _ | None => info1 end).
  assert (H2 : map fst info2 = Spec.record_keys).
  { subst info2. destruct (re_search_station rt _); [| exact H1].
    apply Hset; [exact H1 | cbn; tauto]. }
  destruct (re_search_delay rt _); [| intros [= <-]; exact H2].
  destruct (Dt.add_minutes _ _); [| discriminate].
  intros [= <-]. apply Hset; [apply Hset; [exact H2 |] |]; cbn; tauto.
Qed.

Lemma scan_results_keys (tn : string) (results : list json) (info info' : dict) :
  map fst info = Spec.record_keys ->
  scan_results rt e tn info results = inr info' ->
  map fst info' = Spec.record_keys.
Proof.
  unfold scan_results. revert info.
  induction results as [| r results IH]; intros info Hkeys; cbn [fold_left].
  - intros [= <-]. exact Hkeys.
  - destruct (scan_result rt e tn info r) as [ex | info1] eqn:Hr.
    + intros H. exfalso. clear - H.
      induction results as [| r' results IH']; cbn [fold_left] in H;
        [discriminate | auto].
    + apply IH. eapply scan_result_keys; eassumption.
Qed.

(** [_extract_train_info] returns a status record and leaves the frame
    alone. *)
Lemma extract_succeeds (search_results : json) (tn : string) (f : frame) :
  Spec.env_ok e ->
  exists info,
    _extract_train_info rt e search_results tn f = (inr info, f)
    /\ Spec.status_record info = true.
Proof.
  intros He. unfold _extract_train_info, try_except, mbind, M_bind, lift.
  destruct (method_get (load_results rt search_results) "organic" (JList []))
    as [ex | organic].
  { destruct (mock_succeeds (JStr tn) JNull
                ("Data extraction failed: " ++ exn_text rt ex) f He) as [a Ha].
    eexists. split; [exact Ha | reflexivity]. }
  destruct (first_five organic) as [ex | results].
  { destruct (mock_succeeds (JStr tn) JNull
                ("Data extraction failed: " ++ exn_text rt ex) f He) as [a Ha].
    eexists. split; [exact Ha | reflexivity]. }
  destruct (scan_results rt e tn (initial_train_info rt e tn) results)
    as [ex | info] eqn:Hscan.
  { destruct (mock_succeeds (JStr tn) JNull
                ("Data extraction failed: " ++ exn_text rt ex) f He) as [a Ha].
    eexists. split; [exact Ha | reflexivity]. }
  exists info. split; [reflexivity |].
  rewrite (status_record_keys info (initial_train_info rt e tn)); [reflexivity |].
  apply scan_results_keys in Hscan; [| reflexivity]. now rewrite Hscan.
Qed.

(** The search answers: the record is extracted, the insertion into the
    cache raises, and the inner handler answers with a mock record. *)
Lemma search_or_mock_live (tn : string) (date results : json) (f : frame) :
  Spec.env_ok e ->
  search e (search_query rt e tn date) = inr results ->
  exists actual,
    search_or_mock rt e tn date f
    = (inr (JDict (mock_record rt e actual (JStr tn)
                     ("Search failed: "
                      ++ exn_text rt (NoClassAttribute "cache")))),
       Spec.logged (search_query rt e tn date) f).
Proof.
  intros He Hsearch.
  destruct (extract_succeeds results tn (Spec.logged (search_query rt e tn date) f) He)
    as (info & Hinfo & _).
  destruct (mock_succeeds (JStr tn) date
              ("Search failed: " ++ exn_text rt (NoClassAttribute "cache"))
              (Spec.logged (search_query rt e tn date) f) He) as [actual Ha].
  exists actual.
  unfold search_or_mock, try_except, mbind, M_bind, lift, log_query, class_cache.
  fold (Spec.logged (search_query rt e tn date) f).
  rewrite Hsearch, Hinfo. unfold lift. cbn beta iota. rewrite Ha. reflexivity.
Qed.

(** The search raises: a mock record is returned and the cache is left
    as it was. *)
Lemma search_or_mock_fallback (tn : string) (date : json) (ex : exn) (f : frame) :
  Spec.env_ok e ->
  search e (search_query rt e tn date) = inl ex ->
  exists actual,
    search_or_mock rt e tn date f
    = (inr (JDict (mock_record rt e actual (JStr tn)
                     ("Search failed: " ++ exn_text rt ex))),
       Spec.logged (search_query rt e tn date) f).
Proof.
  intros He Hsearch.
  destruct (mock_succeeds (JStr tn) date ("Search failed: " ++ exn_text rt ex)
              (Spec.logged (search_query rt e tn date) f) He) as [actual Ha].
  exists actual.
  unfold search_or_mock, try_except, mbind, M_bind, lift, log_query.
  fold (Spec.logged (search_query rt e tn date) f).
  rewrite Hsearch. cbn beta iota. rewrite Ha. reflexivity.
Qed.

(** The lookup raises before anything is read or written. *)
Lemma lookup_raises (tn : string) (date : json) (f : frame) :
  lookup_or_search rt e tn date f = (inl (NoClassAttribute "cache"), f).
Proof. reflexivity. Qed.

Lemma matched_is_truthy (tn : string) :
  Str.re_match_train tn = true -> Py.truthy (JStr tn) = true.
Proof. destruct tn; [discriminate | reflexivity]. Qed.

(** On an input that passes the checks, [_run] is the lookup, run with
    the two locals bound. *)
Lemma run_selected (input_data : py_input) (tn : string) (date : json) (st : state) :
  Spec.selects rt input_data tn date ->
  _run rt e input_data st
  = let '(r, f) := try_except (lookup_or_search rt e tn date) (handler rt e)
                     (Frame st (Some (JStr tn)) (Some date)) in
    (r, shared f).
Proof.
  intros (d & Hparse & Hmatch & -> & Hsel).
  unfold _run, body, try_except. rewrite Hparse.
  unfold mbind, M_bind, lift, contains_valid, method_get,
    set_train_number, set_date, check_and_fetch.
  destruct Hsel as [(-> & Hvalid & ->) | (-> & <-)].
  - rewrite Hvalid. cbn [negb]. rewrite (matched_is_truthy tn Hmatch), Hmatch.
    reflexivity.
  - rewrite (matched_is_truthy _ Hmatch), Hmatch. reflexivity.
Qed.

(** On an input that passes the checks, [_run] ends in the outer
    handler: a mock record for the train number asked for, and the
    state as it was. *)
Lemma run_selected_mock (input_data : py_input) (tn : string) (date : json)
    (st : state) :
  Spec.selects rt input_data tn date ->
  Spec.env_ok e ->
  exists actual,
    Dt.add_minutes (now e) (randint_0_45 (draws e)) = Some actual
    /\ _run rt e input_data st
       = (inr (JDict (mock_record rt e actual (JStr tn)
                        ("API tool failed: "
                         ++ exn_text rt (NoClassAttribute "cache")))), st).
Proof.
  intros Hsel He.
  rewrite (run_selected input_data tn date st Hsel).
  unfold try_except. rewrite lookup_raises.
  unfold handler, mbind, M_bind, get_locals. cbn [v_train_number v_date].
  rewrite (matched_is_truthy tn) by (destruct Hsel as (d & _ & Hm & _); exact Hm).
  unfold _get_mock_data, mbind, M_bind, lift.
  destruct He as (Hdelay & Hlow & Hhigh).
  destruct (Dt.add_minutes (now e) (randint_0_45 (draws e))) as [actual |] eqn:Hadd.
  - exists actual. split; reflexivity.
  - exfalso. unfold Dt.add_minutes in Hadd.
    destruct (_ && _) eqn:Hw; [discriminate |].
    apply andb_false_iff in Hw.
    unfold Dt.us_per_minute, Dt.us_per_second in *.
    destruct Hw as [Hw | Hw]; apply Z.leb_gt in Hw; lia.
Qed.

End Fetch.

Section FetchTotal.

Import RailwayAPITool.
Context (rt : PyRuntime) (e : env) (He : Spec.env_ok e).

Lemma try_except_bind {A B} (m : M A) (k : A -> M B) (h : exn -> M B) (f : frame) :
  try_except (m ≫= k) h f
  = match m f with
    | (inl ex, f') => h ex f'
    | (inr x, f') => try_except (k x) h f'
    end.
Proof.
  unfold try_except, mbind, M_bind. destruct (m f) as [[ex | x] f']; reflexivity.
Qed.

(** The outer handler ends in a mock record and keeps the frame. *)
Lemma handler_ended_well (ex : exn) (f : frame) (st : state) :
  Spec.cache_ok (shared f) -> Spec.ended_well st (handler rt e ex f).
Proof.
  intros Hc. unfold handler, mbind, M_bind, get_locals.
  set (tn := match v_train_number f with
             | Some v => if Py.truthy v then v else JStr "00000"
             | None => JStr "00000"
             end).
  set (date := match v_date f with Some v => v | None => JNull end).
  destruct (mock_succeeds rt e tn date ("API tool failed: " ++ exn_text rt ex) f He)
    as [actual Ha].
  rewrite Ha. eexists _, f. split; [reflexivity |]. right.
  split; [reflexivity | exact Hc].
Qed.

Lemma error_ended_well (msg : json) (f : frame) :
  Spec.ended_well (shared f) (inr (error_record msg), f).
Proof.
  eexists _, f. split; [reflexivity |]. left. split; reflexivity.
Qed.

(** The checks on the train number and the lookup, under the outer
    handler. *)
Lemma check_and_fetch_ended_well (tn date : json) (f : frame) (st : state) :
  shared f = st -> Spec.cache_ok st ->
  Spec.ended_well st (try_except (check_and_fetch rt e tn date) (handler rt e) f).
Proof.
  intros Hst Hc. subst st. unfold check_and_fetch, try_except.
  destruct (Py.truthy tn); cbn [negb]; [| apply error_ended_well].
  destruct tn; try (apply handler_ended_well; exact Hc).
  destruct (Str.re_match_train s); cbn [negb]; [| apply error_ended_well].
  rewrite lookup_raises. apply handler_ended_well; exact Hc.
Qed.

Lemma parse_input_early (input_data : py_input) (v : json) :
  parse_input rt input_data = inl v -> exists msg, v = error_record msg.
Proof.
  unfold parse_input. destruct input_data as [s | o].
  - destruct (json_loads rt (Str.strip s)); [discriminate |].
    destruct (_ && _).
    + destruct (json_loads rt _); [discriminate |].
      destruct (Str.re_search_train s); [discriminate |].
      intros [= <-]. eexists. reflexivity.
    + intros [= <-]. eexists. reflexivity.
  - destruct o; discriminate.
Qed.

(** [_run] does not raise: it ends in an error record, with the state
    untouched, or in a status record. *)
Lemma run_ended_well (input_data : py_input) (st : state) :
  Spec.cache_ok st ->
  Spec.ended_well st
    (try_except (body rt e input_data) (handler rt e) (Frame st None None)).
Proof.
  intros Hc. unfold body.
  destruct (parse_input rt input_data) as [early | parsed] eqn:Hparse.
  { destruct (parse_input_early _ _ Hparse) as [msg ->].
    apply (error_ended_well msg (Frame st None None)). }
  rewrite try_except_bind. unfold lift at 1.
  destruct (contains_valid parsed) as [ex | has_valid] eqn:Hcv;
    [apply handler_ended_well; exact Hc |].
  destruct has_valid.
  - rewrite try_except_bind. unfold lift at 1.
    destruct (method_get parsed "valid" (JBool false)) as [ex | valid] eqn:Hv;
      [apply handler_ended_well; exact Hc |].
    destruct (Py.truthy valid); cbn [negb].
    + rewrite try_except_bind. unfold lift at 1.
      destruct (method_get parsed "train_number" (JStr EmptyString)) as [ex | tn];
        [apply handler_ended_well; exact Hc |].
      rewrite try_except_bind. unfold set_train_number at 1. cbn [shared v_date].
      rewrite try_except_bind. unfold lift at 1.
      destruct (method_get parsed "date" JNull) as [ex | date];
        [apply handler_ended_well; exact Hc |].
      rewrite try_except_bind. unfold set_date at 1. cbn [shared v_train_number].
      apply check_and_fetch_ended_well; [reflexivity | exact Hc].
    + rewrite try_except_bind. unfold lift at 1.
      destruct (method_get parsed "error" _) as [ex | msg];
        [apply handler_ended_well; exact Hc |].
      apply (error_ended_well msg (Frame st None None)).
  - rewrite try_except_bind. unfold lift at 1.
    destruct (method_get parsed "train_number" (JStr EmptyString)) as [ex | raw];
      [apply handler_ended_well; exact Hc |].
    rewrite try_except_bind. unfold set_train_number at 1. cbn [shared v_date].
    rewrite try_except_bind. unfold lift at 1.
    destruct (method_get parsed "date" JNull) as [ex | date];
      [apply handler_ended_well; exact Hc |].
    rewrite try_except_bind. unfold set_date at 1. cbn [shared v_train_number].
    apply check_and_fetch_ended_well; [reflexivity | exact Hc].
Qed.

(** A false [valid] gives the error record at once. *)
Lemma run_invalid (input_data : py_input) (d : dict) (v : json) (st : state) :
  parse_input rt input_data = inr (JDict d) ->
  Py.dict_get "valid" d = Some v -> Py.truthy v = false ->
  _run rt e input_data st
  = (inr (error_record
            (Py.get_or "error" (JStr "Invalid input from validation") d)), st).
Proof.
  intros Hparse Hget Hfalse. unfold _run, body, try_except. rewrite Hparse.
  unfold mbind, M_bind, lift, contains_valid, method_get, Py.dict_has, Py.get_or.
  rewrite Hget, Hfalse. reflexivity.
Qed.

End FetchTotal.

Section FetchResults.

Import RailwayAPITool.

(** C1, as the code has it. Whenever the clock is in range and the cache
    holds status records, [_run] does not raise and returns a
    dictionary: an error record, and then the state is untouched (no
    cache access, no search), or a status record, which is a mock record
    when the search raises. When the parsed input carries a false
    [valid], it returns the error record at once. The converse does not
    hold: an input that does not parse, or whose train number is missing
    or is not five digits, ends in an error record too. *)
Theorem fetch_returns_record (rt : PyRuntime) (e : env)
    (input_data : py_input) (st : state) :
  Spec.env_ok e -> Spec.cache_ok st ->
  exists record st',
    _run rt e input_data st = (inr (JDict record), st')
    /\ ((Spec.error_record record = true /\ st' = st)
        \/ (Spec.status_record record = true
            /\ Spec.error_record record = false /\ Spec.cache_ok st'))
    /\ (forall d v,
          parse_input rt input_data = inr (JDict d) ->
          Py.dict_get "valid" d = Some v -> Py.truthy v = false ->
          record = [("error",
                     Py.get_or "error" (JStr "Invalid input from validation") d)]
          /\ st' = st)
    /\ (forall tn date ex,
          Spec.selects rt input_data tn date ->
          Spec.no_fresh_entry rt e st tn date ->
          search e (search_query rt e tn date) = inl ex ->
          Py.dict_get "data_source" record = Some (JStr "mock_data")).
Proof.
  intros He Hc.
  destruct (run_ended_well rt e He input_data st Hc) as (record & f & Hrun & Hres).
  exists record, (shared f). unfold _run. rewrite Hrun.
  split; [reflexivity |]. split; [| split].
  - destruct Hres as [[Herr Hst] | [Hrec Hc']]; [left; now split | right].
    split; [exact Hrec |]. split; [now apply status_not_error | exact Hc'].
  - intros d v Hparse Hget Hfalse.
    pose proof (run_invalid rt e input_data d v st Hparse Hget Hfalse) as Hinv.
    unfold _run in Hinv. rewrite Hrun in Hinv.
    injection Hinv as Hr Hs. split; [exact Hr | exact Hs].
  - intros tn date ex Hsel Hmiss Hsearch.
    destruct (run_selected_mock rt e input_data tn date st Hsel He)
      as (actual & _ & Hmock).
    unfold _run in Hmock. rewrite Hrun in Hmock.
    injection Hmock as Hr _. now rewrite Hr.
Qed.

Lemma fetch_returns_record_witness :
  _run Runtime.reference (Examples.offline 1000 Examples.draws_a)
       Examples.rejected Examples.empty_state
  = (inr (JDict [("error", JStr "Train number must be exactly 5 digits")]),
     Examples.empty_state).
Proof.
  assert (He : Spec.env_ok (Examples.offline 1000 Examples.draws_a))
    by (vm_compute; repeat split; discriminate).
  assert (Hc : Spec.cache_ok Examples.empty_state)
    by (intros key cached ts; cbn; rewrite lookup_empty; discriminate).
  destruct (fetch_returns_record Runtime.reference
              (Examples.offline 1000 Examples.draws_a)
              Examples.rejected Examples.empty_state He Hc)
    as (record & st' & Hrun & _ & Hinvalid & _).
  rewrite Hrun.
  destruct (Hinvalid
              [("valid", JBool false);
               ("error", JStr "Train number must be exactly 5 digits");
               ("train_number", JNull); ("date", JNull)]
              (JBool false)) as [-> ->];
    reflexivity.
Defined.

(** C1 fails as stated: the parsed input carries no [valid] key, and
    the result is an error record. *)
Lemma error_record_without_valid_false :
  parse_input Runtime.reference Examples.short_number
  = inr (JDict [("train_number", JStr "123")])
  /\ Py.dict_get "valid" [("train_number", JStr "123")] = None
  /\ _run Runtime.reference (Examples.offline 1000 Examples.draws_a)
          Examples.short_number Examples.empty_state
     = (inr (JDict [("error",
                     JStr "Invalid train number format - must be 5 digits")]),
        Examples.empty_state).
Proof. vm_compute. repeat split; reflexivity. Qed.

(** C2. No fetch writes the cache. A request that passes the checks
    reaches the lookup, which reads [self.__class__.cache] and raises;
    the outer handler answers with a mock record for the train number
    asked for, whose note names the failure, and the state is as it was
    before the call: nothing was looked up, searched or stored, whether
    the search tool would have answered or not. *)
Theorem fetch_never_writes_cache (rt : PyRuntime) (e : env)
    (input_data : py_input) (tn : string) (date : json) (st : state) :
  Spec.selects rt input_data tn date ->
  Spec.env_ok e ->
  exists actual record,
    Dt.add_minutes (now e) (randint_0_45 (draws e)) = Some actual
    /\ record = mock_record rt e actual (JStr tn)
                  ("API tool failed: " ++ exn_text rt (NoClassAttribute "cache"))
    /\ _run rt e input_data st = (inr (JDict record), st)
    /\ Py.dict_get "data_source" record = Some (JStr "mock_data")
    /\ Py.dict_get "source" record = None.
Proof.
  intros Hsel He.
  destruct (run_selected_mock rt e input_data tn date st Hsel He)
    as (actual & Hadd & Hrun).
  exists actual. eexists. split; [exact Hadd |]. split; [reflexivity |].
  split; [exact Hrun |]. split; reflexivity.
Qed.

Lemma fetch_never_writes_cache_witness :
  exists record,
    search (Examples.online 1000)
      (search_query Runtime.reference (Examples.online 1000) "12345"
         (JStr "2024-01-01"))
    = inr (JDict [("organic",
                   JList [JDict [("title", JStr "12345 Rajdhani Train");
                                 ("snippet", JStr "Running 15 min late")]])])
    /\ _run Runtime.reference (Examples.online 1000) Examples.validated
            Examples.empty_state
       = (inr (JDict record), Examples.empty_state)
    /\ Py.dict_get "data_source" record = Some (JStr "mock_data")
    /\ Py.dict_get "note" record
       = Some (JStr "Using mock data - API tool failed: cache").
Proof.
  assert (Hsel : Spec.selects Runtime.reference Examples.validated
                   "12345" (JStr "2024-01-01")).
  { eexists. split; [vm_compute; reflexivity |].
    split; [reflexivity |]. split; [reflexivity |].
    left. repeat split; reflexivity. }
  assert (He : Spec.env_ok (Examples.online 1000))
    by (vm_compute; repeat split; discriminate).
  destruct (fetch_never_writes_cache Runtime.reference (Examples.online 1000)
              Examples.validated "12345" (JStr "2024-01-01") Examples.empty_state
              Hsel He) as (actual & record & _ & Hrecord & Hrun & Hsource & _).
  exists record. split; [reflexivity |]. split; [exact Hrun |].
  split; [exact Hsource |]. rewrite Hrecord. reflexivity.
Defined.

(** C3. No fetch is served from the cache. The same validated request
    twice, 60 seconds apart, with the search tool answering: each call
    ends in the outer handler and returns a mock record drawn anew, so
    the two records differ in more than the source annotation; neither
    says [cache] under [data_source] or under [source], and the cache
    is empty after both. *)
Lemma second_fetch_not_from_cache :
  let first := _run Runtime.reference (Examples.online_drawing 1000 Examples.draws_a)
                    Examples.validated Examples.empty_state in
  let second := _run Runtime.reference (Examples.online_drawing 1060 Examples.draws_b)
                     Examples.validated (snd first) in
  (1060 - 1000 < cache_timeout)%Q
  /\ snd first = Examples.empty_state
  /\ snd second = Examples.empty_state
  /\ (exists record,
        fst first = inr (JDict record)
        /\ Py.dict_get "data_source" record = Some (JStr "mock_data")
        /\ Py.dict_get "source" record = None
        /\ Py.dict_get "current_station" record = Some (JStr "Kolkata"))
  /\ (exists record,
        fst second = inr (JDict record)
        /\ Py.dict_get "data_source" record = Some (JStr "mock_data")
        /\ Py.dict_get "source" record = None
        /\ Py.dict_get "current_station" record = Some (JStr "Pune")).
Proof.
  vm_compute. split; [reflexivity |]. split; [reflexivity |].
  split; [reflexivity |]. split; eexists; repeat split; reflexivity.
Qed.

End FetchResults.

(** ** The great-circle distance *)

Section Haversine.

Import GeospatialTool.
Local Open Scope R_scope.

Lemma sin_half_sqr_swap (a b : R) :
  sin ((b - a) / 2) ^ 2 = sin ((a - b) / 2) ^ 2.
Proof.
  replace ((b - a) / 2) with (- ((a - b) / 2)) by Lra.lra.
  rewrite sin_neg. ring.
Qed.

(** C9. The Haversine distance is symmetric, and the distance from a
    point to itself is 0; this holds for all coordinates, so for the
    valid ones. *)
Theorem haversine_symmetric (lat1 lon1 lat2 lon2 : R) :
  _haversine_distance lat1 lon1 lat2 lon2
  = _haversine_distance lat2 lon2 lat1 lon1
  /\ _haversine_distance lat1 lon1 lat1 lon1 = 0.
Proof.
  unfold _haversine_distance. cbv zeta. split.
  - rewrite (sin_half_sqr_swap (radians lat1) (radians lat2)).
    rewrite (sin_half_sqr_swap (radians lon1) (radians lon2)).
    rewrite (Rmult_comm (cos (radians lat1)) (cos (radians lat2))).
    reflexivity.
  - replace (radians lat1 - radians lat1) with 0 by ring.
    replace (radians lon1 - radians lon1) with 0 by ring.
    replace (0 / 2) with 0 by Lra.lra.
    rewrite sin_0.
    replace (0 ^ 2 + cos (radians lat1) * cos (radians lat1) * 0 ^ 2) with 0 by ring.
    rewrite sqrt_0, asin_0. ring.
Qed.

End Haversine.

(** ** The text entry point of the validator *)

Section ValidatorEntry.

Import TrainValidationTool.

Lemma take_length (n : nat) (s : string) :
  (n <= String.length s)%nat -> String.length (Str.take n s) = n.
Proof.
  unfold Str.take. revert s.
  induction n as [| n IH]; intros [| c s] H; cbn in *; try reflexivity; try lia.
  rewrite IH; [reflexivity | lia].
Qed.

Lemma substring_all (s : string) : String.substring 0 (String.length s) s = s.
Proof. induction s as [| c s IH]; cbn; [reflexivity | now rewrite IH]. Qed.

Lemma take_drop (n : nat) (s : string) :
  (n <= String.length s)%nat ->
  Str.take n s ++ String.substring n (String.length s - n) s = s.
Proof.
  unfold Str.take. revert s.
  induction n as [| n IH]; intros s H.
  - rewrite Nat.sub_0_r, substring_all. destruct s; reflexivity.
  - destruct s as [| c s]; [cbn in H; lia |].
    cbn [String.substring String.length Nat.sub].
    change (String c (String.substring 0 n s) ++ ?t)
      with (String c (String.substring 0 n s ++ t)).
    f_equal. apply IH. cbn in H. lia.
Qed.

Lemma append_same_length (a b x y : string) :
  String.length a = String.length b -> a ++ x = b ++ y -> a = b /\ x = y.
Proof.
  revert b. induction a as [| c a IH]; intros [| d b] Hlen H;
    try discriminate Hlen.
  - split; [reflexivity | exact H].
  - injection H as -> H. injection Hlen as Hlen.
    destruct (IH b Hlen H) as [-> ->]. split; reflexivity.
Qed.

Lemma length_append (a b : string) :
  String.length (a ++ b) = (String.length a + String.length b)%nat.
Proof.
  induction a as [| c a IH]; [reflexivity |].
  change (String c a ++ b) with (String c (a ++ b)).
  cbn [String.length]. now rewrite IH.
Qed.

(** A group of five digits at the head of a text is its first five
    characters. *)
Lemma head_group (m post : string) :
  Spec.five_decimal m = true ->
  Str.take 5 (m ++ post) = m
  /\ String.substring 5 (String.length (m ++ post) - 5) (m ++ post) = post
  /\ (5 <= String.length (m ++ post))%nat.
Proof.
  unfold Spec.five_decimal. intros H. apply andb_true_iff in H as [Hlen _].
  apply Nat.eqb_eq in Hlen.
  destruct m as [| a1 [| a2 [| a3 [| a4 [| a5 [| a6 m]]]]]]; try discriminate Hlen.
  cbv [String.append]. fold String.append.
  change (EmptyString ++ post) with post.
  unfold Str.take. cbn [String.substring String.length Nat.sub].
  split; [now destruct post |]. rewrite Nat.sub_0_r.
  split; [apply substring_all | lia].
Qed.

Lemma before_cons (prev_word : bool) (c : ascii) (pre : string) :
  Spec.no_word_before prev_word (String c pre) <-> Spec.no_word_before (Str.is_word c) pre.
Proof.
  unfold Spec.no_word_before. destruct pre as [| a pre]; [reflexivity |].
  change (Str.last_char (String c (String a pre)))
    with (Str.last_char (String a pre)).
  destruct (Str.last_char (String a pre)) eqn:Hlast; [reflexivity |].
  exfalso. clear - Hlast. revert a Hlast.
  induction pre as [| b pre IH]; intros a Hlast; [discriminate |].
  exact (IH b Hlast).
Qed.

Lemma after_boundary (post : string) :
  Spec.no_word_after post <-> Str.boundary_after post = true.
Proof.
  unfold Spec.no_word_after, Str.boundary_after. destruct post as [| c post]; [tauto |].
  destruct (Str.is_word c); cbn; split; congruence.
Qed.

(** The test that [search_train_from] makes at the head of a text says
    whether a group begins there. *)
Lemma here_spec (prev_word : bool) (s : string) :
  negb prev_word
  && (5 <=? String.length s)%nat
  && Str.all_decimal (Str.take 5 s)
  && Str.boundary_after (String.substring 5 (String.length s - 5) s) = true
  <-> exists m post,
        s = m ++ post /\ Spec.five_decimal m = true
        /\ Spec.no_word_before prev_word EmptyString /\ Spec.no_word_after post.
Proof.
  split.
  - intros H. apply andb_true_iff in H as [H Hafter].
    apply andb_true_iff in H as [H Hdigits].
    apply andb_true_iff in H as [Hprev Hlen].
    apply Nat.leb_le in Hlen. apply negb_true_iff in Hprev.
    exists (Str.take 5 s), (String.substring 5 (String.length s - 5) s).
    split; [symmetry; now apply take_drop |]. split; [| split].
    + unfold Spec.five_decimal. rewrite take_length by exact Hlen.
      now rewrite Hdigits.
    + exact Hprev.
    + now apply after_boundary.
  - intros (m & post & -> & Hfive & Hprev & Hafter).
    destruct (head_group m post Hfive) as (-> & -> & Hlen).
    apply after_boundary in Hafter. unfold Spec.no_word_before in Hprev. cbn in Hprev.
    unfold Spec.five_decimal in Hfive. apply andb_true_iff in Hfive as [_ Hdigits].
    apply Nat.leb_le in Hlen. now rewrite Hprev, Hlen, Hdigits, Hafter.
Qed.

(** What [re.search] with the pattern of the train number finds: the
    leftmost group of five digits with a word boundary on each side;
    and it finds nothing only if there is no such group. *)
Lemma search_from_spec (s : string) :
  forall prev_word,
    match Str.search_train_from prev_word s with
    | Some m =>
        exists pre post,
          s = pre ++ m ++ post /\ Spec.five_decimal m = true
          /\ Spec.no_word_before prev_word pre /\ Spec.no_word_after post
          /\ forall pre' m' post',
               s = pre' ++ m' ++ post' -> Spec.five_decimal m' = true ->
               Spec.no_word_before prev_word pre' -> Spec.no_word_after post' ->
               (String.length pre <= String.length pre')%nat
    | None =>
        forall pre m post,
          s = pre ++ m ++ post -> Spec.five_decimal m = true ->
          Spec.no_word_before prev_word pre -> Spec.no_word_after post -> False
    end.
Proof.
  induction s as [| c s IH]; intros prev_word.
  - cbn [Str.search_train_from]. intros pre m post Hs Hfive _ _.
    apply (f_equal String.length) in Hs. rewrite !length_append in Hs.
    unfold Spec.five_decimal in Hfive. apply andb_true_iff in Hfive as [Hlen _].
    apply Nat.eqb_eq in Hlen. cbn [String.length] in Hs. lia.
  - cbn [Str.search_train_from].
    pose proof (here_spec prev_word (String c s)) as Hhere.
    destruct (negb prev_word && (5 <=? String.length (String c s))%nat
              && Str.all_decimal (Str.take 5 (String c s))
              && Str.boundary_after _) eqn:Hcond.
    + destruct (proj1 Hhere eq_refl) as (m & post & Hs & Hfive & Hprev & Hafter).
      destruct (head_group m post Hfive) as (Htake & _ & _).
      rewrite <- Hs in Htake. rewrite Htake.
      exists EmptyString, post. split; [exact Hs |].
      split; [exact Hfive |]. split; [exact Hprev |]. split; [exact Hafter |].
      intros. cbn [String.length]. lia.
    + assert (Hnot : forall m post,
                String c s = m ++ post -> Spec.five_decimal m = true ->
                Spec.no_word_before prev_word EmptyString -> Spec.no_word_after post -> False).
      { intros m post Hs Hfive Hprev Hafter.
        assert (Htrue : false = true)
          by (apply Hhere; exists m, post; now repeat split).
        discriminate Htrue. }
      specialize (IH (Str.is_word c)).
      destruct (Str.search_train_from (Str.is_word c) s) as [m |].
      * destruct IH as (pre & post & Hs & Hfive & Hprev & Hafter & Hleft).
        exists (String c pre), post. split; [now rewrite Hs |].
        split; [exact Hfive |]. split; [now apply before_cons |].
        split; [exact Hafter |].
        intros pre' m' post' Hs' Hfive' Hprev' Hafter'.
        destruct pre' as [| c' pre'].
        { destruct (Hnot m' post' Hs' Hfive' Hprev' Hafter'). }
        change (String c' pre' ++ m' ++ post')
          with (String c' (pre' ++ m' ++ post')) in Hs'.
        injection Hs' as <- Hs'. apply before_cons in Hprev'.
        cbn [String.length]. apply le_n_S.
        now apply (Hleft pre' m' post').
      * intros pre' m' post' Hs' Hfive' Hprev' Hafter'.
        destruct pre' as [| c' pre'].
        { destruct (Hnot m' post' Hs' Hfive' Hprev' Hafter'). }
        change (String c' pre' ++ m' ++ post')
          with (String c' (pre' ++ m' ++ post')) in Hs'.
        injection Hs' as <- Hs'. apply before_cons in Hprev'.
        now apply (IH pre' m' post').
Qed.

Lemma stands_alone_sides (pre m post : string) :
  Spec.stands_alone pre m post
  <-> Spec.five_decimal m = true /\ Spec.no_word_before false pre /\ Spec.no_word_after post.
Proof. reflexivity. Qed.

(** [re.search] finds [m] exactly when [m] is the leftmost group that
    stands on its own. *)
Lemma search_train_leftmost (s m : string) :
  Str.re_search_train s = Some m
  <-> exists pre post, Spec.leftmost_group s pre m post.
Proof.
  unfold Str.re_search_train. pose proof (search_from_spec s false) as H.
  split.
  - intros Hm. rewrite Hm in H.
    destruct H as (pre & post & Hs & Hfive & Hprev & Hafter & Hleft).
    exists pre, post. split; [exact Hs |]. split.
    + apply stands_alone_sides. now repeat split.
    + intros pre' m' post' Hs' Halone.
      apply stands_alone_sides in Halone as (Hfive' & Hprev' & Hafter').
      now apply (Hleft pre' m' post').
  - intros (pre & post & Hs & Halone & Hleft).
    pose proof Halone as Hsides.
    apply stands_alone_sides in Hsides as (Hfive & Hprev & Hafter).
    destruct (Str.search_train_from false s) as [m0 |].
    + destruct H as (pre0 & post0 & Hs0 & Hfive0 & Hprev0 & Hafter0 & Hleft0).
      assert (Hlen : String.length pre0 = String.length pre).
      { apply Nat.le_antisymm.
        - now apply (Hleft0 pre m post).
        - apply (Hleft pre0 m0 post0 Hs0).
          apply stands_alone_sides. now repeat split. }
      rewrite Hs in Hs0.
      apply append_same_length in Hs0 as [_ Hrest]; [| now symmetry].
      apply append_same_length in Hrest as [<- _]; [reflexivity |].
      unfold Spec.five_decimal in Hfive, Hfive0.
      apply andb_true_iff in Hfive as [Hl _].
      apply andb_true_iff in Hfive0 as [Hl0 _].
      apply Nat.eqb_eq in Hl. apply Nat.eqb_eq in Hl0. congruence.
    + destruct (H pre m post Hs Hfive Hprev Hafter).
Qed.

Lemma search_train_none (s : string) :
  Str.re_search_train s = None
  <-> forall pre m post, s = pre ++ m ++ post -> ~ Spec.stands_alone pre m post.
Proof.
  unfold Str.re_search_train. pose proof (search_from_spec s false) as H.
  split.
  - intros Hnone. rewrite Hnone in H. intros pre m post Hs Halone.
    apply stands_alone_sides in Halone as (Hfive & Hprev & Hafter).
    exact (H pre m post Hs Hfive Hprev Hafter).
  - intros Hno. destruct (Str.search_train_from false s) as [m |]; [| reflexivity].
    destruct H as (pre & post & Hs & Hfive & Hprev & Hafter & _).
    destruct (Hno pre m post Hs). apply stands_alone_sides. now repeat split.
Qed.

Lemma append_empty_r (s : string) : s ++ EmptyString = s.
Proof.
  induction s as [| c s IH]; [reflexivity |].
  change (String c s ++ EmptyString) with (String c (s ++ EmptyString)).
  now f_equal.
Qed.

Lemma strip_five_digits (m : string) :
  Spec.five_decimal m = true -> Str.strip m = m.
Proof.
  intros H.
  pose proof (strip_padded EmptyString m EmptyString eq_refl eq_refl H) as Hs.
  cbn [String.append] in Hs. now rewrite append_empty_r in Hs.
Qed.

(** Below code point 256 the decimal digits are the ASCII digits. *)
Lemma all_decimal_digits (s : string) : Str.all_decimal s = Str.all_digits s.
Proof.
  induction s as [| c s IH]; [reflexivity |].
  cbn [Str.all_decimal Str.all_digits]. now rewrite IH.
Qed.

(** X1. The text entry point [run] on a text that is not JSON. When
    five decimal digits stand on their own in the text, no word
    character before or after them, [run] answers as [_run] does on the
    leftmost such group with no date, and so, when the group is made of
    ASCII digits, with the acceptance of that group for today; there is
    a leftmost group whenever there is a group. A text without such a
    group is rejected. A text that is JSON but not an object is
    rejected as a whole, whatever it holds. (On the texts of the
    embedding, of characters below code point 256, every decimal digit
    is an ASCII digit.) *)
Theorem run_on_plain_text (rt : PyRuntime) (today : Z) (s : string) :
  (json_loads rt s = None ->
   (forall pre m post,
       Spec.leftmost_group s pre m post ->
       run rt today (InStr s) = _run rt today (JStr m) JNull
       /\ (Str.five_digits m = true ->
           run rt today (InStr s)
           = Valid m (strftime_ymd rt today)
               ("Train " ++ m ++ " validated successfully for "
                ++ strftime_ymd rt today)))
   /\ ((exists pre m post, s = pre ++ m ++ post /\ Spec.stands_alone pre m post) ->
       exists pre m post, Spec.leftmost_group s pre m post)
   /\ ((forall pre m post, s = pre ++ m ++ post -> ~ Spec.stands_alone pre m post) ->
       run rt today (InStr s) = Invalid "Could not parse train number from input"))
  /\ (forall v, json_loads rt s = Some v ->
        (forall d, v <> JDict d) ->
        run rt today (InStr s) = Invalid "Invalid input format").
Proof.
  split.
  - intros Hjson. split; [| split].
    + intros pre m post Hleft.
      assert (Hsearch : Str.re_search_train s = Some m)
        by (apply search_train_leftmost; now exists pre, post).
      assert (Hrun : run rt today (InStr s) = _run rt today (JStr m) JNull).
      { unfold run. now rewrite Hjson, Hsearch. }
      split; [exact Hrun |]. intros Hfive. rewrite Hrun.
      unfold _run. cbn [py_str Py.truthy].
      rewrite strip_five_digits by exact Hfive.
      unfold Str.re_match_train. rewrite Hfive. reflexivity.
    + intros (pre & m & post & Hs & Halone).
      destruct (Str.re_search_train s) as [m0 |] eqn:Hsearch.
      * apply search_train_leftmost in Hsearch as (pre0 & post0 & Hleft).
        now exists pre0, m0, post0.
      * destruct (proj1 (search_train_none s) Hsearch pre m post Hs Halone).
    + intros Hno. apply search_train_none in Hno.
      unfold run. now rewrite Hjson, Hno.
  - intros v Hjson Hnot. unfold run. rewrite Hjson.
    destruct v; try reflexivity. now destruct (Hnot d).
Qed.

Lemma run_on_plain_text_witness :
  run Runtime.reference 738886 (InStr "trains 123456 and 12345, 54321")
  = Valid "12345" "2024-01-01" "Train 12345 validated successfully for 2024-01-01"
  /\ run Runtime.reference 738886 (InStr "12345") = Invalid "Invalid input format".
Proof.
  destruct (run_on_plain_text Runtime.reference 738886
              "trains 123456 and 12345, 54321") as [Htext _].
  destruct (run_on_plain_text Runtime.reference 738886 "12345") as [_ Hjson].
  split.
  - assert (Hnone : json_loads Runtime.reference "trains 123456 and 12345, 54321"
                    = None) by reflexivity.
    destruct (Htext Hnone) as (Hleft & _ & _).
    assert (Hsearch : Str.re_search_train "trains 123456 and 12345, 54321"
                      = Some "12345") by reflexivity.
    apply search_train_leftmost in Hsearch as (pre & post & Hgroup).
    exact (proj2 (Hleft pre "12345" post Hgroup) eq_refl).
  - apply (Hjson (JInt 12345)); [reflexivity | discriminate].
Defined.

End ValidatorEntry.

(** ** The shared state of the fetcher *)

Section FetchState.

Import RailwayAPITool.
Context (rt : PyRuntime) (e : env).

(** The mock data and the extraction leave the frame alone, whether
    they raise or not. *)
Lemma mock_frame (tn date : json) (ctx : string) (f : frame) :
  snd (_get_mock_data rt e tn date ctx f) = f.
Proof.
  unfold _get_mock_data, mbind, M_bind, lift.
  destruct (Dt.add_minutes _ _); reflexivity.
Qed.

Lemma extract_frame (results : json) (tn : string) (f : frame) :
  snd (_extract_train_info rt e results tn f) = f.
Proof.
  unfold _extract_train_info, try_except, mbind, M_bind, lift.
  destruct (method_get _ _ _) as [ex | organic]; [apply mock_frame |].
  destruct (first_five organic) as [ex | results']; [apply mock_frame |].
  destruct (scan_results _ _ _ _ _) as [ex | info]; [apply mock_frame | reflexivity].
Qed.

(** The search logs its query and stores nothing. *)
Lemma search_or_mock_frame (tn : string) (date : json) (f : frame) :
  snd (search_or_mock rt e tn date f)
  = Spec.logged (search_query rt e tn date) f.
Proof.
  unfold search_or_mock, try_except, mbind, M_bind, lift, log_query.
  fold (Spec.logged (search_query rt e tn date) f).
  set (f1 := Spec.logged (search_query rt e tn date) f).
  destruct (search e (search_query rt e tn date)) as [ex | results].
  - cbn beta iota.
    pose proof (mock_frame (JStr tn) date ("Search failed: " ++ exn_text rt ex) f1) as Hm.
    destruct (_get_mock_data rt e (JStr tn) date _ f1) as [[ex' | d] f2];
      cbn [snd] in *; exact Hm.
  - pose proof (extract_frame results tn f1) as Hx.
    destruct (_extract_train_info rt e results tn f1) as [[ex | info] f2];
      cbn [snd] in Hx; subst f2.
    + pose proof (mock_frame (JStr tn) date ("Search failed: " ++ exn_text rt ex) f1) as Hm.
      destruct (_get_mock_data rt e (JStr tn) date _ f1) as [[ex' | d] f2];
        cbn [snd] in *; exact Hm.
    + unfold class_cache, lift. cbn beta iota.
      pose proof (mock_frame (JStr tn) date
                    ("Search failed: " ++ exn_text rt (NoClassAttribute "cache")) f1)
        as Hm.
      destruct (_get_mock_data rt e (JStr tn) date _ f1) as [[ex' | d] f2];
        cbn [snd] in *; exact Hm.
Qed.

Lemma handler_frame (ex : exn) (f : frame) :
  shared (snd (handler rt e ex f)) = shared f.
Proof.
  unfold handler, mbind, M_bind, get_locals.
  set (tn := match v_train_number f with Some _ => _ | None => _ end).
  set (date := match v_date f with Some v => v | None => JNull end).
  pose proof (mock_frame tn date ("API tool failed: " ++ exn_text rt ex) f) as Hm.
  destruct (_get_mock_data rt e tn date _ f) as [[ex' | d] f2];
    cbn [snd] in *; now subst f2.
Qed.

(** A computation under the outer handler has the effect of the
    computation. *)
Lemma try_except_effect (m : M json) (f : frame) :
  Spec.effect e (shared f) (shared (snd (m f))) ->
  Spec.effect e (shared f) (shared (snd (try_except m (handler rt e) f))).
Proof.
  unfold try_except. destruct (m f) as [[ex | x] f']; cbn [snd]; [| tauto].
  now rewrite handler_frame.
Qed.

Lemma lookup_or_search_effect (tn : string) (date : json) (f : frame) :
  Spec.effect e (shared f) (shared (snd (lookup_or_search rt e tn date f))).
Proof. rewrite lookup_raises. exact (Spec.Untouched _ _). Qed.

Lemma check_and_fetch_effect (tn date : json) (f : frame) :
  Spec.effect e (shared f)
    (shared (snd (try_except (check_and_fetch rt e tn date) (handler rt e) f))).
Proof.
  apply try_except_effect. unfold check_and_fetch.
  destruct (Py.truthy tn); cbn [negb]; [| exact (Spec.Untouched _ _)].
  destruct tn; try (exact (Spec.Untouched _ _)).
  destruct (Str.re_match_train s); cbn [negb];
    [apply lookup_or_search_effect | exact (Spec.Untouched _ _)].
Qed.

Lemma body_effect (input_data : py_input) (st : state) :
  Spec.effect e st
    (shared (snd (try_except (body rt e input_data) (handler rt e)
                    (Frame st None None)))).
Proof.
  assert (Hh : forall ex f, shared f = st ->
                 Spec.effect e st (shared (snd (handler rt e ex f)))).
  { intros ex f <-. rewrite handler_frame. exact (Spec.Untouched _ _). }
  unfold body.
  destruct (parse_input rt input_data) as [early | parsed];
    [exact (Spec.Untouched _ _) |].
  rewrite try_except_bind. unfold lift at 1.
  destruct (contains_valid parsed) as [ex | has_valid]; [now apply Hh |].
  destruct has_valid.
  - rewrite try_except_bind. unfold lift at 1.
    destruct (method_get parsed "valid" (JBool false)) as [ex | valid];
      [now apply Hh |].
    destruct (Py.truthy valid); cbn [negb].
    + rewrite try_except_bind. unfold lift at 1.
      destruct (method_get parsed "train_number" (JStr EmptyString)) as [ex | tn];
        [now apply Hh |].
      rewrite try_except_bind. unfold set_train_number at 1. cbn [shared v_date].
      rewrite try_except_bind. unfold lift at 1.
      destruct (method_get parsed "date" JNull) as [ex | date]; [now apply Hh |].
      rewrite try_except_bind. unfold set_date at 1. cbn [shared v_train_number].
      apply (check_and_fetch_effect tn date (Frame st (Some tn) (Some date))).
    + rewrite try_except_bind. unfold lift at 1.
      destruct (method_get parsed "error" _) as [ex | msg]; [now apply Hh |].
      exact (Spec.Untouched _ _).
  - rewrite try_except_bind. unfold lift at 1.
    destruct (method_get parsed "train_number" (JStr EmptyString)) as [ex | raw];
      [now apply Hh |].
    rewrite try_except_bind. unfold set_train_number at 1. cbn [shared v_date].
    rewrite try_except_bind. unfold lift at 1.
    destruct (method_get parsed "date" JNull) as [ex | date]; [now apply Hh |].
    rewrite try_except_bind. unfold set_date at 1. cbn [shared v_train_number].
    apply (check_and_fetch_effect _ date (Frame st (Some _) (Some date))).
Qed.

Lemma run_effect (input_data : py_input) (st : state) :
  Spec.effect e st (snd (_run rt e input_data st)).
Proof.
  pose proof (body_effect input_data st) as H. unfold _run.
  destruct (try_except _ _ _) as [r f]. exact H.
Qed.

End FetchState.

Section FetchStateResults.

Import RailwayAPITool.

(** X2. Whatever the input, the runtime and the environment, one call of
    the fetcher does one of four things to the shared state: nothing;
    one search; one search and one cache entry written with the time of
    the insertion; or no search and the [source] annotation written into
    one entry that is still fresh. In particular it changes the cache
    under at most one key, and makes at most one search. *)
Theorem fetch_effect_on_state (rt : PyRuntime) (e : env)
    (input_data : py_input) (st : state) :
  let st' := snd (_run rt e input_data st) in
  Spec.effect e st st'
  /\ (exists key, forall k, k <> key -> cache st' !! k = cache st !! k)
  /\ (queries st' = queries st \/ exists q, queries st' = (queries st ++ [q])%list).
Proof.
  cbv zeta. pose proof (run_effect rt e input_data st) as H.
  split; [exact H |].
  destruct H as [| q | q key record | key cached ts Hentry Hfresh];
    cbn [cache queries].
  - split; [exists EmptyString; reflexivity | now left].
  - split; [exists EmptyString; reflexivity | right; now exists q].
  - split; [| right; now exists q].
    exists key. intros k Hk. now rewrite lookup_insert_ne.
  - split; [| now left].
    exists key. intros k Hk. now rewrite lookup_insert_ne.
Qed.

(** X3. Over any sequence of calls the cache never loses a key: there is
    no eviction, an entry stays after it has expired. The searches made
    and the entries added are at most one for each call. *)
Theorem cache_never_evicts (rt : PyRuntime)
    (calls : list (env * py_input)) (st : state) :
  let st' := Spec.run_all rt calls st in
  (forall key, is_Some (cache st !! key) -> is_Some (cache st' !! key))
  /\ (List.length (queries st') <= List.length (queries st) + List.length calls)%nat
  /\ (size (cache st') <= size (cache st) + List.length calls)%nat.
Proof.
  cbv zeta. revert st.
  induction calls as [| [e input_data] calls IH]; intros st; cbn [Spec.run_all].
  - split; [tauto |]. cbn [List.length]. lia.
  - destruct (IH (snd (_run rt e input_data st))) as (Hkeys & Hq & Hsize).
    pose proof (run_effect rt e input_data st) as H.
    set (st1 := snd (_run rt e input_data st)) in *.
    assert (H1 : (forall key, is_Some (cache st !! key) -> is_Some (cache st1 !! key))
                 /\ (List.length (queries st1) <= S (List.length (queries st)))%nat
                 /\ (size (cache st1) <= S (size (cache st)))%nat).
    { clearbody st1.
      destruct H as [| q | q key record | key cached ts Hentry Hfresh];
        cbn [cache queries].
      - split; [tauto | lia].
      - split; [tauto |]. rewrite length_app. cbn [List.length]. lia.
      - split; [| split].
        + intros k Hk. destruct (decide (key = k)) as [<- | Hne];
            [rewrite lookup_insert_eq; eauto | now rewrite lookup_insert_ne].
        + rewrite length_app. cbn [List.length]. lia.
        + destruct (cache st !! key) eqn:Hold.
          * rewrite map_size_insert_Some by eauto. lia.
          * rewrite map_size_insert_None by exact Hold. lia.
      - split; [| split; [lia |]].
        + intros k Hk. destruct (decide (key = k)) as [<- | Hne];
            [rewrite lookup_insert_eq; eauto | now rewrite lookup_insert_ne].
        + rewrite map_size_insert_Some by eauto. lia. }
    destruct H1 as (Hkeys1 & Hq1 & Hsize1).
    split; [| split].
    + intros key Hk. apply Hkeys, Hkeys1, Hk.
    + cbn [List.length]. lia.
    + cbn [List.length]. lia.
Qed.

End FetchStateResults.

(** ** The keys of the cache *)

Section FetchPaths.

Import RailwayAPITool.

Lemma endswith_drop_last (c : ascii) (s : string) :
  Str.endswith c s = true -> s = Str.drop_last s ++ String c EmptyString.
Proof.
  unfold Str.endswith. induction s as [| a s IH]; [discriminate |].
  destruct s as [| b s].
  - cbn. destruct (Ascii.eqb_spec c a) as [-> | _]; [reflexivity | discriminate].
  - intros H.
    change (Str.drop_last (String a (String b s)))
      with (String a (Str.drop_last (String b s))).
    change (String a (Str.drop_last (String b s)) ++ String c EmptyString)
      with (String a (Str.drop_last (String b s) ++ String c EmptyString)).
    f_equal. apply IH. exact H.
Qed.

Lemma append_assoc (a b c : string) : (a ++ b) ++ c = a ++ (b ++ c).
Proof.
  induction a as [| x a IH]; [reflexivity |].
  change ((String x a ++ b) ++ c) with (String x ((a ++ b) ++ c)).
  change (String x a ++ (b ++ c)) with (String x (a ++ (b ++ c))).
  now f_equal.
Qed.

(** A train number that passes the pattern is five digits, with at most
    a newline after them. *)
Lemma match_train_shape (tn : string) :
  Str.re_match_train tn = true ->
  exists m, String.length m = 5%nat
            /\ (tn = m \/ tn = m ++ String Str.newline EmptyString).
Proof.
  unfold Str.re_match_train, Str.five_digits. intros H.
  apply orb_true_iff in H as [H | H].
  - apply andb_true_iff in H as [Hlen _]. apply Nat.eqb_eq in Hlen.
    exists tn. split; [exact Hlen | now left].
  - apply andb_true_iff in H as [Hend H].
    apply andb_true_iff in H as [Hlen _]. apply Nat.eqb_eq in Hlen.
    exists (Str.drop_last tn). split; [exact Hlen |]. right.
    now apply endswith_drop_last.
Qed.

(** X5. The cache keys of two train numbers that pass the pattern are
    equal only if the train numbers are equal and the dates are written
    alike: no request is served an entry of another train. A request
    without a date and a request with the date [today] as a word share
    one key. *)
Theorem cache_key_separates_trains (rt : PyRuntime)
    (tn1 tn2 : string) (date1 date2 : json) :
  Str.re_match_train tn1 = true -> Str.re_match_train tn2 = true ->
  (cache_key rt tn1 date1 = cache_key rt tn2 date2 ->
   tn1 = tn2
   /\ py_str rt (Py.or_else date1 (JStr "today"))
      = py_str rt (Py.or_else date2 (JStr "today")))
  /\ cache_key rt tn1 JNull = cache_key rt tn1 (JStr "today").
Proof.
  intros H1 H2. split; [| reflexivity].
  unfold cache_key.
  generalize (py_str rt (Py.or_else date1 (JStr "today"))) as d1.
  generalize (py_str rt (Py.or_else date2 (JStr "today"))) as d2.
  intros d2 d1.
  destruct (match_train_shape tn1 H1) as (m1 & Hl1 & [-> | ->]);
    destruct (match_train_shape tn2 H2) as (m2 & Hl2 & [-> | ->]);
    intros H.
  - apply append_same_length in H as [-> H]; [| congruence].
    cbv [String.append] in H. injection H as ->. split; reflexivity.
  - rewrite (append_assoc m2) in H.
    apply append_same_length in H as [-> H]; [| congruence].
    cbv [String.append] in H. discriminate H.
  - rewrite (append_assoc m1) in H.
    apply append_same_length in H as [-> H]; [| congruence].
    cbv [String.append] in H. discriminate H.
  - rewrite (append_assoc m1), (append_assoc m2) in H.
    apply append_same_length in H as [-> H]; [| congruence].
    cbv [String.append] in H. injection H as ->. split; reflexivity.
Qed.

Lemma cache_key_separates_trains_witness :
  (cache_key Runtime.reference "12345" (JStr "2024-01-01")
   = cache_key Runtime.reference "12345" (JStr "2024-01-01") ->
   "12345" = "12345"
   /\ py_str Runtime.reference (Py.or_else (JStr "2024-01-01") (JStr "today"))
      = py_str Runtime.reference (Py.or_else (JStr "2024-01-01") (JStr "today")))
  /\ cache_key Runtime.reference "12345" JNull
     = cache_key Runtime.reference "12345" (JStr "today").
Proof.
  apply (cache_key_separates_trains Runtime.reference "12345" "12345"
           (JStr "2024-01-01") (JStr "2024-01-01")); reflexivity.
Defined.

End FetchPaths.

Section FetchFallbacks.

Import RailwayAPITool.

(** The outer handler with the clock in range: the mock record for the
    train number bound so far, or for 00000. *)
Lemma handler_mock (rt : PyRuntime) (e : env) (ex : exn) (f : frame) :
  Spec.env_ok e ->
  exists actual,
    handler rt e ex f
    = (inr (JDict (mock_record rt e actual
                     (match v_train_number f with
                      | Some v => if Py.truthy v then v else JStr "00000"
                      | None => JStr "00000"
                      end)
                     ("API tool failed: " ++ exn_text rt ex))), f).
Proof.
  intros He. unfold handler, mbind, M_bind, get_locals.
  set (tn := match v_train_number f with Some _ => _ | None => _ end).
  set (date := match v_date f with Some v => v | None => JNull end).
  destruct (mock_succeeds rt e tn date ("API tool failed: " ++ exn_text rt ex) f He)
    as [actual Ha].
  exists actual. now rewrite Ha.
Qed.

(** X6. A text that is JSON but not an object (a bare number such as
    12345, a string, a list) makes the fetcher raise inside, and its
    outer handler answers with mock data for train 00000: no error
    record, no search, the cache untouched. The same value passed as an
    object, not as text, is read as an empty request and gets the error
    record about the missing train number. *)
Theorem json_scalar_gives_mock_train (rt : PyRuntime) (e : env)
    (s : string) (v : json) (st : state) :
  Spec.env_ok e ->
  json_loads rt (Str.strip s) = Some v ->
  (forall d, v <> JDict d) ->
  (exists actual ex,
      _run rt e (InStr s) st
      = (inr (JDict (mock_record rt e actual (JStr "00000")
                       ("API tool failed: " ++ exn_text rt ex))), st)
      /\ (ex = NotContainer v \/ ex = NoMethod v "get"))
  /\ ((forall t, v <> JStr t) ->
      _run rt e (InObj v) st
      = (inr (error_record (JStr "Train number is required")), st)).
Proof.
  intros He Hjson Hnot. split.
  - assert (Hbody : exists ex,
              body rt e (InStr s) (Frame st None None) = (inl ex, Frame st None None)
              /\ (ex = NotContainer v \/ ex = NoMethod v "get")).
    { unfold body, parse_input. rewrite Hjson.
      unfold mbind, M_bind, lift, contains_valid, method_get.
      destruct v; try (eexists; split; [reflexivity | now left]).
      - destruct (Str.contains "valid" s0);
          eexists; (split; [reflexivity | now right]).
      - destruct (existsb _ l);
          eexists; (split; [reflexivity | now right]).
      - now destruct (Hnot d). }
    destruct Hbody as (ex & Hbody & Hex).
    destruct (handler_mock rt e ex (Frame st None None) He) as [actual Hh].
    exists actual, ex. split; [| exact Hex].
    unfold _run, try_except. rewrite Hbody, Hh. reflexivity.
  - intros _. destruct v; try reflexivity. now destruct (Hnot d).
Qed.

Lemma json_scalar_gives_mock_train_witness :
  exists record,
    _run Runtime.reference (Examples.offline 1000 Examples.draws_a)
         (InStr "12345") Examples.empty_state
    = (inr (JDict record), Examples.empty_state)
    /\ Py.dict_get "train_number" record = Some (JStr "00000")
    /\ Py.dict_get "data_source" record = Some (JStr "mock_data").
Proof.
  assert (He : Spec.env_ok (Examples.offline 1000 Examples.draws_a))
    by (vm_compute; repeat split; discriminate).
  assert (Hnot : forall d, JInt 12345 <> JDict d) by discriminate.
  destruct (json_scalar_gives_mock_train Runtime.reference
              (Examples.offline 1000 Examples.draws_a) "12345" (JInt 12345)
              Examples.empty_state He eq_refl Hnot)
    as [(actual & ex & Hrun & _) _].
  eexists. split; [exact Hrun |]. split; reflexivity.
Defined.

(** X7. In the validator's format (a true [valid]) the train number has
    to be text: a number or any other true value that is not text makes
    the pattern match raise, and the fetcher answers with mock data that
    carries the train number as written, without any check of its
    format, without a cache lookup and without a search. *)
Theorem validated_number_not_text (rt : PyRuntime) (e : env)
    (input_data : py_input) (d : dict) (v : json) (st : state) :
  Spec.env_ok e ->
  parse_input rt input_data = inr (JDict d) ->
  Py.dict_has "valid" d = true ->
  Py.truthy (Py.get_or "valid" (JBool false) d) = true ->
  Py.get_or "train_number" (JStr EmptyString) d = v ->
  Py.truthy v = true ->
  (forall t, v <> JStr t) ->
  exists actual,
    _run rt e input_data st
    = (inr (JDict (mock_record rt e actual v
                     ("API tool failed: " ++ exn_text rt (NotText v)))), st)
    /\ Py.dict_get "train_number" (mock_record rt e actual v
                     ("API tool failed: " ++ exn_text rt (NotText v)))
       = Some (JStr (py_str rt v)).
Proof.
  intros He Hparse Hhas Hvalid Hv Htrue Hnot.
  set (f := Frame st (Some v) (Some (Py.get_or "date" JNull d))).
  assert (Hbody : body rt e input_data (Frame st None None) = (inl (NotText v), f)).
  { unfold body. rewrite Hparse.
    unfold mbind, M_bind, lift, contains_valid, method_get,
      set_train_number, set_date, check_and_fetch.
    rewrite Hhas, Hvalid, Hv, Htrue. cbn [negb].
    destruct v; try reflexivity. now destruct (Hnot s). }
  destruct (handler_mock rt e (NotText v) f He) as [actual Hh].
  exists actual. split; [| reflexivity].
  unfold _run, try_except. rewrite Hbody, Hh.
  subst f. cbn [v_train_number shared]. now rewrite Htrue.
Qed.

Lemma validated_number_not_text_witness :
  exists record,
    _run Runtime.reference (Examples.online 1000) Examples.validated_number
         Examples.empty_state
    = (inr (JDict record), Examples.empty_state)
    /\ Py.dict_get "train_number" record = Some (JStr "12345")
    /\ Py.dict_get "data_source" record = Some (JStr "mock_data").
Proof.
  assert (Hnot : forall t, JInt 12345 <> JStr t) by discriminate.
  assert (He : Spec.env_ok (Examples.online 1000))
    by (vm_compute; repeat split; discriminate).
  destruct (validated_number_not_text Runtime.reference (Examples.online 1000)
              Examples.validated_number
              [("valid", JBool true); ("train_number", JInt 12345)]
              (JInt 12345) Examples.empty_state
              He eq_refl eq_refl eq_refl eq_refl eq_refl Hnot)
    as (actual & Hrun & Hnumber).
  eexists. split; [exact Hrun |]. split; [exact Hnumber | reflexivity].
Defined.

End FetchFallbacks.

(** ** What the extraction returns *)

Section Extraction.

Import RailwayAPITool.
Context (rt : PyRuntime) (e : env).

Lemma scan_result_shape (tn : string) (info info' : dict) (result : json) :
  Spec.live_shape rt e tn info ->
  scan_result rt e tn info result = inr info' ->
  Spec.live_shape rt e tn info'.
Proof.
  intros Hshape. unfold scan_result.
  assert (Hname : forall v d, Spec.live_shape rt e tn d ->
                    Spec.live_shape rt e tn (Py.dict_set "train_name" (JStr v) d)).
  { intros v d (H1 & H2 & H3 & H4 & H5 & H6 & H7 & H8 & H9).
    unfold Spec.live_shape. rewrite !dict_get_set. cbn.
    repeat split; try assumption. now exists v. }
  assert (Hstation : forall v d, Spec.live_shape rt e tn d ->
                    Spec.live_shape rt e tn (Py.dict_set "current_station" (JStr v) d)).
  { intros v d (H1 & H2 & H3 & H4 & H5 & H6 & H7 & H8 & H9).
    unfold Spec.live_shape. rewrite !dict_get_set. cbn.
    repeat split; try assumption. now exists v. }
  assert (Htimes : forall m actual d, Spec.live_shape rt e tn d ->
                    Dt.add_minutes (now e) m = Some actual ->
                    Spec.live_shape rt e tn
                      (Py.dict_set "actual_arrival" (JStr (isoformat rt actual))
                         (Py.dict_set "scheduled_arrival"
                            (JStr (isoformat rt (now e))) d))).
  { intros m actual d (H1 & H2 & H3 & H4 & H5 & H6 & H7 & H8 & H9) Hadd.
    unfold Spec.live_shape. rewrite !dict_get_set. cbn.
    repeat split; try assumption. right. split; [reflexivity |].
    exists m, actual. split; [exact Hadd | reflexivity]. }
  destruct result; try (intros [= <-]; exact Hshape).
  destruct (Py.get_or "title" _ _); try discriminate;
    destruct (Py.get_or "snippet" _ _); try discriminate.
  set (info1 := if _ && _ then _ else info).
  assert (H1 : Spec.live_shape rt e tn info1).
  { subst info1. destruct (_ && _); [now apply Hname | exact Hshape]. }
  destruct (existsb _ status_keywords); [| intros [= <-]; exact H1].
  set (info2 := match re_search_station rt _ with Some _ => _ | None => info1 end).
  assert (H2 : Spec.live_shape rt e tn info2).
  { subst info2. destruct (re_search_station rt _); [now apply Hstation | exact H1]. }
  destruct (re_search_delay rt _); [| intros [= <-]; exact H2].
  destruct (Dt.add_minutes _ _) eqn:Hadd; [| discriminate].
  intros [= <-]. eapply Htimes; eassumption.
Qed.

Lemma scan_results_shape (tn : string) (results : list json) (info info' : dict) :
  Spec.live_shape rt e tn info ->
  scan_results rt e tn info results = inr info' ->
  Spec.live_shape rt e tn info'.
Proof.
  unfold scan_results. revert info.
  induction results as [| r results IH]; intros info Hshape; cbn [fold_left].
  - intros [= <-]. exact Hshape.
  - destruct (scan_result rt e tn info r) as [ex | info1] eqn:Hr.
    + intros H. exfalso. clear - H.
      induction results as [| r' results IH']; cbn [fold_left] in H;
        [discriminate | auto].
    + apply IH. eapply scan_result_shape; eassumption.
Qed.

Lemma initial_shape (tn : string) :
  Spec.live_shape rt e tn (initial_train_info rt e tn).
Proof.
  unfold Spec.live_shape, initial_train_info. cbn.
  repeat split; try reflexivity; try (eexists; reflexivity). now left.
Qed.

End Extraction.

Section ExtractionResults.

Import RailwayAPITool.

(** X9. A record that [_extract_train_info] returns is either the mock
    record of its fallback or a record read from the search results, and
    such a record never has a position or a route: its coordinates are
    (0.0, 0.0) and its upcoming stations are empty, its train number is
    the one asked for, its last update is the time of the extraction,
    and its two arrival times are either both null or the time of the
    extraction and some minutes from it. *)
Theorem extracted_record_shape (rt : PyRuntime) (e : env)
    (search_results : json) (tn : string) (f f' : frame) (info : dict) :
  _extract_train_info rt e search_results tn f = (inr info, f') ->
  f' = f
  /\ ((exists actual ex,
          info = mock_record rt e actual (JStr tn)
                   ("Data extraction failed: " ++ exn_text rt ex))
      \/ Spec.live_shape rt e tn info).
Proof.
  intros H.
  pose proof (extract_frame rt e search_results tn f) as Hf.
  rewrite H in Hf. cbn [snd] in Hf. split; [exact Hf |].
  revert H. unfold _extract_train_info, try_except, mbind, M_bind, lift.
  assert (Hmock : forall ex,
            _get_mock_data rt e (JStr tn) JNull
              ("Data extraction failed: " ++ exn_text rt ex) f = (inr info, f') ->
            exists actual ex',
              info = mock_record rt e actual (JStr tn)
                       ("Data extraction failed: " ++ exn_text rt ex')).
  { intros ex. unfold _get_mock_data, mbind, M_bind, lift.
    destruct (Dt.add_minutes _ _) as [actual |]; [| discriminate].
    intros [= <- _]. now exists actual, ex. }
  destruct (method_get _ _ _) as [ex | organic]; [left; eauto |].
  destruct (first_five organic) as [ex | results]; [left; eauto |].
  destruct (scan_results rt e tn _ results) as [ex | info0] eqn:Hscan;
    [left; eauto |].
  intros [= <- _]. right.
  eapply scan_results_shape; [apply initial_shape | exact Hscan].
Qed.

Lemma extracted_record_shape_witness :
  exists info,
    _extract_train_info Runtime.reference (Examples.online 1000)
      (JDict [("organic",
               JList [JDict [("title", JStr "12345 Rajdhani Train");
                             ("snippet", JStr "Running 15 min late")]])])
      "12345" (Frame Examples.empty_state None None)
    = (inr info, Frame Examples.empty_state None None)
    /\ Py.dict_get "train_name" info = Some (JStr "Rajdhani Train")
    /\ Py.dict_get "current_lat" info = Some (JFloat 0)
    /\ Py.dict_get "upcoming_stations" info = Some (JList []).
Proof.
  eexists. split; [vm_compute; reflexivity |].
  split; [reflexivity |].
  match goal with
  | |- Py.dict_get _ ?i = _ /\ _ =>
      destruct (extracted_record_shape Runtime.reference (Examples.online 1000)
                  (JDict [("organic",
                           JList [JDict [("title", JStr "12345 Rajdhani Train");
                                         ("snippet", JStr "Running 15 min late")]])])
                  "12345" (Frame Examples.empty_state None None)
                  (Frame Examples.empty_state None None) i)
        as [_ [(actual & ex & Hmock) | Hshape]]
  end.
  - vm_compute. reflexivity.
  - discriminate Hmock.
  - destruct Hshape as (_ & _ & _ & Hlat & _ & Hup & _). split; assumption.
Defined.

End ExtractionResults.

(** ** From the fetcher to the normaliser *)

Section Normalise.

Import DataProcessingTool.
Context (rt : PyRuntime).

Lemma process_texts (now : datetime) (raw_data : dict) :
  let st := delay_status rt (Py.get_or "scheduled_arrival" JNull raw_data)
                            (Py.get_or "actual_arrival" JNull raw_data) in
  status_delay_text (process rt now raw_data) = _format_delay_text (fst st)
  /\ reliability_score (process rt now raw_data)
     = _calculate_reliability_score raw_data (fst st).
Proof.
  unfold process. cbv zeta.
  destruct (delay_status rt _ _) as [d [c em]]. split; reflexivity.
Qed.

Lemma categorise_names (d : Z) :
  fst (categorise d) <> "Unknown" /\ fst (categorise d) <> "Status Unknown".
Proof.
  unfold categorise.
  destruct (d <=? 0)%Z; [split; discriminate |].
  destruct (d <=? 15)%Z; [split; discriminate |].
  destruct (d <=? 60)%Z; split; discriminate.
Qed.

(** A record without a usable pair of arrival times has delay 0. *)
Lemma unknown_delay (scheduled actual : json) :
  let st := delay_status rt scheduled actual in
  fst (snd st) = "Unknown" \/ fst (snd st) = "Status Unknown" -> fst st = 0%Z.
Proof.
  cbv zeta. unfold delay_status.
  destruct (Py.truthy scheduled && Py.truthy actual); [| reflexivity].
  destruct (compute_delay rt scheduled actual) as [d |]; [| reflexivity].
  cbn [fst snd]. destruct (categorise_names d) as [Hu Hs]. intros [H | H]; contradiction.
Qed.

Lemma no_delay_deduction : Spec.delay_deduction 0 = 0%Q.
Proof. reflexivity. Qed.

Lemma mock_station_known (i : nat) :
  RailwayAPITool.choice i RailwayAPITool.mock_stations
  <> "Information not available".
Proof.
  unfold RailwayAPITool.choice.
  assert (Hlt : (i mod List.length RailwayAPITool.mock_stations < 15)%nat)
    by (apply Nat.mod_upper_bound; discriminate).
  destruct (i mod List.length RailwayAPITool.mock_stations)%nat as [| n];
    [discriminate |].
  do 14 (destruct n as [| n]; [discriminate |]). lia.
Qed.

End Normalise.

Section NormaliseResults.

Import DataProcessingTool.

(** X10. A record whose status category is Unknown or Status Unknown
    (an arrival time is missing, or the two do not give a difference)
    still carries the timing text of a punctual train: its delay is 0,
    its delay text is "On time", and its reliability score loses nothing
    for delay. *)
Theorem unknown_status_reads_on_time (rt : PyRuntime) (now : datetime)
    (raw_data : dict) :
  let p := process rt now raw_data in
  status_category p = "Unknown" \/ status_category p = "Status Unknown" ->
  status_delay_minutes p = 0%Z
  /\ status_delay_text p = "On time"
  /\ (reliability_score p
      == 100
         - (if Py.eq_str (Py.get_or "data_source" JNull raw_data) "mock_data"
            then 20 else 0)
         - (if Py.eq_str (Py.get_or "current_station" JNull raw_data)
                         "Information not available" then 15 else 0))%Q.
Proof.
  cbv zeta. intros Hcat.
  destruct (process_status rt now raw_data) as [Hd Hc].
  destruct (process_texts rt now raw_data) as [Ht Hr].
  rewrite Hc in Hcat. apply unknown_delay in Hcat.
  rewrite Hd, Ht, Hr, Hcat. split; [reflexivity |]. split; [reflexivity |].
  rewrite reliability_value, no_delay_deduction.
  destruct (Py.eq_str _ "mock_data"), (Py.eq_str _ "Information not available");
    Lqa.lra.
Qed.

Lemma unknown_status_reads_on_time_witness :
  let p := process Runtime.reference Examples.noon Examples.mixed_offsets in
  status_delay_minutes p = 0%Z
  /\ status_delay_text p = "On time"
  /\ (reliability_score p == 100 - 0 - 0)%Q.
Proof.
  apply (unknown_status_reads_on_time Runtime.reference Examples.noon
           Examples.mixed_offsets).
  right. vm_compute. reflexivity.
Defined.

(** X11. The mock record through the normaliser, on a runtime that
    reads back the timestamps it writes: the delay is the random draw,
    so the category is never Significantly Delayed and never unknown,
    the reliability score is 80 less half a point for each minute of the
    draw, so between 57.5 and 80, and the three sampled stations are the
    next stations. *)
Theorem mock_record_normalised (rt : PyRuntime) (e : RailwayAPITool.env)
    (now' actual : datetime) (tn : json) (ctx : string) :
  let delay := RailwayAPITool.randint_0_45 (RailwayAPITool.draws e) in
  let raw_data := RailwayAPITool.mock_record rt e actual tn ctx in
  let p := process rt now' raw_data in
  (0 <= delay <= 45)%Z ->
  Dt.add_minutes (RailwayAPITool.now e) delay = Some actual ->
  isoformat rt (RailwayAPITool.now e) <> EmptyString ->
  isoformat rt actual <> EmptyString ->
  parse_timestamp rt (JStr (isoformat rt (RailwayAPITool.now e)))
  = Some (RailwayAPITool.now e) ->
  parse_timestamp rt (JStr (isoformat rt actual)) = Some actual ->
  status_delay_minutes p = delay
  /\ status_category p = fst (categorise delay)
  /\ In (status_category p) ["On Time"; "Slightly Delayed"; "Delayed"]
  /\ (reliability_score p == 80 - inject_Z delay * (1 # 2))%Q
  /\ (57.5 <= reliability_score p <= 80)%Q
  /\ next_stations p
     = map JStr (RailwayAPITool.sample3
                   (RailwayAPITool.sample_indices (RailwayAPITool.draws e))
                   RailwayAPITool.mock_stations)
  /\ data_source p = JStr "mock_data".
Proof.
  cbv zeta. intros Hdelay Hadd Hs Ha Hps Hpa.
  set (delay := RailwayAPITool.randint_0_45 (RailwayAPITool.draws e)) in *.
  set (raw_data := RailwayAPITool.mock_record rt e actual tn ctx).
  assert (Hsub : Dt.sub actual (RailwayAPITool.now e)
                 = Some (delay * Dt.us_per_minute)%Z).
  { unfold Dt.add_minutes in Hadd.
    destruct (_ && _); [| discriminate]. injection Hadd as <-.
    unfold Dt.sub. cbn [dt_offset dt_wall].
    destruct (dt_offset (RailwayAPITool.now e)); f_equal; lia. }
  assert (Hstatus : delay_status rt (Py.get_or "scheduled_arrival" JNull raw_data)
                      (Py.get_or "actual_arrival" JNull raw_data)
                    = (delay, categorise delay)).
  { change (Py.get_or "scheduled_arrival" JNull raw_data)
      with (JStr (isoformat rt (RailwayAPITool.now e))).
    change (Py.get_or "actual_arrival" JNull raw_data)
      with (JStr (isoformat rt actual)).
    rewrite (delay_status_computed rt _ _ (RailwayAPITool.now e) actual
               (delay * Dt.us_per_minute)%Z); try assumption.
    - rewrite Z.quot_mul by discriminate. reflexivity.
    - cbn. now destruct (isoformat rt (RailwayAPITool.now e)).
    - cbn. now destruct (isoformat rt actual). }
  destruct (process_status rt now' raw_data) as [Hd Hc].
  destruct (process_texts rt now' raw_data) as [_ Hr].
  rewrite Hstatus in Hd, Hc, Hr. cbn [fst snd] in Hd, Hc, Hr.
  assert (Hscore : (reliability_score (process rt now' raw_data)
                    == 80 - inject_Z delay * (1 # 2))%Q).
  { rewrite Hr, reliability_value.
    change (Py.get_or "data_source" JNull raw_data) with (JStr "mock_data").
    change (Py.get_or "current_station" JNull raw_data)
      with (JStr (RailwayAPITool.choice
                    (RailwayAPITool.choice_index (RailwayAPITool.draws e))
                    RailwayAPITool.mock_stations)).
    change (Py.eq_str (JStr "mock_data") "mock_data") with true.
    unfold Py.eq_str.
    destruct (String.eqb_spec
                (RailwayAPITool.choice
                   (RailwayAPITool.choice_index (RailwayAPITool.draws e))
                   RailwayAPITool.mock_stations)
                "Information not available") as [Heq | _];
      [now apply mock_station_known in Heq |].
    assert (Hded : (Spec.delay_deduction delay == inject_Z delay * (1 # 2))%Q).
    { unfold Spec.delay_deduction.
      assert (Hq : (inject_Z delay <= 45)%Q)
        by (change 45%Q with (inject_Z 45); rewrite <- Zle_Qle; lia).
      destruct (Z.gtb_spec delay 0) as [Hpos | Hzero].
      - destruct (Q.min_spec (inject_Z delay * 0.5) 30) as [[_ Hm] | [Hle Hm]];
          rewrite Hm; Lqa.lra.
      - replace delay with 0%Z by lia. reflexivity. }
    rewrite Hded. Lqa.lra. }
  split; [exact Hd |]. split; [exact Hc |]. split; [| split; [exact Hscore |]].
  - rewrite Hc. unfold categorise.
    destruct (Z.leb_spec delay 0); [now left |].
    destruct (Z.leb_spec delay 15); [right; now left |].
    destruct (Z.leb_spec delay 60); [right; right; now left | lia].
  - split; [| split].
    + rewrite Hscore.
      assert (Hq : (0 <= inject_Z delay <= 45)%Q).
      { change 45%Q with (inject_Z 45). change 0%Q with (inject_Z 0).
        rewrite <- !Zle_Qle. lia. }
      Lqa.lra.
    + unfold process. cbv zeta. destruct (delay_status rt _ _) as [d [c em]].
      cbn [next_stations].
      change (Py.get_or "upcoming_stations" (JList []) raw_data)
        with (JList (map JStr (RailwayAPITool.sample3
                                 (RailwayAPITool.sample_indices (RailwayAPITool.draws e))
                                 RailwayAPITool.mock_stations))).
      unfold RailwayAPITool.sample3.
      destruct (RailwayAPITool.sample_indices (RailwayAPITool.draws e)) as [[i j] k].
      reflexivity.
    + unfold process. cbv zeta. destruct (delay_status rt _ _) as [d [c em]].
      reflexivity.
Qed.

Lemma mock_record_normalised_witness :
  let e := Examples.offline 1000 Examples.draws_a in
  let actual := Datetime 63839708400000000 None in
  let p := process Runtime.reference Examples.noon
             (RailwayAPITool.mock_record Runtime.reference e actual
                (JStr "12345") "Search failed: Missing API key") in
  status_delay_minutes p = 20%Z
  /\ status_category p = "Delayed"
  /\ (reliability_score p == 70)%Q.
Proof.
  cbv zeta.
  assert (Hdelay : (0 <= 20 <= 45)%Z) by lia.
  assert (Hs : isoformat Runtime.reference Examples.noon <> EmptyString)
    by (vm_compute; discriminate).
  assert (Ha : isoformat Runtime.reference (Datetime 63839708400000000 None)
               <> EmptyString) by (vm_compute; discriminate).
  destruct (mock_record_normalised Runtime.reference
              (Examples.offline 1000 Examples.draws_a) Examples.noon
              (Datetime 63839708400000000 None) (JStr "12345")
              "Search failed: Missing API key" Hdelay eq_refl Hs Ha eq_refl eq_refl)
    as (Hd & Hc & _ & Hr & _).
  split; [exact Hd |]. split; [exact Hc |]. rewrite Hr. reflexivity.
Defined.

(** X12. What the fetcher returns, the normaliser takes: under the same
    conditions as for the fetcher alone, the record that comes back is
    never refused as unreadable or as of the wrong format. An error
    record is forwarded with its message and [processed] false; any
    other record is processed, and none of the normaliser's defaults is
    used for the train number, the name, the station, the source or the
    last update. *)
Theorem fetch_then_normalise (rt : PyRuntime) (e : RailwayAPITool.env)
    (now' : datetime) (input_data : py_input) (st : RailwayAPITool.state) :
  Spec.env_ok e -> Spec.cache_ok st ->
  exists record st',
    RailwayAPITool._run rt e input_data st = (inr (JDict record), st')
    /\ match Py.dict_get "error" record with
       | Some msg =>
           _run rt now' (InObj (JDict record)) = Error msg (Some false)
           /\ st' = st
       | None =>
           exists p,
             _run rt now' (InObj (JDict record)) = Processed p
             /\ Py.dict_get "train_number" record = Some (train_info_number p)
             /\ Py.dict_get "train_name" record = Some (train_info_name p)
             /\ Py.dict_get "current_station" record
                = Some (current_location_station p)
             /\ Py.dict_get "data_source" record = Some (data_source p)
             /\ Py.dict_get "last_updated" record = Some (timing_last_updated p)
             /\ (List.length (next_stations p) <= 3)%nat
       end.
Proof.
  intros He Hc.
  destruct (run_ended_well rt e He input_data st Hc) as (record & f & Hrun & Hres).
  exists record, (RailwayAPITool.shared f).
  unfold RailwayAPITool._run. rewrite Hrun. split; [reflexivity |].
  destruct Hres as [[Herr Hst] | [Hrec _]].
  - unfold Spec.error_record, Py.dict_has in Herr.
    destruct (Py.dict_get "error" record) as [msg |] eqn:Hmsg; [| discriminate].
    split; [| exact Hst]. unfold _run. now rewrite Hmsg.
  - pose proof (status_not_error record Hrec) as Hno.
    unfold Spec.error_record, Py.dict_has in Hno.
    destruct (Py.dict_get "error" record) as [msg |] eqn:Hmsg; [discriminate |].
    exists (process rt now' record).
    split; [unfold _run; now rewrite Hmsg |].
    unfold Spec.status_record in Hrec.
    apply andb_true_iff in Hrec as [Hkeys _].
    rewrite forallb_forall in Hkeys.
    assert (Hget : forall k default,
              In k Spec.record_keys ->
              Py.dict_get k record = Some (Py.get_or k default record)).
    { intros k default Hin. specialize (Hkeys k Hin).
      unfold Py.dict_has, Py.get_or in *.
      now destruct (Py.dict_get k record). }
    unfold process. cbv zeta. destruct (delay_status rt _ _) as [d [c em]].
    cbn [train_info_number train_info_name current_location_station
         data_source timing_last_updated next_stations].
    repeat split; try (apply Hget; cbn; tauto).
    rewrite length_firstn. lia.
Qed.

Lemma fetch_then_normalise_witness :
  exists record,
    RailwayAPITool._run Runtime.reference (Examples.offline 1000 Examples.draws_a)
      Examples.rejected Examples.empty_state
    = (inr (JDict record), Examples.empty_state)
    /\ _run Runtime.reference Examples.noon (InObj (JDict record))
       = Error (JStr "Train number must be exactly 5 digits") (Some false).
Proof.
  assert (He : Spec.env_ok (Examples.offline 1000 Examples.draws_a))
    by (vm_compute; repeat split; discriminate).
  assert (Hc : Spec.cache_ok Examples.empty_state)
    by (intros key cached ts; cbn; rewrite lookup_empty; discriminate).
  destruct (fetch_then_normalise Runtime.reference
              (Examples.offline 1000 Examples.draws_a) Examples.noon
              Examples.rejected Examples.empty_state He Hc)
    as (record & st' & Hrun & Hnorm).
  assert (Hrecord : record = [("error", JStr "Train number must be exactly 5 digits")]).
  { assert (Hv : RailwayAPITool._run Runtime.reference
                   (Examples.offline 1000 Examples.draws_a)
                   Examples.rejected Examples.empty_state
                 = (inr (JDict [("error",
                                 JStr "Train number must be exactly 5 digits")]),
                    Examples.empty_state)) by (vm_compute; reflexivity).
    rewrite Hv in Hrun. now injection Hrun as <- _. }
  subst record. cbn in Hnorm. destruct Hnorm as [Hnorm ->].
  eexists. split; [exact Hrun | exact Hnorm].
Defined.

End NormaliseResults.

(** ** The checks of the crew before it runs *)

Section Sanitize.

Import RailwayStatusCrew.

Lemma lstrip_is_by (s : string) : Str.lstrip s = lstrip_by Str.is_space s.
Proof. induction s as [| c s IH]; cbn; [reflexivity | now rewrite IH]. Qed.

Lemma rstrip_is_by (s : string) : Str.rstrip s = rstrip_by Str.is_space s.
Proof. induction s as [| c s IH]; cbn; [reflexivity | now rewrite IH]. Qed.

Lemma strip_is_by (s : string) : Str.strip s = strip_by Str.is_space s.
Proof. unfold Str.strip, strip_by. now rewrite lstrip_is_by, rstrip_is_by. Qed.

Lemma lstrip_by_all (p : ascii -> bool) (q t : string) :
  Spec.all_chars p q = true -> lstrip_by p (q ++ t) = lstrip_by p t.
Proof.
  induction q as [| c q IH]; [reflexivity |].
  change (String c q ++ t) with (String c (q ++ t)).
  cbn [Spec.all_chars lstrip_by].
  intros H. apply andb_true_iff in H as [-> H]. auto.
Qed.

Lemma rstrip_by_all (p : ascii -> bool) (q : string) :
  Spec.all_chars p q = true -> rstrip_by p q = EmptyString.
Proof.
  induction q as [| c q IH]; [reflexivity |].
  cbn [Spec.all_chars rstrip_by].
  intros H. apply andb_true_iff in H as [-> H]. now rewrite IH.
Qed.

Lemma rstrip_by_app_all (p : ascii -> bool) (t q : string) :
  Spec.all_chars p q = true -> rstrip_by p (t ++ q) = rstrip_by p t.
Proof.
  intros H. induction t as [| c t IH].
  - now apply rstrip_by_all.
  - change (String c t ++ q) with (String c (t ++ q)).
    cbn [rstrip_by]. now rewrite IH.
Qed.

Lemma rstrip_by_none (p : ascii -> bool) (m : string) :
  Spec.all_chars (fun c => negb (p c)) m = true -> rstrip_by p m = m.
Proof.
  induction m as [| c m IH]; [reflexivity |]. cbn [Spec.all_chars rstrip_by].
  intros H. apply andb_true_iff in H as [Hc H].
  apply negb_true_iff in Hc. rewrite Hc, IH by exact H. reflexivity.
Qed.

(** Stripping takes off a wrapping of characters that the body does not
    contain. *)
Lemma strip_by_wrapped (p : ascii -> bool) (q1 m q2 : string) :
  Spec.all_chars p q1 = true -> Spec.all_chars p q2 = true ->
  Spec.all_chars (fun c => negb (p c)) m = true ->
  strip_by p (q1 ++ m ++ q2) = m.
Proof.
  intros H1 H2 Hm. unfold strip_by. rewrite lstrip_by_all by exact H1.
  destruct m as [| c m].
  - cbn [String.append]. change (EmptyString ++ q2) with q2.
    rewrite <- (append_empty_r q2), lstrip_by_all by exact H2. reflexivity.
  - change (String c m ++ q2) with (String c (m ++ q2)).
    cbn [Spec.all_chars] in Hm. apply andb_true_iff in Hm as [Hc Hm'].
    apply negb_true_iff in Hc. cbn [lstrip_by]. rewrite Hc.
    change (String c (m ++ q2)) with (String c m ++ q2).
    rewrite rstrip_by_app_all by exact H2.
    apply rstrip_by_none. cbn [Spec.all_chars]. now rewrite Hc, Hm'.
Qed.

Lemma strip_by_none (p : ascii -> bool) (m : string) :
  Spec.all_chars (fun c => negb (p c)) m = true -> strip_by p m = m.
Proof.
  intros H.
  pose proof (strip_by_wrapped p EmptyString m EmptyString eq_refl eq_refl H) as Hs.
  change (EmptyString ++ m ++ EmptyString) with (m ++ EmptyString) in Hs.
  now rewrite append_empty_r in Hs.
Qed.

Lemma all_chars_weaken (p q : ascii -> bool) (s : string) :
  (forall c, p c = true -> q c = true) ->
  Spec.all_chars p s = true -> Spec.all_chars q s = true.
Proof.
  intros Hpq. induction s as [| c s IH]; [reflexivity |]. cbn [Spec.all_chars].
  intros H. apply andb_true_iff in H as [Hc H].
  now rewrite (Hpq c Hc), IH.
Qed.

Lemma all_chars_app (p : ascii -> bool) (s t : string) :
  Spec.all_chars p (s ++ t) = Spec.all_chars p s && Spec.all_chars p t.
Proof.
  induction s as [| c s IH]; [reflexivity |].
  change (String c s ++ t) with (String c (s ++ t)).
  cbn [Spec.all_chars]. now rewrite IH, andb_assoc.
Qed.

Lemma all_space_chars (s : string) :
  Spec.all_space s = Spec.all_chars Str.is_space s.
Proof. induction s as [| c s IH]; cbn; [reflexivity | now rewrite IH]. Qed.

Lemma all_digits_chars (s : string) :
  Str.all_digits s = Spec.all_chars Str.is_digit s.
Proof. induction s as [| c s IH]; cbn; [reflexivity | now rewrite IH]. Qed.

Lemma all_digit_chars_chars (s : string) :
  all_digit_chars s = Spec.all_chars is_digit_char s.
Proof. induction s as [| c s IH]; cbn; [reflexivity | now rewrite IH]. Qed.

(** A text without the first character of [old] is left as it is. *)
Lemma replace_absent (a : ascii) (old new s : string) :
  Spec.all_chars (fun c => negb (Ascii.eqb c a)) s = true ->
  Str.replace (String a old) new s = s.
Proof.
  unfold Str.replace. induction s as [| c s IH]; [reflexivity |].
  cbn [Spec.all_chars]. intros H. apply andb_true_iff in H as [Hc H].
  apply negb_true_iff, Ascii.eqb_neq in Hc.
  cbn [Str.replace_from String.prefix].
  destruct (ascii_dec a c) as [-> | _]; [contradiction |].
  now rewrite IH.
Qed.

Lemma digit_char_plain (c : ascii) :
  is_digit_char c = true ->
  Str.is_space c = false /\ Ascii.eqb Str.dquote c = false
  /\ Ascii.eqb Str.squote c = false /\ Ascii.eqb c Str.backslash = false.
Proof.
  unfold is_digit_char, Str.is_digit, Str.is_space, Str.between, Str.code.
  intros H.
  assert (Hc : (48 <= nat_of_ascii c <= 57 \/ 178 <= nat_of_ascii c <= 179
                \/ nat_of_ascii c = 185)%nat).
  { apply orb_true_iff in H as [H | H]; [apply orb_true_iff in H as [H | H] |].
    - apply andb_true_iff in H as [H1 H2].
      apply Nat.leb_le in H1. apply Nat.leb_le in H2. lia.
    - apply andb_true_iff in H as [H1 H2].
      apply Nat.leb_le in H1. apply Nat.leb_le in H2. lia.
    - apply Nat.eqb_eq in H. lia. }
  assert (Hne : forall d, nat_of_ascii d <> nat_of_ascii c -> Ascii.eqb d c = false).
  { intros d Hd. apply Ascii.eqb_neq. congruence. }
  split; [| split; [| split]].
  - repeat (apply orb_false_iff; split);
      try (apply andb_false_iff;
           first [left; apply Nat.leb_gt; lia | right; apply Nat.leb_gt; lia]).
    all: apply Nat.eqb_neq; lia.
  - apply Hne. change (nat_of_ascii Str.dquote) with 34%nat. lia.
  - apply Hne. change (nat_of_ascii Str.squote) with 39%nat. lia.
  - rewrite Ascii.eqb_sym. apply Hne.
    change (nat_of_ascii Str.backslash) with 92%nat. lia.
Qed.

(** A string of digit characters goes through the sanitiser and through
    [strip] as it is. *)
Lemma sanitize_digits (n : string) :
  all_digit_chars n = true -> sanitize_text n = n /\ Str.strip n = n.
Proof.
  rewrite all_digit_chars_chars. intros H.
  assert (Hstrip : Str.strip n = n).
  { rewrite strip_is_by. apply strip_by_none.
    apply (all_chars_weaken is_digit_char); [| exact H].
    intros c Hc. now destruct (digit_char_plain c Hc) as [-> _]. }
  split; [| exact Hstrip].
  assert (Hp : forall q : ascii -> bool,
            (forall c, is_digit_char c = true -> q c = true) ->
            Spec.all_chars q n = true).
  { intros q Hq. now apply (all_chars_weaken is_digit_char). }
  assert (Hd : strip_by (Ascii.eqb Str.dquote) n = n).
  { apply strip_by_none, Hp. intros c Hc.
    now destruct (digit_char_plain c Hc) as (_ & -> & _). }
  assert (Hs : strip_by (Ascii.eqb Str.squote) n = n).
  { apply strip_by_none, Hp. intros c Hc.
    now destruct (digit_char_plain c Hc) as (_ & _ & -> & _). }
  assert (Hb : Spec.all_chars (fun c => negb (Ascii.eqb c Str.backslash)) n = true).
  { apply Hp. intros c Hc.
    now destruct (digit_char_plain c Hc) as (_ & _ & _ & ->). }
  unfold sanitize_text, strip_char.
  rewrite Hstrip, Hd, Hs.
  rewrite (replace_absent _ (String Str.dquote EmptyString) _ n Hb).
  apply replace_absent, Hb.
Qed.

Lemma digit_is_digit_char (c : ascii) : Str.is_digit c = true -> is_digit_char c = true.
Proof. unfold is_digit_char. now intros ->. Qed.

Lemma five_digits_chars (s : string) :
  Str.five_digits s = true ->
  String.length s = 5%nat /\ all_digit_chars s = true /\ isdigit s = true.
Proof.
  unfold Str.five_digits. intros H. apply andb_true_iff in H as [Hlen Hd].
  apply Nat.eqb_eq in Hlen.
  assert (Ha : all_digit_chars s = true).
  { rewrite all_digit_chars_chars. rewrite all_digits_chars in Hd.
    apply (all_chars_weaken Str.is_digit); [apply digit_is_digit_char | exact Hd]. }
  split; [exact Hlen |]. split; [exact Ha |].
  unfold isdigit. rewrite Ha. now destruct s.
Qed.

End Sanitize.

Section CrewResults.

Import RailwayStatusCrew.

(** X13. The check of the crew takes off what the tool does not: five
    digits wrapped in any number of single quotes, these in any number
    of double quotes, these in whitespace, are accepted, and the bare
    digits are what is passed on. *)
Theorem crew_check_strips_quotes (rt : PyRuntime)
    (pre dq1 sq1 digits sq2 dq2 post : string) :
  Spec.all_space pre = true -> Spec.all_space post = true ->
  Spec.all_chars (Ascii.eqb Str.dquote) dq1 = true ->
  Spec.all_chars (Ascii.eqb Str.dquote) dq2 = true ->
  Spec.all_chars (Ascii.eqb Str.squote) sq1 = true ->
  Spec.all_chars (Ascii.eqb Str.squote) sq2 = true ->
  Str.five_digits digits = true ->
  _validate_train_number rt
    (JStr (pre ++ (dq1 ++ (sq1 ++ digits ++ sq2) ++ dq2) ++ post))
  = (true, JStr digits).
Proof.
  intros Hpre Hpost Hd1 Hd2 Hs1 Hs2 Hdigits.
  destruct (five_digits_chars digits Hdigits) as (Hlen & Hall & Hisdigit).
  rewrite all_digit_chars_chars in Hall.
  rewrite all_space_chars in Hpre, Hpost.
  assert (Hplain : forall (q : ascii -> bool),
            (forall c, is_digit_char c = true -> q c = true) ->
            Spec.all_chars q digits = true).
  { intros q Hq. now apply (all_chars_weaken is_digit_char). }
  assert (Hquote : forall (q : ascii -> bool) (a : ascii) (s : string),
            q a = true -> Spec.all_chars (Ascii.eqb a) s = true ->
            Spec.all_chars q s = true).
  { intros q a s Ha. apply all_chars_weaken.
    intros c Hc. apply Ascii.eqb_eq in Hc. now subst c. }
  set (inner := sq1 ++ digits ++ sq2).
  set (outer := dq1 ++ inner ++ dq2).
  assert (Hstrip : Str.strip (pre ++ outer ++ post) = outer).
  { rewrite strip_is_by. apply strip_by_wrapped; try assumption.
    subst outer inner. rewrite !all_chars_app.
    rewrite (Hquote _ Str.dquote dq1), (Hquote _ Str.squote sq1),
      (Hquote _ Str.squote sq2), (Hquote _ Str.dquote dq2) by (assumption || reflexivity).
    rewrite Hplain; [reflexivity |].
    intros c Hc. now destruct (digit_char_plain c Hc) as [-> _]. }
  assert (Hdq : strip_char Str.dquote outer = inner).
  { apply strip_by_wrapped; try assumption.
    subst inner. rewrite !all_chars_app.
    rewrite (Hquote _ Str.squote sq1), (Hquote _ Str.squote sq2)
      by (assumption || reflexivity).
    rewrite Hplain; [reflexivity |].
    intros c Hc. now destruct (digit_char_plain c Hc) as (_ & -> & _). }
  assert (Hsq : strip_char Str.squote inner = digits).
  { apply strip_by_wrapped; try assumption.
    apply Hplain. intros c Hc.
    now destruct (digit_char_plain c Hc) as (_ & _ & -> & _). }
  assert (Hb : Spec.all_chars (fun c => negb (Ascii.eqb c Str.backslash)) digits
               = true).
  { apply Hplain. intros c Hc.
    now destruct (digit_char_plain c Hc) as (_ & _ & _ & ->). }
  assert (Hsan : sanitize_text (pre ++ outer ++ post) = digits).
  { unfold sanitize_text. rewrite Hstrip, Hdq, Hsq.
    rewrite (replace_absent _ (String Str.dquote EmptyString) _ digits Hb).
    apply replace_absent, Hb. }
  clear Hstrip. remember (pre ++ outer ++ post) as text eqn:Htext.
  unfold _validate_train_number. cbn [py_str]. rewrite Hsan, Hisdigit, Hlen.
  destruct text as [| c0 text]; [| reflexivity].
  cbv in Hsan. rewrite <- Hsan in Hlen. discriminate Hlen.
Qed.

Lemma crew_check_strips_quotes_witness :
  _validate_train_number Runtime.reference
    (JStr (" " ++ (String Str.dquote EmptyString
                   ++ ("'" ++ "12345" ++ "'")
                   ++ String Str.dquote EmptyString) ++ " "))
  = (true, JStr "12345").
Proof.
  apply (crew_check_strips_quotes Runtime.reference " "
           (String Str.dquote EmptyString) "'" "12345" "'"
           (String Str.dquote EmptyString) " "); reflexivity.
Defined.

(** X14. The check of the crew and the validator tool on the train
    number. Whatever text the tool accepts, the crew accepts, with the
    same cleaned number. What the crew accepts is five characters that
    [str.isdigit] takes for digits, and the tool accepts that number
    exactly when its five characters are ASCII digits: a number with a
    superscript digit passes the crew and fails the tool. *)
Theorem crew_check_and_validator (rt : PyRuntime) (today : Z) :
  (forall s,
      Spec.accepted (TrainValidationTool._run rt today (JStr s) JNull) = true ->
      _validate_train_number rt (JStr s) = (true, JStr (Str.strip s)))
  /\ (forall v n,
        _validate_train_number rt v = (true, JStr n) ->
        String.length n = 5%nat
        /\ isdigit n = true
        /\ Spec.accepted (TrainValidationTool._run rt today (JStr n) JNull)
           = Str.all_digits n).
Proof.
  split.
  - intros s Hacc.
    assert (Hfive : Str.five_digits (Str.strip s) = true).
    { revert Hacc. unfold TrainValidationTool._run. cbn [py_str].
      rewrite re_match_train_strip.
      destruct (Str.five_digits (Str.strip s)); [reflexivity | discriminate]. }
    destruct (five_digits_chars _ Hfive) as (Hlen & Hall & Hisdigit).
    destruct (sanitize_digits _ Hall) as [Hsan _].
    assert (Hsame : sanitize_text s = Str.strip s).
    { unfold sanitize_text in *.
      assert (Hidem : Str.strip (Str.strip s) = Str.strip s)
        by now destruct (sanitize_digits _ Hall).
      now rewrite Hidem in Hsan. }
    unfold _validate_train_number. cbn [py_str].
    rewrite Hsame, Hisdigit, Hlen.
    assert (Htrue : Py.truthy (JStr s) = true).
    { cbn [Py.truthy]. destruct s; [discriminate Hfive | reflexivity]. }
    now rewrite Htrue.
  - intros v n. unfold _validate_train_number.
    destruct (Py.truthy v); cbn [negb]; [| discriminate].
    destruct (isdigit (sanitize_text (py_str rt v))) eqn:Hisdigit;
      cbn [negb]; [| discriminate].
    destruct (Nat.eqb_spec (String.length (sanitize_text (py_str rt v))) 5)
      as [Hlen | _]; cbn [negb]; [| discriminate].
    intros [= <-]. split; [exact Hlen |]. split; [exact Hisdigit |].
    set (n := sanitize_text (py_str rt v)) in *.
    assert (Hall : all_digit_chars n = true).
    { unfold isdigit in Hisdigit. now apply andb_true_iff in Hisdigit as [_ H]. }
    destruct (sanitize_digits n Hall) as [_ Hstrip].
    unfold TrainValidationTool._run. cbn [py_str Py.truthy].
    pose proof (re_match_train_strip n) as Hm. rewrite Hstrip in Hm. rewrite Hstrip, Hm.
    unfold Str.five_digits. rewrite Hlen. cbn [Nat.eqb andb].
    now destruct (Str.all_digits n).
Qed.

Lemma crew_check_and_validator_witness :
  _validate_train_number Runtime.reference (JStr " 12345 ") = (true, JStr "12345")
  /\ Spec.accepted
       (TrainValidationTool._run Runtime.reference 738886
          (JStr (String "1" (String "2" (String "3" (String "4"
                   (String (ascii_of_nat 178) EmptyString)))))) JNull)
     = false.
Proof.
  destruct (crew_check_and_validator Runtime.reference 738886) as [Htool Hcrew].
  split.
  - apply (Htool " 12345 "). reflexivity.
  - destruct (Hcrew
                (JStr (String "1" (String "2" (String "3" (String "4"
                         (String (ascii_of_nat 178) EmptyString))))))
                (String "1" (String "2" (String "3" (String "4"
                         (String (ascii_of_nat 178) EmptyString)))))
                eq_refl) as (_ & _ & Hacc).
    exact Hacc.
Defined.

End CrewResults.

(** ** Distances, bearings and regions *)

Section Geometry.

Import GeospatialTool.
Local Open Scope R_scope.

Lemma radians_bound (lat : R) :
  -90 <= lat <= 90 -> - (PI / 2) <= radians lat <= PI / 2.
Proof.
  intros H. unfold radians. pose proof PI_RGT_0 as Hpi. split; nra.
Qed.

Lemma sin_sqr_bound (x : R) : 0 <= sin x ^ 2 <= 1.
Proof.
  pose proof (SIN_bound x) as [Hl Hu]. split; nra.
Qed.

(** The product of two cosines against the half-angle of the
    difference. *)
Lemma cos_product_bound (p q : R) :
  cos p * cos q <= 1 - sin ((q - p) / 2) ^ 2.
Proof.
  pose proof (cos_2a_sin ((q - p) / 2)) as Hd.
  replace (2 * ((q - p) / 2)) with (q - p) in Hd by Lra.lra.
  pose proof (cos_minus q p) as Hm.
  pose proof (cos_plus q p) as Hp.
  pose proof (COS_bound (q + p)) as [_ Hb].
  nra.
Qed.

(** And from below. *)
Lemma cos_product_lower (p q : R) :
  - sin ((q - p) / 2) ^ 2 <= cos p * cos q.
Proof.
  pose proof (cos_2a_sin ((q - p) / 2)) as Hd.
  replace (2 * ((q - p) / 2)) with (q - p) in Hd by Lra.lra.
  pose proof (cos_minus q p) as Hm.
  pose proof (cos_plus q p) as Hp.
  pose proof (COS_bound (q + p)) as [Hb _].
  nra.
Qed.

(** The haversine term is in [0, 1], whatever the coordinates. *)
Lemma haversine_term_bound (lat1 lon1 lat2 lon2 : R) :
  0 <= Spec.haversine_term lat1 lon1 lat2 lon2 <= 1.
Proof.
  unfold Spec.haversine_term.
  pose proof (sin_sqr_bound ((radians lat2 - radians lat1) / 2)) as [Hs0 Hs1].
  pose proof (sin_sqr_bound ((radians lon2 - radians lon1) / 2)) as [Ht0 Ht1].
  pose proof (cos_product_bound (radians lat1) (radians lat2)) as Hup.
  pose proof (cos_product_lower (radians lat1) (radians lat2)) as Hlow.
  set (s := sin ((radians lat2 - radians lat1) / 2) ^ 2) in *.
  set (t := sin ((radians lon2 - radians lon1) / 2) ^ 2) in *.
  set (p := cos (radians lat1) * cos (radians lat2)) in *.
  destruct (Rle_or_lt 0 p) as [Hp | Hp]; split; nra.
Qed.

Lemma asin_nonneg (x : R) : 0 <= x <= 1 -> 0 <= asin x.
Proof.
  intros [H0 H1].
  destruct (Rle_or_lt 0 (asin x)) as [H | H]; [exact H |].
  pose proof (asin_bound x) as [Hl _].
  assert (Hs : sin (asin x) < 0).
  { apply sin_lt_0_var; [| exact H]. pose proof PI_RGT_0. Lra.lra. }
  rewrite sin_asin in Hs by Lra.lra. Lra.lra.
Qed.

Lemma int_part_of (x : R) (z : Z) : IZR z <= x < IZR z + 1 -> Int_part x = z.
Proof. intros [Hl Hu]. symmetry. apply Int_part_spec. split; Lra.lra. Qed.

(** [round] gives the integer that is less than one half away. *)
Lemma round_near (x : R) (k : Z) :
  IZR k - 1 / 2 < x < IZR k + 1 / 2 -> round_half_even x = k.
Proof.
  intros [Hl Hu]. unfold round_half_even.
  destruct (Rle_or_lt (IZR k) x) as [Hge | Hlt].
  - rewrite (int_part_of x k) by (split; Lra.lra).
    destruct (Rlt_dec (x - IZR k) (1 / 2)); [reflexivity | Lra.lra].
  - rewrite (int_part_of x (k - 1)) by (rewrite minus_IZR; split; Lra.lra).
    rewrite minus_IZR.
    destruct (Rlt_dec (x - (IZR k - 1)) (1 / 2)); [Lra.lra |].
    destruct (Rlt_dec (1 / 2) (x - (IZR k - 1))); [lia | Lra.lra].
Qed.

(** At a tie [round] takes the even neighbour. *)
Lemma round_tie (x : R) (k : Z) :
  x = IZR k + 1 / 2 ->
  round_half_even x = if Z.even k then k else (k + 1)%Z.
Proof.
  intros ->. unfold round_half_even.
  rewrite (int_part_of (IZR k + 1 / 2) k) by (split; Lra.lra).
  destruct (Rlt_dec (IZR k + 1 / 2 - IZR k) (1 / 2)); [Lra.lra |].
  destruct (Rlt_dec (1 / 2) (IZR k + 1 / 2 - IZR k)); [Lra.lra | reflexivity].
Qed.

Lemma within_spec (lo hi x : Q) :
  within lo hi x = true <-> (lo <= x <= hi)%Q.
Proof.
  unfold within. rewrite andb_true_iff, !Qle_bool_iff. reflexivity.
Qed.

Lemma box_spec (lat_lo lat_hi lon_lo lon_hi lat lon : Q) :
  within lat_lo lat_hi lat && within lon_lo lon_hi lon = true
  <-> Spec.in_box lat_lo lat_hi lon_lo lon_hi lat lon.
Proof.
  unfold Spec.in_box. rewrite andb_true_iff, !within_spec. reflexivity.
Qed.

Lemma box_false (lat_lo lat_hi lon_lo lon_hi lat lon : Q) :
  ~ Spec.in_box lat_lo lat_hi lon_lo lon_hi lat lon ->
  within lat_lo lat_hi lat && within lon_lo lon_hi lon = false.
Proof.
  intros H. destruct (within lat_lo lat_hi lat && within lon_lo lon_hi lon) eqn:Hb;
    [| reflexivity].
  now apply box_spec in Hb.
Qed.

End Geometry.

Section GeometryResults.

Import GeospatialTool.
Local Open Scope R_scope.

(** X15. The haversine term stays in [0, 1], whatever the coordinates,
    so the square root and the arc sine of [_haversine_distance] are
    taken inside their domains: the distance is the arc whose haversine
    is the term, that is, the sine of half the angle [distance / 6371],
    squared, is the term again, and it lies between 0 and half the
    circumference of the sphere, 6371 times PI kilometres. *)
Theorem haversine_distance_range (lat1 lon1 lat2 lon2 : R) :
  let a := Spec.haversine_term lat1 lon1 lat2 lon2 in
  let d := _haversine_distance lat1 lon1 lat2 lon2 in
  0 <= a <= 1
  /\ d = 6371 * (2 * asin (sqrt a))
  /\ sin (d / 6371 / 2) ^ 2 = a
  /\ 0 <= d <= 6371 * PI.
Proof.
  cbv zeta.
  pose proof (haversine_term_bound lat1 lon1 lat2 lon2) as Ha.
  assert (Hd : _haversine_distance lat1 lon1 lat2 lon2
               = 6371 * (2 * asin (sqrt (Spec.haversine_term lat1 lon1 lat2 lon2))))
    by reflexivity.
  set (a := Spec.haversine_term lat1 lon1 lat2 lon2) in *.
  assert (Hs : 0 <= sqrt a <= 1).
  { split; [apply sqrt_pos |].
    rewrite <- sqrt_1. apply sqrt_le_1_alt. exact (proj2 Ha). }
  pose proof (asin_nonneg (sqrt a) Hs) as Hlow.
  pose proof (asin_bound (sqrt a)) as [_ Hhigh].
  split; [exact Ha |]. split; [exact Hd |]. rewrite Hd. split.
  - replace (6371 * (2 * asin (sqrt a)) / 6371 / 2) with (asin (sqrt a))
      by (field; Lra.lra).
    rewrite sin_asin by Lra.lra.
    rewrite <- Rsqr_pow2. apply Rsqr_sqrt. exact (proj1 Ha).
  - split; nra.
Qed.

(** X16. Along a meridian the formulas give what they should: for two
    valid points of the same longitude the distance is 6371 times the
    difference of the latitudes in radians; towards a greater latitude
    the bearing is 0 and the direction North, towards a smaller one
    (less than 180 degrees away) the bearing is 180 and the direction
    South. *)
Theorem meridian_distance_and_bearing (lat1 lat2 lon : R) :
  -90 <= lat1 <= 90 -> -90 <= lat2 <= 90 ->
  _haversine_distance lat1 lon lat2 lon = 6371 * Rabs (radians (lat2 - lat1))
  /\ (lat1 < lat2 ->
      _calculate_bearing lat1 lon lat2 lon = 0
      /\ _bearing_to_direction (_calculate_bearing lat1 lon lat2 lon) = "North")
  /\ (lat2 < lat1 < lat2 + 180 ->
      _calculate_bearing lat1 lon lat2 lon = 180
      /\ _bearing_to_direction (_calculate_bearing lat1 lon lat2 lon) = "South").
Proof.
  intros H1 H2.
  destruct (radians_bound lat1 H1) as [Hl1 Hu1].
  destruct (radians_bound lat2 H2) as [Hl2 Hu2].
  pose proof PI_RGT_0 as Hpi.
  assert (Hdiff : radians (lat2 - lat1) = radians lat2 - radians lat1)
    by (unfold radians; ring).
  assert (Hx : cos (radians lat1) * sin (radians lat2)
               - sin (radians lat1) * cos (radians lat2) * cos (radians lon - radians lon)
               = sin (radians lat2 - radians lat1)).
  { replace (radians lon - radians lon) with 0 by ring.
    rewrite cos_0, sin_minus. ring. }
  assert (Hy : sin (radians lon - radians lon) * cos (radians lat2) = 0).
  { replace (radians lon - radians lon) with 0 by ring. rewrite sin_0. ring. }
  assert (Hnorth : _bearing_to_direction 0 = "North").
  { unfold _bearing_to_direction. cbv zeta.
    rewrite (round_near (0 / 22.5) 0) by (split; Lra.lra). reflexivity. }
  assert (Hsouth : _bearing_to_direction 180 = "South").
  { unfold _bearing_to_direction. cbv zeta.
    rewrite (round_near (180 / 22.5) 8) by (split; Lra.lra). reflexivity. }
  split; [| split].
  - unfold _haversine_distance. cbv zeta.
    replace (radians lon - radians lon) with 0 by ring.
    replace (0 / 2) with 0 by Lra.lra. rewrite sin_0.
    set (h := (radians lat2 - radians lat1) / 2).
    replace (sin h ^ 2 + cos (radians lat1) * cos (radians lat2) * 0 ^ 2)
      with (Rsqr (sin h)) by (unfold Rsqr; ring).
    rewrite sqrt_Rsqr_abs, Hdiff.
    assert (Hh : - (PI / 2) <= h <= PI / 2) by (subst h; split; Lra.lra).
    assert (Habs : asin (Rabs (sin h)) = Rabs h).
    { destruct (Rle_or_lt 0 h) as [Hpos | Hneg].
      - rewrite (Rabs_right h) by Lra.lra.
        rewrite Rabs_right by (apply Rle_ge, sin_ge_0; Lra.lra).
        apply asin_sin. Lra.lra.
      - rewrite (Rabs_left h) by exact Hneg.
        rewrite Rabs_left by (apply sin_lt_0_var; Lra.lra).
        rewrite <- sin_neg. apply asin_sin. Lra.lra. }
    rewrite Habs. subst h.
    replace (radians lat2 - radians lat1)
      with (2 * ((radians lat2 - radians lat1) / 2)) at 2 by Lra.lra.
    rewrite Rabs_mult, (Rabs_right 2) by Lra.lra. ring.
  - intros Hlt.
    assert (Hb : _calculate_bearing lat1 lon lat2 lon = 0).
    { unfold _calculate_bearing. cbv zeta. rewrite Hx, Hy.
      assert (Hd : 0 < radians lat2 - radians lat1 <= PI)
        by (unfold radians in *; split; nra).
      assert (Ha : atan2 0 (sin (radians lat2 - radians lat1)) = 0).
      { unfold atan2.
        destruct (Rlt_dec 0 (sin (radians lat2 - radians lat1))) as [Hpos | Hn].
        - replace (0 / sin (radians lat2 - radians lat1)) with 0
            by (unfold Rdiv; ring).
          apply atan_0.
        - assert (Hs : 0 <= sin (radians lat2 - radians lat1))
            by (apply sin_ge_0; Lra.lra).
          destruct (Rlt_dec (sin (radians lat2 - radians lat1)) 0); [Lra.lra |].
          destruct (Rlt_dec 0 0); [Lra.lra | reflexivity]. }
      rewrite Ha. unfold degrees, fmod.
      rewrite (int_part_of ((0 * (180 / PI) + 360) / 360) 1) by (split; Lra.lra).
      Lra.lra. }
    split; [exact Hb | now rewrite Hb].
  - intros [Hlt Hfar].
    assert (Hb : _calculate_bearing lat1 lon lat2 lon = 180).
    { unfold _calculate_bearing. cbv zeta. rewrite Hx, Hy.
      assert (Hd : - PI < radians lat2 - radians lat1 < 0)
        by (unfold radians in *; split; nra).
      assert (Hs : sin (radians lat2 - radians lat1) < 0)
        by (apply sin_lt_0_var; Lra.lra).
      assert (Ha : atan2 0 (sin (radians lat2 - radians lat1)) = PI).
      { unfold atan2.
        destruct (Rlt_dec 0 (sin (radians lat2 - radians lat1))); [Lra.lra |].
        destruct (Rlt_dec (sin (radians lat2 - radians lat1)) 0); [| Lra.lra].
        destruct (Rle_dec 0 0); [| Lra.lra].
        replace (0 / sin (radians lat2 - radians lat1)) with 0
          by (unfold Rdiv; ring).
        rewrite atan_0. ring. }
      rewrite Ha. unfold degrees, fmod.
      replace (PI * (180 / PI)) with 180 by (field; Lra.lra).
      rewrite (int_part_of ((180 + 360) / 360) 1) by (split; Lra.lra).
      Lra.lra. }
    split; [exact Hb | now rewrite Hb].
Qed.

Lemma meridian_distance_and_bearing_witness :
  _haversine_distance 10 77 20 77 = 6371 * Rabs (radians (20 - 10))
  /\ _bearing_to_direction (_calculate_bearing 10 77 20 77) = "North"
  /\ _bearing_to_direction (_calculate_bearing 20 77 10 77) = "South".
Proof.
  assert (H10 : -90 <= 10 <= 90) by Lra.lra.
  assert (H20 : -90 <= 20 <= 90) by Lra.lra.
  destruct (meridian_distance_and_bearing 10 20 77 H10 H20) as (Hd & Hn & _).
  destruct (meridian_distance_and_bearing 20 10 77 H20 H10) as (_ & _ & Hs).
  split; [exact Hd |]. split.
  - apply Hn. Lra.lra.
  - apply Hs. Lra.lra.
Defined.

(** X17. The sixteen compass sectors: a bearing less than 11.25 degrees
    away from the multiple [k] of 22.5 gets the direction number [k]
    modulo 16, for every integer [k], so also for bearings below 0 or
    above 360; a bearing exactly half way between two multiples gets the
    even-numbered neighbour, since [round] takes ties to even. *)
Theorem direction_sectors (bearing : R) (k : Z) :
  (22.5 * IZR k - 11.25 < bearing < 22.5 * IZR k + 11.25 ->
   _bearing_to_direction bearing
   = nth (Z.to_nat (k mod 16)) directions EmptyString)
  /\ (bearing = 22.5 * IZR k + 11.25 ->
      _bearing_to_direction bearing
      = nth (Z.to_nat ((if Z.even k then k else k + 1) mod 16))
            directions EmptyString)
  /\ _bearing_to_direction (bearing + 360) = _bearing_to_direction bearing
  /\ In (_bearing_to_direction bearing) directions.
Proof.
  split; [| split; [| split]].
  - intros [Hl Hu]. unfold _bearing_to_direction. cbv zeta.
    rewrite (round_near (bearing / 22.5) k) by (split; Lra.lra). reflexivity.
  - intros ->. unfold _bearing_to_direction. cbv zeta.
    rewrite (round_tie ((22.5 * IZR k + 11.25) / 22.5) k) by Lra.lra.
    reflexivity.
  - unfold _bearing_to_direction. cbv zeta.
    assert (Hshift : round_half_even ((bearing + 360) / 22.5)
                     = (round_half_even (bearing / 22.5) + 16)%Z).
    { unfold round_half_even.
      assert (Hi : Int_part ((bearing + 360) / 22.5)
                   = (Int_part (bearing / 22.5) + 16)%Z).
      { apply int_part_of. rewrite plus_IZR.
        pose proof (base_Int_part (bearing / 22.5)) as [Hl Hu].
        split; Lra.lra. }
      rewrite Hi, plus_IZR.
      replace ((bearing + 360) / 22.5 - (IZR (Int_part (bearing / 22.5)) + 16))
        with (bearing / 22.5 - IZR (Int_part (bearing / 22.5))) by Lra.lra.
      rewrite Z.even_add. change (Z.even 16) with true.
      destruct (Rlt_dec _ (1 / 2)); [reflexivity |].
      destruct (Rlt_dec (1 / 2) _); [lia |].
      destruct (Z.even (Int_part (bearing / 22.5))); cbn [Bool.eqb]; lia. }
    rewrite Hshift.
    replace ((round_half_even (bearing / 22.5) + 16) mod 16)%Z
      with (round_half_even (bearing / 22.5) mod 16)%Z; [reflexivity |].
    rewrite <- (Z.mod_add (round_half_even (bearing / 22.5)) 1 16) by lia.
    f_equal; lia.
  - unfold _bearing_to_direction. cbv zeta. apply nth_In.
    pose proof (Z.mod_pos_bound (round_half_even (bearing / 22.5)) 16) as Hm.
    change (List.length directions) with 16%nat. lia.
Qed.

Lemma direction_sectors_witness :
  _bearing_to_direction 100 = "East"
  /\ _bearing_to_direction 33.75 = "Northeast"
  /\ _bearing_to_direction (-90) = "West".
Proof.
  destruct (direction_sectors 100 4) as (Hin & _).
  destruct (direction_sectors 33.75 1) as (_ & Htie & _).
  destruct (direction_sectors (-90) (-4)) as (Hneg & _).
  split; [apply Hin; Lra.lra |].
  split; [apply Htie; Lra.lra | apply Hneg; Lra.lra].
Defined.

Local Close Scope R_scope.

(** X18. The four state boxes of [_get_region_info] do not overlap and
    lie inside the box of the subcontinent, so the order of the tests
    does not matter: a state is named exactly for the points of its box,
    the region exactly for the points of the large box, and no point
    gets a state without the region. *)
Theorem region_by_boxes (lat lon : Q) :
  let info := _get_region_info lat lon in
  (region info = Some "Indian Subcontinent" <-> Spec.in_box 6 37 68 97 lat lon)
  /\ (likely_state info = Some "Tamil Nadu/Karnataka"
      <-> Spec.in_box 8 13 76 80 lat lon)
  /\ (likely_state info = Some "Maharashtra" <-> Spec.in_box 19 24 72 75 lat lon)
  /\ (likely_state info = Some "Delhi/Haryana" <-> Spec.in_box 28 31 76 78 lat lon)
  /\ (likely_state info = Some "West Bengal" <-> Spec.in_box 22 26 88 92 lat lon)
  /\ (likely_state info <> None -> region info = Some "Indian Subcontinent").
Proof.
  cbv zeta. unfold _get_region_info.
  pose proof (box_spec 6 37 68 97 lat lon) as Hin.
  pose proof (box_spec 8 13 76 80 lat lon) as Htn.
  pose proof (box_spec 19 24 72 75 lat lon) as Hmh.
  pose proof (box_spec 28 31 76 78 lat lon) as Hdl.
  pose proof (box_spec 22 26 88 92 lat lon) as Hwb.
  destruct (within 6 37 lat && within 68 97 lon) eqn:Ein;
    destruct (within 8 13 lat && within 76 80 lon) eqn:Etn;
    destruct (within 19 24 lat && within 72 75 lon) eqn:Emh;
    destruct (within 28 31 lat && within 76 78 lon) eqn:Edl;
    destruct (within 22 26 lat && within 88 92 lon) eqn:Ewb;
    cbn [region likely_state];
    repeat match goal with
           | H : true = true <-> _ |- _ => apply proj1 in H; specialize (H eq_refl)
           | H : false = true <-> _ |- _ =>
               apply proj2 in H;
               assert (~ _) by (let X := fresh in intros X; apply H in X; discriminate X);
               clear H
           end;
    unfold Spec.in_box in *;
    repeat split; intros; try discriminate; try reflexivity; try congruence;
    try tauto; try (exfalso; Lqa.lra); try Lqa.lra.
Qed.

End GeometryResults.

(** ** The error handler *)

Section ErrorHandling.

Import ErrorHandlingTool.

Lemma advice_retry (error_type : json) :
  snd (advice error_type) = true
  <-> exists t, error_type = JStr t
                /\ In t ["validation"; "api"; "network"; "processing"; "execution"].
Proof.
  unfold advice, Py.eq_str. destruct error_type as [| b | n | x | t | l | d];
    try (cbn; split; [discriminate | intros (t & Ht & _); discriminate]).
  destruct (String.eqb_spec t "validation") as [-> | H1];
    [split; [intros _; eexists; split; [reflexivity | cbn; tauto] | reflexivity] |].
  destruct (String.eqb_spec t "api") as [-> | H2];
    [split; [intros _; eexists; split; [reflexivity | cbn; tauto] | reflexivity] |].
  destruct (String.eqb_spec t "network") as [-> | H3];
    [split; [intros _; eexists; split; [reflexivity | cbn; tauto] | reflexivity] |].
  destruct (String.eqb_spec t "processing") as [-> | H4];
    [split; [intros _; eexists; split; [reflexivity | cbn; tauto] | reflexivity] |].
  destruct (String.eqb_spec t "execution") as [-> | H5];
    [split; [intros _; eexists; split; [reflexivity | cbn; tauto] | reflexivity] |].
  cbn. split; [discriminate |].
  intros (t' & [= <-] & Hin). cbn in Hin.
  destruct Hin as [<- | [<- | [<- | [<- | [<- | []]]]]]; contradiction.
Qed.

Lemma advice_length (error_type : json) :
  List.length (fst (advice error_type)) = 4%nat.
Proof.
  unfold advice.
  destruct (Py.eq_str error_type "validation"); [reflexivity |].
  destruct (Py.eq_str error_type "api" || Py.eq_str error_type "network");
    [reflexivity |].
  destruct (Py.eq_str error_type "processing"); [reflexivity |].
  destruct (Py.eq_str error_type "execution"); reflexivity.
Qed.

(** X19. The error handler always answers, with three or four
    suggestions, and it recommends a retry exactly when the error type
    it reports is one of validation, api, network, processing and
    execution. A text that is not JSON is reported as an error of type
    parsing, whose own message is lost and for which no retry is
    recommended; and the type that the crew passes for a failed run,
    execution_error, is not among the five, so that no retry is
    recommended for it. *)
Theorem error_handler_advice (rt : PyRuntime) (now : datetime)
    (input_data : py_input) :
  let r := _run rt now input_data in
  (retry_recommended r = true
   <-> exists t, error_type r = JStr t
                 /\ In t ["validation"; "api"; "network"; "processing"; "execution"])
  /\ (3 <= List.length (suggestions r) <= 4)%nat
  /\ (forall s, input_data = InStr s ->
        json_loads rt (DataProcessingTool.clean_input s) = None ->
        error_type r = JStr "parsing"
        /\ retry_recommended r = false
        /\ message r = "Error in parsing: Could not parse error context")
  /\ (forall now' error_message original_inputs,
        input_data = InObj (JDict (RailwayStatusCrew.error_inputs rt now'
                                     error_message original_inputs)) ->
        retry_recommended r = false
        /\ message r = "Error in execution_error: " ++ error_message).
Proof.
  cbv zeta.
  assert (Hhandle : forall d,
            (retry_recommended (handle rt now d) = true
             <-> exists t, error_type (handle rt now d) = JStr t
                           /\ In t ["validation"; "api"; "network";
                                    "processing"; "execution"])
            /\ (3 <= List.length (suggestions (handle rt now d)) <= 4)%nat).
  { intros d. unfold handle. cbn [retry_recommended error_type suggestions].
    split; [apply advice_retry | rewrite advice_length; lia]. }
  assert (Hfallback : forall ex,
            (retry_recommended (fallback rt now ex) = true
             <-> exists t, error_type (fallback rt now ex) = JStr t
                           /\ In t ["validation"; "api"; "network";
                                    "processing"; "execution"])
            /\ (3 <= List.length (suggestions (fallback rt now ex)) <= 4)%nat).
  { intros ex. cbn. split; [| lia]. split; [discriminate |].
    intros (t & [= <-] & Hin).
    destruct Hin as [H | [H | [H | [H | [H | []]]]]]; discriminate H. }
  assert (Hall : (retry_recommended (_run rt now input_data) = true
             <-> exists t, error_type (_run rt now input_data) = JStr t
                           /\ In t ["validation"; "api"; "network";
                                    "processing"; "execution"])
            /\ (3 <= List.length (suggestions (_run rt now input_data)) <= 4)%nat).
  { unfold _run. destruct input_data as [s | v].
    - destruct (json_loads rt (DataProcessingTool.clean_input s)) as [v |];
        [| apply Hhandle].
      destruct v; try apply Hfallback. apply Hhandle.
    - destruct v; apply Hhandle. }
  destruct Hall as [Hretry Hlen].
  split; [exact Hretry |]. split; [exact Hlen |]. split.
  - intros s -> Hnone. unfold _run. rewrite Hnone. repeat split.
  - intros now' error_message original_inputs ->. repeat split.
Qed.

End ErrorHandling.

(** ** What the fetcher returns and caches *)

Section FetchInvariant.

Import RailwayAPITool.
Context (rt : PyRuntime) (e : env) (P : dict -> Prop).
Hypothesis Hmock : forall actual tn ctx, P (mock_record rt e actual tn ctx).
Hypothesis Hlive :
  forall tn info,
    Spec.live_shape rt e tn info -> map fst info = Spec.record_keys -> P info.

Lemma mock_outcome (tn date : json) (ctx : string) (f f' : frame) (d : dict) :
  _get_mock_data rt e tn date ctx f = (inr d, f') -> P d /\ f' = f.
Proof.
  unfold _get_mock_data, mbind, M_bind, lift.
  destruct (Dt.add_minutes _ _) as [actual |]; [| discriminate].
  intros [= <- <-]. split; [apply Hmock | reflexivity].
Qed.

Lemma extract_outcome (results : json) (tn : string) (f f' : frame) (info : dict) :
  _extract_train_info rt e results tn f = (inr info, f') -> P info /\ f' = f.
Proof.
  unfold _extract_train_info, try_except, mbind, M_bind, lift.
  destruct (method_get _ _ _) as [ex | organic]; [apply mock_outcome |].
  destruct (first_five organic) as [ex | rs]; [apply mock_outcome |].
  destruct (scan_results rt e tn _ rs) as [ex | info0] eqn:Hscan;
    [apply mock_outcome |].
  intros [= <- <-]. split; [| reflexivity].
  apply (Hlive tn).
  - eapply scan_results_shape; [apply initial_shape | exact Hscan].
  - eapply scan_results_keys; [| exact Hscan]. reflexivity.
Qed.

Lemma mock_cases (tn date : json) (ctx : string) (f : frame) :
  exists r,
    _get_mock_data rt e tn date ctx f = (r, f)
    /\ match r with inl _ => True | inr d => P d end.
Proof.
  pose proof (mock_frame rt e tn date ctx f) as Hf.
  destruct (_get_mock_data rt e tn date ctx f) as [[ex | d] f'] eqn:Hm;
    cbn [snd] in Hf; subst f'.
  - eexists. split; [reflexivity | exact I].
  - eexists. split; [reflexivity |]. now apply (mock_outcome tn date ctx f f d).
Qed.

Lemma extract_cases (results : json) (tn : string) (f : frame) :
  exists r,
    _extract_train_info rt e results tn f = (r, f)
    /\ match r with inl _ => True | inr info => P info end.
Proof.
  pose proof (extract_frame rt e results tn f) as Hf.
  destruct (_extract_train_info rt e results tn f) as [[ex | info] f'] eqn:Hx;
    cbn [snd] in Hf; subst f'.
  - eexists. split; [reflexivity | exact I].
  - eexists. split; [reflexivity |]. now apply (extract_outcome results tn f f info).
Qed.

Lemma mock_data_outcome (tn date : json) (ctx : string) (f : frame) :
  Spec.cache_all P (shared f) ->
  Spec.outcome P
    ((mock_data ← _get_mock_data rt e tn date ctx; mret (JDict mock_data)) f).
Proof.
  intros Hc. unfold mbind, M_bind.
  destruct (mock_cases tn date ctx f) as (r & -> & Hr).
  destruct r as [ex | d].
  - split; [exact Hc | exact I].
  - split; [exact Hc |]. exists d. split; [reflexivity | now right].
Qed.

Lemma search_or_mock_outcome (tn : string) (date : json) (f : frame) :
  Spec.cache_all P (shared f) ->
  Spec.outcome P (search_or_mock rt e tn date f).
Proof.
  intros Hc.
  unfold search_or_mock, try_except, mbind, M_bind, lift, log_query.
  fold (Spec.logged (search_query rt e tn date) f).
  set (f1 := Spec.logged (search_query rt e tn date) f).
  assert (Hc1 : Spec.cache_all P (shared f1)) by exact Hc.
  assert (Hfallback : forall ex,
            Spec.outcome P
              (let (s, f') := _get_mock_data rt e (JStr tn) date
                                ("Search failed: " ++ exn_text rt ex) f1 in
               match s with
               | inl e0 => (inl e0, f')
               | inr x => (inr (JDict x), f')
               end)).
  { intros ex.
    destruct (mock_cases (JStr tn) date ("Search failed: " ++ exn_text rt ex) f1)
      as (r & -> & Hr).
    destruct r as [ex' | d].
    - split; [exact Hc1 | exact I].
    - split; [exact Hc1 |]. exists d. split; [reflexivity | now right]. }
  destruct (search e (search_query rt e tn date)) as [ex | results];
    [exact (Hfallback ex) |].
  destruct (extract_cases results tn f1) as (r & -> & Hr).
  destruct r as [ex | info]; [exact (Hfallback ex) |].
  exact (Hfallback (NoClassAttribute "cache")).
Qed.

Lemma lookup_outcome (tn : string) (date : json) (f : frame) :
  Spec.cache_all P (shared f) ->
  Spec.outcome P (lookup_or_search rt e tn date f).
Proof.
  intros Hc. rewrite lookup_raises. split; [exact Hc | exact I].
Qed.

Lemma handler_outcome (ex : exn) (f : frame) :
  Spec.cache_all P (shared f) -> Spec.outcome P (handler rt e ex f).
Proof.
  intros Hc. unfold handler, mbind at 1, M_bind at 1, get_locals.
  now apply mock_data_outcome.
Qed.

Lemma error_outcome (msg : json) (f : frame) :
  Spec.cache_all P (shared f) -> Spec.outcome P (inr (error_record msg), f).
Proof.
  intros Hc. split; [exact Hc |]. eexists. split; [reflexivity |]. left.
  now exists msg.
Qed.

Lemma under_handler (m : M json) (f : frame) :
  Spec.outcome P (m f) ->
  Spec.outcome P (try_except m (handler rt e) f).
Proof.
  unfold try_except. destruct (m f) as [[ex | v] f'] eqn:Hm; [| tauto].
  intros [Hc _]. now apply handler_outcome.
Qed.

Lemma check_and_fetch_outcome (tn date : json) (f : frame) :
  Spec.cache_all P (shared f) ->
  Spec.outcome P (try_except (check_and_fetch rt e tn date) (handler rt e) f).
Proof.
  intros Hc. apply under_handler. unfold check_and_fetch.
  destruct (Py.truthy tn); cbn [negb]; [| now apply error_outcome].
  destruct tn; try (split; [exact Hc | exact I]).
  destruct (Str.re_match_train s); cbn [negb];
    [now apply lookup_outcome | now apply error_outcome].
Qed.

Lemma body_outcome (input_data : py_input) (st : state) :
  Spec.cache_all P st ->
  Spec.outcome P (try_except (body rt e input_data) (handler rt e)
                    (Frame st None None)).
Proof.
  intros Hc.
  assert (Hh : forall ex f, shared f = st -> Spec.outcome P (handler rt e ex f)).
  { intros ex f <-. now apply handler_outcome. }
  unfold body.
  destruct (parse_input rt input_data) as [early | parsed] eqn:Hparse.
  { destruct (parse_input_early _ _ _ Hparse) as [msg ->].
    now apply (error_outcome msg (Frame st None None)). }
  rewrite try_except_bind. unfold lift at 1.
  destruct (contains_valid parsed) as [ex | has_valid]; [now apply Hh |].
  destruct has_valid.
  - rewrite try_except_bind. unfold lift at 1.
    destruct (method_get parsed "valid" (JBool false)) as [ex | valid];
      [now apply Hh |].
    destruct (Py.truthy valid); cbn [negb].
    + rewrite try_except_bind. unfold lift at 1.
      destruct (method_get parsed "train_number" (JStr EmptyString)) as [ex | tn];
        [now apply Hh |].
      rewrite try_except_bind. unfold set_train_number at 1. cbn [shared v_date].
      rewrite try_except_bind. unfold lift at 1.
      destruct (method_get parsed "date" JNull) as [ex | date]; [now apply Hh |].
      rewrite try_except_bind. unfold set_date at 1. cbn [shared v_train_number].
      now apply check_and_fetch_outcome.
    + rewrite try_except_bind. unfold lift at 1.
      destruct (method_get parsed "error" _) as [ex | msg]; [now apply Hh |].
      now apply (error_outcome msg (Frame st None None)).
  - rewrite try_except_bind. unfold lift at 1.
    destruct (method_get parsed "train_number" (JStr EmptyString)) as [ex | raw];
      [now apply Hh |].
    rewrite try_except_bind. unfold set_train_number at 1. cbn [shared v_date].
    rewrite try_except_bind. unfold lift at 1.
    destruct (method_get parsed "date" JNull) as [ex | date]; [now apply Hh |].
    rewrite try_except_bind. unfold set_date at 1. cbn [shared v_train_number].
    now apply check_and_fetch_outcome.
Qed.

End FetchInvariant.

Section FetchedRecords.

Import RailwayAPITool.

Lemma fetched_mock (rt : PyRuntime) (e : env) (actual : datetime) (tn : json)
    (ctx : string) :
  Spec.fetched_record (mock_record rt e actual tn ctx).
Proof.
  split; [reflexivity |]. split; [| split].
  - eexists. reflexivity.
  - eexists _, _. split; reflexivity.
  - now right.
Qed.

Lemma fetched_live (rt : PyRuntime) (e : env) (tn : string) (info : dict) :
  Spec.live_shape rt e tn info -> map fst info = Spec.record_keys ->
  Spec.fetched_record info.
Proof.
  intros (_ & _ & _ & Hlat & Hlon & Hup & _ & Hsrc & _) Hkeys.
  split; [| split; [| split]].
  - rewrite (status_record_keys info (initial_train_info rt e tn)); [reflexivity |].
    now rewrite Hkeys.
  - exists []. exact Hup.
  - exists 0%Q, 0%Q. now split.
  - now left.
Qed.

Lemma fetched_source (v : json) (d : dict) :
  Spec.fetched_record d -> Spec.fetched_record (Py.dict_set "source" v d).
Proof.
  intros (Hrec & Hup & Hpos & Hsrc). unfold Spec.fetched_record.
  rewrite !dict_get_set_other by discriminate.
  split; [now apply status_record_source |]. now repeat split.
Qed.

(** The fetcher keeps its records well formed, with or without the
    clock in range. *)
Lemma run_fetched (rt : PyRuntime) (e : env) (input_data : py_input) (st : state) :
  Spec.cache_all Spec.fetched_record st ->
  Spec.outcome Spec.fetched_record
    (try_except (body rt e input_data) (handler rt e) (Frame st None None)).
Proof.
  apply body_outcome. apply fetched_mock.
Qed.

End FetchedRecords.

Section FetchedRecordsResults.

Import RailwayAPITool.

(** X20. The records of the fetcher stay well formed over its calls:
    if every cached dictionary is a status record with a list of texts
    as upcoming stations, floats as coordinates and the web search or
    the mock data as [data_source], then after any call this is so
    again, and what the call returned is an error record of one key or
    such a record. In particular [data_source] never says "cache": a
    hit is marked under the key [source] only. *)
Theorem fetcher_keeps_records_well_formed (rt : PyRuntime) (e : env)
    (input_data : py_input) (st : state) :
  Spec.cache_all Spec.fetched_record st ->
  let '(result, st') := _run rt e input_data st in
  Spec.cache_all Spec.fetched_record st'
  /\ forall v, result = inr v ->
       exists record,
         v = JDict record
         /\ ((exists msg, record = [("error", msg)])
             \/ (Spec.fetched_record record
                 /\ Py.dict_get "data_source" record <> Some (JStr "cache"))).
Proof.
  intros Hc. pose proof (run_fetched rt e input_data st Hc) as [Hc' Hres].
  unfold _run. destruct (try_except _ _ _) as [result f]. cbn [fst snd] in *.
  split; [exact Hc' |]. intros v ->.
  destruct Hres as (record & -> & [Herr | Hrec]).
  - exists record. split; [reflexivity | now left].
  - exists record. split; [reflexivity |]. right. split; [exact Hrec |].
    destruct Hrec as (_ & _ & _ & [-> | ->]); discriminate.
Qed.

Lemma fetcher_keeps_records_well_formed_witness :
  let '(result, st') :=
    _run Runtime.reference (Examples.online 1000) Examples.validated
         Examples.empty_state in
  Spec.cache_all Spec.fetched_record st'
  /\ forall v, result = inr v ->
       exists record,
         v = JDict record
         /\ ((exists msg, record = [("error", msg)])
             \/ (Spec.fetched_record record
                 /\ Py.dict_get "data_source" record <> Some (JStr "cache"))).
Proof.
  apply (fetcher_keeps_records_well_formed Runtime.reference (Examples.online 1000)
           Examples.validated Examples.empty_state).
  intros key cached ts. cbn. rewrite lookup_empty. discriminate.
Defined.

End FetchedRecordsResults.

(** ** The tools in a row *)

Section Rows.

Import DataProcessingTool.

Lemma valid_number_matches (rt : PyRuntime) (today : Z) (tn date : json)
    (n d m : string) :
  TrainValidationTool._run rt today tn date = TrainValidationTool.Valid n d m ->
  Str.re_match_train n = true.
Proof.
  unfold TrainValidationTool._run, TrainValidationTool._format_error.
  destruct (Str.re_match_train (Str.strip (py_str rt tn))) eqn:Hm;
    cbn [negb]; [| discriminate].
  destruct (Py.truthy date).
  - destruct (strptime_ymd rt _); [| discriminate].
    destruct (_ <? _)%Z; [discriminate |].
    destruct (_ <? _)%Z; [discriminate |].
    destruct (_ >? _)%Z; [discriminate |].
    now intros [= <- _ _].
  - now intros [= <- _ _].
Qed.

Lemma texts_cases (l : list json) :
  (forallb Spec.is_text l = true /\ exists ts, ResponseGeneratorTool.texts l = inr ts)
  \/ (forallb Spec.is_text l = false
      /\ exists v, In v l /\ Spec.is_text v = false
                   /\ ResponseGeneratorTool.texts l
                      = inl (ResponseGeneratorTool.NotText v)).
Proof.
  induction l as [| v l IH]; [left; split; [reflexivity | now exists []] |].
  destruct v; try (right; split; [reflexivity |]; eexists;
                   split; [now left | split; reflexivity]).
  cbn [forallb Spec.is_text ResponseGeneratorTool.texts andb].
  destruct IH as [[Hall [ts Hts]] | [Hall (v & Hin & Hv & Hts)]]; rewrite Hts.
  - left. split; [exact Hall | now eexists].
  - right. split; [exact Hall |]. exists v. split; [now right | now split].
Qed.

Section Formatter.

Context (rt : PyRuntime) (glyph : emoji -> string)
        (icon_text : ResponseGeneratorTool.icon -> string)
        (failure_text : ResponseGeneratorTool.failure -> string)
        (strftime_hm : datetime -> string).

(** The formatter on a normalised record: it fails on a station
    that is not text and on nothing else. *)
Lemma format_normalised (p : processed_data) :
  let out := ResponseGeneratorTool._run rt glyph icon_text failure_text
               strftime_hm (InObj (JDict (to_json glyph p))) in
  (forallb Spec.is_text (firstn 3 (next_stations p)) = true
   /\ exists message,
        out = ResponseGeneratorTool.Response message
                {| ResponseGeneratorTool.train :=
                     py_str rt (train_info_name p) ++ " (#"
                     ++ py_str rt (train_info_number p) ++ ")";
                   ResponseGeneratorTool.status := JStr (status_category p);
                   ResponseGeneratorTool.delay := JInt (status_delay_minutes p);
                   ResponseGeneratorTool.location := current_location_station p;
                   ResponseGeneratorTool.reliability := JFloat (reliability_score p);
                   ResponseGeneratorTool.data_source := data_source p |}
                (to_json glyph p))
  \/ (forallb Spec.is_text (firstn 3 (next_stations p)) = false
      /\ exists v,
           In v (firstn 3 (next_stations p)) /\ Spec.is_text v = false
           /\ out = ResponseGeneratorTool.Failed
                      (icon_text ResponseGeneratorTool.IconCross
                       ++ " Response generation failed: "
                       ++ failure_text (ResponseGeneratorTool.NotText v))
                      (failure_text (ResponseGeneratorTool.NotText v))).
Proof.
  cbv zeta. unfold ResponseGeneratorTool._run.
  assert (Herr : Py.dict_get "error" (to_json glyph p) = None)
    by (unfold to_json; destruct (note p); reflexivity).
  rewrite Herr. unfold ResponseGeneratorTool.generate.
  assert (Hget : forall k v d, Py.dict_get k (to_json glyph p) = Some v ->
            Py.get_or k d (to_json glyph p) = v).
  { intros k v d H. unfold Py.get_or. now rewrite H. }
  rewrite (Hget "train_info" (JDict [("number", train_info_number p);
                                     ("name", train_info_name p)]))
    by reflexivity.
  rewrite (Hget "status"
             (JDict [("category", JStr (status_category p));
                     ("emoji", JStr (glyph (status_emoji p)));
                     ("delay_minutes", JInt (status_delay_minutes p));
                     ("delay_text", JStr (status_delay_text p))]))
    by reflexivity.
  rewrite (Hget "current_location"
             (JDict [("station", current_location_station p);
                     ("lat", current_location_lat p);
                     ("lon", current_location_lon p)]))
    by reflexivity.
  rewrite (Hget "next_stations" (JList (next_stations p))) by reflexivity.
  rewrite (Hget "timing"
             (JDict [("scheduled_arrival", timing_scheduled_arrival p);
                     ("actual_arrival", timing_actual_arrival p);
                     ("last_updated", timing_last_updated p)]))
    by reflexivity.
  rewrite (Hget "reliability_score" (JFloat (reliability_score p)))
    by reflexivity.
  rewrite (Hget "data_source" (data_source p)) by reflexivity.
  unfold ResponseGeneratorTool.get at 1 2 3 4 5 6.
  cbn [Py.get_or Py.dict_get String.eqb Ascii.eqb Bool.eqb
       mbind ResponseGeneratorTool.failure_bind].
  unfold ResponseGeneratorTool.joined_stations.
  destruct (next_stations p) as [| v0 l0] eqn:Hnext.
  - left. split; [reflexivity |].
    cbn [Py.truthy negb mbind ResponseGeneratorTool.failure_bind
         ResponseGeneratorTool.reliability_emoji Py.number_of
         ResponseGeneratorTool.get Py.get_or Py.dict_get
         String.eqb Ascii.eqb Bool.eqb mret ResponseGeneratorTool.failure_ret].
    eexists. reflexivity.
  - rewrite <- Hnext. replace (Py.truthy (JList (next_stations p))) with true
      by (rewrite Hnext; reflexivity).
    cbn [negb].
    destruct (texts_cases (firstn 3 (next_stations p)))
      as [[Hall [ts Hts]] | [Hall (v & Hin & Hv & Hts)]]; rewrite Hts.
    + left. split; [exact Hall |].
      cbn [mbind ResponseGeneratorTool.failure_bind
           ResponseGeneratorTool.reliability_emoji Py.number_of
           ResponseGeneratorTool.get Py.get_or Py.dict_get
           String.eqb Ascii.eqb Bool.eqb mret ResponseGeneratorTool.failure_ret].
      eexists. reflexivity.
    + right. split; [exact Hall |]. exists v.
      split; [exact Hin |]. split; [exact Hv | reflexivity].
Qed.

End Formatter.

End Rows.

Section RowsResults.

Import DataProcessingTool.

Lemma forallb_firstn {A} (f : A -> bool) (n : nat) (l : list A) :
  forallb f l = true -> forallb f (firstn n l) = true.
Proof.
  revert n. induction l as [| x l IH]; intros [| n]; try reflexivity.
  cbn [forallb firstn]. intros H. apply andb_true_iff in H as [-> H].
  now rewrite IH.
Qed.

Lemma forallb_texts (l : list string) : forallb Spec.is_text (map JStr l) = true.
Proof. induction l as [| x l IH]; [reflexivity | exact IH]. Qed.

Lemma process_record_fields (rt : PyRuntime) (now : datetime) (raw_data : dict) :
  next_stations (process rt now raw_data)
  = firstn 3 (match Py.get_or "upcoming_stations" (JList []) raw_data with
              | JList l => l
              | _ => []
              end)
  /\ data_source (process rt now raw_data)
     = Py.get_or "data_source" (JStr "unknown") raw_data
  /\ current_location_lat (process rt now raw_data)
     = Py.get_or "current_lat" (JFloat 0) raw_data
  /\ current_location_lon (process rt now raw_data)
     = Py.get_or "current_lon" (JFloat 0) raw_data.
Proof.
  unfold process. cbv zeta. destruct (delay_status rt _ _) as [d [c em]].
  repeat split.
Qed.

(** X21. The validator's answer handed to the fetcher. A rejection is
    forwarded: the fetcher returns the error record with the validator's
    message and touches nothing. An acceptance passes the checks of the
    fetcher with the same train number and date, the cache key is the
    train number, an underscore and the date, and for today's date the
    search query carries no date. *)
Theorem validator_then_fetch (rt : PyRuntime) (today : Z)
    (e : RailwayAPITool.env) (tn date : json) (st : RailwayAPITool.state) :
  let validated := TrainValidationTool._run rt today tn date in
  let input_data := InObj (JDict (TrainValidationTool.to_json validated)) in
  match validated with
  | TrainValidationTool.Invalid err =>
      RailwayAPITool._run rt e input_data st
      = (inr (RailwayAPITool.error_record (JStr err)), st)
  | TrainValidationTool.Valid n d m =>
      Spec.selects rt input_data n (JStr d)
      /\ RailwayAPITool.cache_key rt n (JStr d)
         = n ++ "_" ++ (if Str.is_empty d then "today" else d)
      /\ (d = RailwayAPITool.today_text rt e ->
          RailwayAPITool.search_query rt e n (JStr d)
          = "train " ++ n
            ++ " live status running status current location indian railway")
  end.
Proof.
  cbv zeta.
  destruct (TrainValidationTool._run rt today tn date) as [n d m | err] eqn:Hv.
  - pose proof (valid_number_matches rt today tn date n d m Hv) as Hm.
    split; [| split].
    + eexists. split; [reflexivity |]. split; [exact Hm |].
      split; [reflexivity |]. left. repeat split.
    + unfold RailwayAPITool.cache_key, Py.or_else. cbn [Py.truthy].
      now destruct d.
    + intros ->. unfold RailwayAPITool.search_query, Py.eq_str.
      rewrite String.eqb_refl. now rewrite andb_false_r.
  - apply (run_invalid rt e _
             (TrainValidationTool.to_json (TrainValidationTool.Invalid err))
             (JBool false)); reflexivity.
Qed.

(** X22. The formatter on what the normaliser made: it answers with
    [success] true exactly when the first three next stations are all
    text, the summary then repeats the category, the delay, the station,
    the reliability score and the data source of the record, and the
    record is returned whole; otherwise the failure is the item that
    [join] refused. Nothing else in a normalised record can make the
    formatter fail. *)
Theorem formatter_on_normalised (rt : PyRuntime) (glyph : emoji -> string)
    (icon_text : ResponseGeneratorTool.icon -> string)
    (failure_text : ResponseGeneratorTool.failure -> string)
    (strftime_hm : datetime -> string) (p : processed_data) :
  let out := ResponseGeneratorTool._run rt glyph icon_text failure_text
               strftime_hm (InObj (JDict (to_json glyph p))) in
  Spec.succeeded out = forallb Spec.is_text (firstn 3 (next_stations p))
  /\ (forall message summary response_data,
        out = ResponseGeneratorTool.Response message summary response_data ->
        ResponseGeneratorTool.status summary = JStr (status_category p)
        /\ ResponseGeneratorTool.delay summary = JInt (status_delay_minutes p)
        /\ ResponseGeneratorTool.location summary = current_location_station p
        /\ ResponseGeneratorTool.reliability summary = JFloat (reliability_score p)
        /\ ResponseGeneratorTool.data_source summary = data_source p
        /\ response_data = to_json glyph p)
  /\ (Spec.succeeded out = false ->
      exists v,
        In v (firstn 3 (next_stations p)) /\ Spec.is_text v = false
        /\ out = ResponseGeneratorTool.Failed
                   (icon_text ResponseGeneratorTool.IconCross
                    ++ " Response generation failed: "
                    ++ failure_text (ResponseGeneratorTool.NotText v))
                   (failure_text (ResponseGeneratorTool.NotText v))).
Proof.
  cbv zeta.
  destruct (format_normalised rt glyph icon_text failure_text strftime_hm p)
    as [[Hall [message Hout]] | [Hall (v & Hin & Hv & Hout)]];
    cbv zeta in Hout; rewrite Hout, Hall.
  - split; [reflexivity |]. split; [| discriminate].
    intros message' summary response_data [= _ <- <-]. repeat split.
  - split; [reflexivity |]. split; [discriminate |].
    intros _. exists v. now repeat split.
Qed.

(** X23. The four tools of the sequential process in a row, each
    taking the dictionary that the one before returned, with the clock
    in range and a cache of well-formed records. The row always ends in
    an answer of the formatter. When the validator rejects, the answer
    is the refusal that carries the validator's message, and nothing was
    searched or cached. When it accepts, the answer has [success] true,
    whether the data came from the search, from the cache or from the
    mock fallback, and its summary names the web search or the mock data
    as the source, never the cache. *)
Theorem end_to_end (rt : PyRuntime) (glyph : emoji -> string)
    (icon_text : ResponseGeneratorTool.icon -> string)
    (failure_text : ResponseGeneratorTool.failure -> string)
    (strftime_hm : datetime -> string)
    (today : Z) (e : RailwayAPITool.env) (now : datetime)
    (tn date : json) (st : RailwayAPITool.state) :
  Spec.env_ok e -> Spec.cache_all Spec.fetched_record st ->
  exists out st',
    Spec.pipeline rt glyph icon_text failure_text strftime_hm
      today e now tn date st = (inr out, st')
    /\ Spec.cache_all Spec.fetched_record st'
    /\ match TrainValidationTool._run rt today tn date with
       | TrainValidationTool.Invalid err =>
           out = ResponseGeneratorTool.Refused
                   (icon_text ResponseGeneratorTool.IconCross
                    ++ " Error: " ++ err) (JStr err)
           /\ st' = st
       | TrainValidationTool.Valid n d m =>
           exists message summary response_data,
             out = ResponseGeneratorTool.Response message summary response_data
             /\ (ResponseGeneratorTool.data_source summary = JStr "web_search"
                 \/ ResponseGeneratorTool.data_source summary = JStr "mock_data")
       end.
Proof.
  intros He Hc. unfold Spec.pipeline.
  destruct (TrainValidationTool._run rt today tn date) as [n d m | err] eqn:Hv.
  - pose proof (valid_number_matches rt today tn date n d m Hv) as Hm.
    set (input_data := InObj (JDict (TrainValidationTool.to_json
                                       (TrainValidationTool.Valid n d m)))).
    assert (Hsel : Spec.selects rt input_data n (JStr d)).
    { eexists. split; [reflexivity |]. split; [exact Hm |].
      split; [reflexivity |]. left. repeat split. }
    destruct (run_selected_mock rt e input_data n (JStr d) st Hsel He)
      as (actual & _ & Hrun).
    rewrite Hrun.
    set (record := RailwayAPITool.mock_record rt e actual (JStr n)
                     ("API tool failed: "
                      ++ exn_text rt (NoClassAttribute "cache"))).
    assert (Hrec : Spec.status_record record = true) by reflexivity.
    assert (Hfetched : Spec.fetched_record record) by apply fetched_mock.
    eexists _, _. split; [reflexivity |]. split; [exact Hc |].
    destruct Hfetched as (_ & [stations Hup] & _ & Hsrc).
    unfold Spec.present, _run.
    pose proof (status_not_error record Hrec) as Hno.
    unfold Spec.error_record, Py.dict_has in Hno.
    destruct (Py.dict_get "error" record); [discriminate |].
    cbn [output_json].
    destruct (process_record_fields rt now record) as (Hnext & Hds & _).
    destruct (format_normalised rt glyph icon_text failure_text strftime_hm
                (process rt now record))
      as [[Hall [message Hout]] | [Hall _]]; cbv zeta in *.
    + rewrite Hout. eexists _, _, _. split; [reflexivity |].
      cbn [ResponseGeneratorTool.data_source]. rewrite Hds. unfold Py.get_or.
      destruct Hsrc as [-> | ->]; [now left | now right].
    + exfalso. rewrite Hnext in Hall. unfold Py.get_or in Hall.
      rewrite Hup in Hall.
      rewrite forallb_firstn in Hall by apply forallb_firstn, forallb_texts.
      discriminate.
  - rewrite (run_invalid rt e
               (InObj (JDict (TrainValidationTool.to_json
                                (TrainValidationTool.Invalid err))))
               (TrainValidationTool.to_json (TrainValidationTool.Invalid err))
               (JBool false) st eq_refl eq_refl eq_refl).
    eexists _, _. split; [reflexivity |]. split; [exact Hc |].
    split; reflexivity.
Qed.

Lemma end_to_end_witness :
  (exists st',
      Spec.pipeline Runtime.reference (fun _ => "*") (fun _ => "*")
        (fun _ => "error") (fun _ => "12:00 on 2024-01-01") 738886
        (Examples.offline 1000 Examples.draws_a) Examples.noon
        (JStr "'12345'") JNull Examples.empty_state
      = (inr (ResponseGeneratorTool.Refused
                "* Error: Train number must be exactly 5 digits"
                (JStr "Train number must be exactly 5 digits")), st')
      /\ st' = Examples.empty_state)
  /\ (exists message summary response_data st',
        Spec.pipeline Runtime.reference (fun _ => "*") (fun _ => "*")
          (fun _ => "error") (fun _ => "12:00 on 2024-01-01") 738886
          (Examples.offline 1000 Examples.draws_a) Examples.noon
          (JStr " 12345 ") JNull Examples.empty_state
        = (inr (ResponseGeneratorTool.Response message summary response_data), st')
        /\ (ResponseGeneratorTool.data_source summary = JStr "web_search"
            \/ ResponseGeneratorTool.data_source summary = JStr "mock_data")).
Proof.
  assert (He : Spec.env_ok (Examples.offline 1000 Examples.draws_a))
    by (vm_compute; repeat split; discriminate).
  assert (Hc : Spec.cache_all Spec.fetched_record Examples.empty_state)
    by (intros key cached ts; cbn; rewrite lookup_empty; discriminate).
  split.
  - destruct (end_to_end Runtime.reference (fun _ => "*") (fun _ => "*")
                (fun _ => "error") (fun _ => "12:00 on 2024-01-01") 738886
                (Examples.offline 1000 Examples.draws_a) Examples.noon
                (JStr "'12345'") JNull Examples.empty_state He Hc)
      as (out & st' & Hrun & _ & Hout).
    assert (Hv : TrainValidationTool._run Runtime.reference 738886
                   (JStr "'12345'") JNull
                 = TrainValidationTool.Invalid
                     "Train number must be exactly 5 digits")
      by reflexivity.
    rewrite Hv in Hout. destruct Hout as [-> ->].
    exists Examples.empty_state. split; [exact Hrun | reflexivity].
  - destruct (end_to_end Runtime.reference (fun _ => "*") (fun _ => "*")
                (fun _ => "error") (fun _ => "12:00 on 2024-01-01") 738886
                (Examples.offline 1000 Examples.draws_a) Examples.noon
                (JStr " 12345 ") JNull Examples.empty_state He Hc)
      as (out & st' & Hrun & _ & Hout).
    assert (Hv : TrainValidationTool._run Runtime.reference 738886
                   (JStr " 12345 ") JNull
                 = TrainValidationTool.Valid "12345" "2024-01-01"
                     "Train 12345 validated successfully for 2024-01-01")
      by reflexivity.
    rewrite Hv in Hout.
    destruct Hout as (message & summary & response_data & -> & Hsource).
    exists message, summary, response_data, st'.
    split; [exact Hrun | exact Hsource].
Defined.

Section Position.

Import GeospatialTool.

Lemma locate_normalised (rt : PyRuntime) (glyph : emoji -> string)
    (now : datetime) (raw_data : dict) (lat lon : Q) :
  Py.dict_get "current_lat" raw_data = Some (JFloat lat) ->
  Py.dict_get "current_lon" raw_data = Some (JFloat lon) ->
  GeospatialTool._run rt
    (InObj (JDict (to_json glyph (process rt now raw_data))))
  = if within (-90) 90 lat && within (-180) 180 lon
    then Report (JFloat lat) (JFloat lon) None (_get_region_info lat lon)
    else GeospatialTool.Error "Invalid current coordinates".
Proof.
  intros Hlat Hlon.
  destruct (process_record_fields rt now raw_data) as (_ & _ & Hplat & Hplon).
  unfold Py.get_or in Hplat, Hplon. rewrite Hlat in Hplat. rewrite Hlon in Hplon.
  unfold GeospatialTool._run, locate.
  assert (Hloc : Py.dict_get "current_location"
                   (to_json glyph (process rt now raw_data))
                 = Some (JDict [("station",
                                 current_location_station (process rt now raw_data));
                                ("lat", JFloat lat); ("lon", JFloat lon)]))
    by (unfold to_json; cbn [Py.dict_get String.eqb Ascii.eqb Bool.eqb
                              List.app];
        now rewrite Hplat, Hplon).
  rewrite Hloc.
  assert (Htarget : forall k, k = "target_lat" \/ k = "target_lon" ->
            Py.get_or k JNull (to_json glyph (process rt now raw_data)) = JNull).
  { intros k [-> | ->]; unfold Py.get_or, to_json;
      destruct (note (process rt now raw_data)); reflexivity. }
  rewrite !Htarget by tauto.
  cbn [Py.get_or Py.dict_get String.eqb Ascii.eqb Bool.eqb check Py.number_of
       is_none orb].
  destruct (within (-90) 90 lat); cbn [negb andb]; [| reflexivity].
  destruct (within (-180) 180 lon); reflexivity.
Qed.

End Position.

End RowsResults.

Section PositionResults.

Import DataProcessingTool GeospatialTool.

(** X24. Where the geospatial tool places what the fetcher returned.
    On the normalised form of a raw record with float coordinates it
    reports the region of these coordinates, without a target, or
    refuses coordinates out of range. A record read from search results
    is placed at (0.0, 0.0): northern and eastern hemisphere, no region
    and no state. A position inside the ranges from which the mock data
    draws, latitudes 8 to 37 and longitudes 68 to 97, is always in the
    Indian Subcontinent. *)
Theorem fetched_position_region (rt : PyRuntime) (glyph : emoji -> string)
    (now : datetime) (raw_data : dict) (lat lon : Q) :
  Py.dict_get "current_lat" raw_data = Some (JFloat lat) ->
  Py.dict_get "current_lon" raw_data = Some (JFloat lon) ->
  let out := GeospatialTool._run rt
               (InObj (JDict (to_json glyph (process rt now raw_data)))) in
  (Spec.in_box (-90) 90 (-180) 180 lat lon ->
   out = Report (JFloat lat) (JFloat lon) None (_get_region_info lat lon))
  /\ (~ Spec.in_box (-90) 90 (-180) 180 lat lon ->
      out = GeospatialTool.Error "Invalid current coordinates")
  /\ (forall e tn, Spec.live_shape rt e tn raw_data ->
        out = Report (JFloat 0) (JFloat 0) None
                {| hemisphere := "Northern";
                   longitude_zone := "Eastern";
                   region := None;
                   likely_state := None |})
  /\ (Spec.in_box 8 37 68 97 lat lon ->
      exists info,
        out = Report (JFloat lat) (JFloat lon) None info
        /\ hemisphere info = "Northern"
        /\ longitude_zone info = "Eastern"
        /\ region info = Some "Indian Subcontinent").
Proof.
  intros Hlat Hlon. cbv zeta.
  rewrite (locate_normalised rt glyph now raw_data lat lon Hlat Hlon).
  split; [| split; [| split]].
  - intros Hin. apply box_spec in Hin. now rewrite Hin.
  - intros Hout. now rewrite box_false.
  - intros e tn (_ & _ & _ & Hlat0 & Hlon0 & _).
    rewrite Hlat in Hlat0. rewrite Hlon in Hlon0.
    injection Hlat0 as ->. injection Hlon0 as ->. reflexivity.
  - intros Hin.
    assert (Hworld : Spec.in_box (-90) 90 (-180) 180 lat lon)
      by (unfold Spec.in_box in *; split; Lqa.lra).
    apply box_spec in Hworld. rewrite Hworld.
    eexists. split; [reflexivity |].
    unfold _get_region_info.
    pose proof Hin as Hbox. apply box_spec in Hin.
    assert (Hindia : within 6 37 lat && within 68 97 lon = true)
      by (apply box_spec; unfold Spec.in_box in *; split; Lqa.lra).
    rewrite Hindia. cbn [hemisphere longitude_zone region].
    assert (Hn : Qle_bool 0 lat = true)
      by (apply Qle_bool_iff; unfold Spec.in_box in Hbox; Lqa.lra).
    assert (He : Qle_bool 0 lon = true)
      by (apply Qle_bool_iff; unfold Spec.in_box in Hbox; Lqa.lra).
    now rewrite Hn, He.
Qed.

Lemma fetched_position_region_witness :
  GeospatialTool._run Runtime.reference
    (InObj (JDict (to_json (fun _ => "*")
                     (process Runtime.reference Examples.noon
                        (RailwayAPITool.mock_record Runtime.reference
                           (Examples.offline 1000 Examples.draws_a)
                           (Datetime 63839708400000000 None) (JStr "12345")
                           "Search failed: Missing API key")))))
  = Report (JFloat 12.5) (JFloat 77.25) None (_get_region_info 12.5 77.25).
Proof.
  destruct (fetched_position_region Runtime.reference (fun _ => "*") Examples.noon
              (RailwayAPITool.mock_record Runtime.reference
                 (Examples.offline 1000 Examples.draws_a)
                 (Datetime 63839708400000000 None) (JStr "12345")
                 "Search failed: Missing API key")
              12.5 77.25 eq_refl eq_refl) as [Hin _].
  apply Hin. unfold Spec.in_box. split; Lqa.lra.
Defined.

End PositionResults.

Section CrewResult.

Import RailwayStatusCrew.

(** X25. The crew reports success for every result that it can read.
    Given the dictionary of any answer of the formatter, or a text that
    decodes to it, [_process_crew_result] answers with [success] true
    and the dictionary as data: a refusal or a failure of the formatter,
    whose own [success] is false, is reported as a success with the
    formatter's message, and an error dictionary of the formatter, which
    has no message, with the message that the train status was
    retrieved. *)
Theorem crew_reports_success (rt : PyRuntime)
    (glyph : DataProcessingTool.emoji -> string)
    (icon_text : ResponseGeneratorTool.icon -> string)
    (failure_text : ResponseGeneratorTool.failure -> string)
    (strftime_hm : datetime -> string)
    (now : datetime) (input_data : py_input) :
  let out := ResponseGeneratorTool._run rt glyph icon_text failure_text
               strftime_hm input_data in
  let payload := ResponseGeneratorTool.output_json out in
  let r := _process_crew_result rt now (JDict payload) in
  success r = true
  /\ data r = payload
  /\ (forall s, json_loads rt s = Some (JDict payload) ->
        success (_process_crew_result rt now (JStr s)) = true
        /\ data (_process_crew_result rt now (JStr s)) = payload)
  /\ match out with
     | ResponseGeneratorTool.Error _ =>
         message r = JStr "Train status retrieved successfully"
         /\ Py.dict_get "success" payload = None
     | ResponseGeneratorTool.Refused m _ | ResponseGeneratorTool.Failed m _ =>
         message r = JStr m
         /\ Py.dict_get "success" payload = Some (JBool false)
     | ResponseGeneratorTool.Response m _ _ =>
         message r = JStr m
         /\ Py.dict_get "success" payload = Some (JBool true)
     end.
Proof.
  cbv zeta. split; [reflexivity |]. split; [reflexivity |]. split.
  - intros s Hs. unfold _process_crew_result. rewrite Hs. split; reflexivity.
  - destruct (ResponseGeneratorTool._run rt glyph icon_text failure_text
                strftime_hm input_data); split; reflexivity.
Qed.

End CrewResult.

(** ** The delay text *)

Section DelayText.

Import DataProcessingTool.

Lemma all_digits_app (a b : string) :
  Str.all_digits (a ++ b) = Str.all_digits a && Str.all_digits b.
Proof.
  induction a as [| c a IH]; [reflexivity |].
  change (String c a ++ b) with (String c (a ++ b)).
  cbn [Str.all_digits]. now rewrite IH, andb_assoc.
Qed.

Lemma pretty_char_digit (x : N) : Str.is_digit (pretty_N_char x) = true.
Proof.
  unfold pretty_N_char.
  destruct x as [| p]; [reflexivity |].
  do 4 (destruct p as [p | p |]; try reflexivity).
Qed.

(** The digits of a number, written before an accumulator. *)
Lemma pretty_go_app (x : N) (s : string) :
  pretty_N_go x s = pretty_N_go x EmptyString ++ s
  /\ Str.all_digits (pretty_N_go x EmptyString) = true.
Proof.
  revert s. induction (N.lt_wf_0 x) as [x _ IH]. intros s.
  destruct (N.eq_dec x 0) as [-> | Hx].
  - rewrite !pretty_N_go_0. split; reflexivity.
  - assert (Hpos : (0 < x)%N) by lia.
    rewrite (pretty_N_go_step x s), (pretty_N_go_step x EmptyString)
      by exact Hpos.
    assert (Hlt : (x `div` 10 < x)%N) by (apply N.div_lt; lia).
    destruct (IH _ Hlt (String (pretty_N_char (x `mod` 10)) s)) as [Hs _].
    destruct (IH _ Hlt (String (pretty_N_char (x `mod` 10)) EmptyString))
      as [H1 Hd].
    rewrite Hs, H1. split.
    + rewrite append_assoc. reflexivity.
    + rewrite all_digits_app, Hd. cbn [Str.all_digits andb].
      now rewrite pretty_char_digit.
Qed.

Lemma pretty_digits (z : Z) :
  (0 <= z)%Z ->
  Str.all_digits (pretty z) = true /\ pretty z <> EmptyString.
Proof.
  intros Hz. destruct z as [| p | p]; [split; [reflexivity | discriminate] | | lia].
  change (pretty (Z.pos p)) with (pretty_N_go (N.pos p) EmptyString).
  split; [apply (pretty_go_app (N.pos p) EmptyString) |].
  intros Hempty. rewrite pretty_N_go_step in Hempty by lia.
  destruct (pretty_go_app (N.pos p `div` 10)
              (String (pretty_N_char (N.pos p `mod` 10)) EmptyString)) as [Heq _].
  rewrite Heq in Hempty.
  destruct (pretty_N_go (N.pos p `div` 10) EmptyString); discriminate.
Qed.

(** A run of digits before a text that does not begin with a digit is
    determined by the whole. *)
Lemma digits_prefix_unique (a b x y : string) :
  Str.all_digits a = true -> Str.all_digits b = true ->
  Spec.no_leading_digit x = true -> Spec.no_leading_digit y = true ->
  a ++ x = b ++ y -> a = b /\ x = y.
Proof.
  revert b. induction a as [| c a IH]; intros [| d b] Ha Hb Hx Hy H.
  - split; [reflexivity | exact H].
  - exfalso. change (EmptyString ++ x) with x in H. subst x.
    change (String d b ++ y) with (String d (b ++ y)) in Hx.
    cbn [Spec.no_leading_digit Str.all_digits] in *.
    apply andb_true_iff in Hb as [Hd _]. now rewrite Hd in Hx.
  - exfalso. change (EmptyString ++ y) with y in H. subst y.
    change (String c a ++ x) with (String c (a ++ x)) in Hy.
    cbn [Spec.no_leading_digit Str.all_digits] in *.
    apply andb_true_iff in Ha as [Hc _]. now rewrite Hc in Hy.
  - change (String c a ++ x) with (String c (a ++ x)) in H.
    change (String d b ++ y) with (String d (b ++ y)) in H.
    injection H as -> H. cbn [Str.all_digits] in Ha, Hb.
    apply andb_true_iff in Ha as [_ Ha]. apply andb_true_iff in Hb as [_ Hb].
    destruct (IH b Ha Hb Hx Hy H) as [-> ->]. split; reflexivity.
Qed.

Lemma pretty_prefix_unique (m n : Z) (x y : string) :
  (0 <= m)%Z -> (0 <= n)%Z ->
  Spec.no_leading_digit x = true -> Spec.no_leading_digit y = true ->
  pretty m ++ x = pretty n ++ y -> m = n /\ x = y.
Proof.
  intros Hm Hn Hx Hy H.
  destruct (pretty_digits m Hm) as [Hdm _].
  destruct (pretty_digits n Hn) as [Hdn _].
  destruct (digits_prefix_unique _ _ _ _ Hdm Hdn Hx Hy H) as [Hp ->].
  split; [| reflexivity]. now apply (inj pretty).
Qed.

(** The text of a late train: a number, and a rest that does not begin
    with a digit and that tells the form. *)
Lemma late_text (d : Z) :
  (0 < d)%Z ->
  exists n rest,
    _format_delay_text d = pretty n ++ rest
    /\ (0 <= n)%Z
    /\ Spec.no_leading_digit rest = true
    /\ ((rest = " minutes late" /\ d = n /\ (d < 60)%Z)
        \/ (rest = " hour late" /\ d = 60%Z /\ n = 1%Z)
        \/ (rest = " hours late" /\ d = (60 * n)%Z /\ (1 < n)%Z)
        \/ (exists m, rest = "h " ++ pretty m ++ "m late"
                      /\ d = (60 * n + m)%Z /\ (0 < m < 60)%Z /\ (0 < n)%Z)).
Proof.
  intros Hd. unfold _format_delay_text.
  destruct (Z.leb_spec d 0); [lia |].
  destruct (Z.ltb_spec d 60).
  - exists d, " minutes late". repeat split; try lia. left. repeat split; lia.
  - pose proof (Z.div_mod d 60 ltac:(lia)) as Hdm.
    pose proof (Z.mod_pos_bound d 60 ltac:(lia)) as Hmod.
    assert (Hq : (1 <= d / 60)%Z) by (apply Z.div_le_lower_bound; lia).
    destruct (Z.eqb_spec (d mod 60) 0) as [Hz | Hnz].
    + destruct (Z.gtb_spec (d / 60) 1).
      * exists (d / 60)%Z, " hours late". repeat split; try lia.
        right. right. left. repeat split; lia.
      * exists (d / 60)%Z, " hour late". repeat split; try lia.
        right. left. repeat split; lia.
    + exists (d / 60)%Z, ("h " ++ pretty (d mod 60)%Z ++ "m late").
      repeat split; try lia.
      right. right. right. exists (d mod 60)%Z. repeat split; lia.
Qed.

End DelayText.

Section DelayTextResults.

Import DataProcessingTool.

(** X26. The delay text loses nothing about a late train: two positive
    delays with the same text are the same number of minutes; and the
    text is "On time" exactly for the delays that are not positive. *)
Theorem delay_text_determines_delay (d d' : Z) :
  ((0 < d)%Z -> (0 < d')%Z ->
   _format_delay_text d = _format_delay_text d' -> d = d')
  /\ (_format_delay_text d = "On time" <-> (d <= 0)%Z).
Proof.
  split.
  - intros Hd Hd' Heq.
    destruct (late_text d Hd) as (n & rest & Ht & Hn & Hrest & Hform).
    destruct (late_text d' Hd') as (n' & rest' & Ht' & Hn' & Hrest' & Hform').
    rewrite Ht, Ht' in Heq.
    destruct (pretty_prefix_unique n n' rest rest' Hn Hn' Hrest Hrest' Heq)
      as [<- Hr].
    destruct Hform as [(-> & ? & ?) | [(-> & ? & ?) | [(-> & ? & ?) |
                       (m & -> & ? & ? & ?)]]];
      destruct Hform' as [(-> & ? & ?) | [(-> & ? & ?) | [(-> & ? & ?) |
                          (m' & -> & ? & ? & ?)]]];
      try discriminate Hr; try lia.
    cbv [String.append] in Hr. injection Hr as Hr.
    apply (pretty_prefix_unique m m' "m late" "m late") in Hr;
      [| lia | lia | reflexivity | reflexivity].
    destruct Hr as [-> _]. lia.
  - split.
    + intros Ht. destruct (Z.le_gt_cases d 0) as [Hle | Hgt]; [exact Hle |].
      exfalso.
      destruct (late_text d Hgt) as (n & rest & Ht' & Hn & _).
      rewrite Ht' in Ht.
      destruct (pretty_digits n Hn) as [Hdig Hne].
      destruct (pretty n) as [| c s]; [contradiction |].
      change (String c s ++ rest) with (String c (s ++ rest)) in Ht.
      injection Ht as -> _. discriminate Hdig.
    + intros Hle. unfold _format_delay_text.
      destruct (Z.leb_spec d 0); [reflexivity | lia].
Qed.

Lemma delay_text_determines_delay_witness :
  (_format_delay_text 90 = _format_delay_text 90 -> 90%Z = 90%Z)
  /\ (_format_delay_text 0 = "On time" <-> (0 <= 0)%Z).
Proof.
  destruct (delay_text_determines_delay 90 90) as [Hinj _].
  destruct (delay_text_determines_delay 0 0) as [_ Hon].
  split; [apply Hinj; lia | exact Hon].
Defined.

End DelayTextResults.

(** ** Plain text handed to the fetcher *)

Section FetchText.

Import RailwayAPITool.

(** X27. The fetcher on a text that is not JSON. Unless the text is
    wrapped in double quotes it is refused with "Invalid JSON format",
    even when it names a train. A wrapped text that is not JSON without
    its quotes either is searched for five decimal digits that stand on
    their own, no word character before or after them: the leftmost
    such group is taken as the train number of a validated request
    without a date; when the group is made of ASCII digits the request
    passes the checks and, with the clock in range, is answered by the
    mock record of the outer handler for that train. A text without
    such a group is refused with "Could not parse input data". (On the
    texts of the embedding, of characters below code point 256, every
    decimal digit is an ASCII digit.) *)
Theorem fetcher_on_plain_text (rt : PyRuntime) (e : env) (s : string) (st : state) :
  json_loads rt (Str.strip s) = None ->
  let wrapped :=
    Str.startswith Str.dquote (Str.strip s)
    && Str.endswith Str.dquote (Str.strip s) in
  (wrapped = false ->
   _run rt e (InStr s) st = (inr (error_record (JStr "Invalid JSON format")), st))
  /\ (wrapped = true ->
      json_loads rt (Str.slice_1_m1 (Str.strip s)) = None ->
      (forall pre m post,
          Spec.leftmost_group s pre m post ->
          parse_input rt (InStr s)
          = inr (JDict [("train_number", JStr m); ("valid", JBool true)])
          /\ (Str.five_digits m = true ->
              Spec.selects rt (InStr s) m JNull
              /\ (Spec.env_ok e ->
                  exists actual,
                    _run rt e (InStr s) st
                    = (inr (JDict (mock_record rt e actual (JStr m)
                                     ("API tool failed: "
                                      ++ exn_text rt (NoClassAttribute "cache")))),
                       st))))
      /\ ((forall pre m post,
             s = pre ++ m ++ post -> ~ Spec.stands_alone pre m post) ->
          _run rt e (InStr s) st
          = (inr (error_record (JStr "Could not parse input data")), st))).
Proof.
  intros Hjson. cbv zeta. split.
  - intros Hwrapped. unfold _run, try_except, body, parse_input.
    rewrite Hjson, Hwrapped. reflexivity.
  - intros Hwrapped Hinner. split.
    + intros pre m post Hleft.
      assert (Hsearch : Str.re_search_train s = Some m)
        by (apply search_train_leftmost; now exists pre, post).
      assert (Hparse : parse_input rt (InStr s)
                       = inr (JDict [("train_number", JStr m);
                                     ("valid", JBool true)])).
      { unfold parse_input. now rewrite Hjson, Hwrapped, Hinner, Hsearch. }
      split; [exact Hparse |]. intros Hfive.
      assert (Hsel : Spec.selects rt (InStr s) m JNull).
      { exists [("train_number", JStr m); ("valid", JBool true)].
        split; [exact Hparse |]. split; [| split].
        - unfold Str.re_match_train. now rewrite Hfive.
        - reflexivity.
        - left. repeat split. }
      split; [exact Hsel |]. intros He.
      destruct (run_selected_mock rt e (InStr s) m JNull st Hsel He)
        as (actual & _ & Hrun).
      now exists actual.
    + intros Hno. apply search_train_none in Hno.
      unfold _run, try_except, body, parse_input.
      rewrite Hjson, Hwrapped, Hinner, Hno. reflexivity.
Qed.

Lemma fetcher_on_plain_text_witness :
  _run Runtime.reference (Examples.online 1000) (InStr Examples.plain_words)
       Examples.empty_state
  = (inr (error_record (JStr "Invalid JSON format")), Examples.empty_state)
  /\ exists record,
       _run Runtime.reference (Examples.online 1000) (InStr Examples.quoted_words)
            Examples.empty_state
       = (inr (JDict record), Examples.empty_state)
       /\ Py.dict_get "train_number" record = Some (JStr "12345")
       /\ Py.dict_get "data_source" record = Some (JStr "mock_data").
Proof.
  assert (Hplain : json_loads Runtime.reference (Str.strip Examples.plain_words)
                   = None) by reflexivity.
  assert (Hquoted : json_loads Runtime.reference (Str.strip Examples.quoted_words)
                    = None) by reflexivity.
  destruct (fetcher_on_plain_text Runtime.reference (Examples.online 1000)
              Examples.plain_words Examples.empty_state Hplain) as [Hrefused _].
  destruct (fetcher_on_plain_text Runtime.reference (Examples.online 1000)
              Examples.quoted_words Examples.empty_state Hquoted) as [_ Htaken].
  split; [apply Hrefused; reflexivity |].
  assert (Hinner : json_loads Runtime.reference
                     (Str.slice_1_m1 (Str.strip Examples.quoted_words)) = None)
    by reflexivity.
  destruct (Htaken eq_refl Hinner) as [Hgroup _].
  assert (Hsearch : Str.re_search_train Examples.quoted_words = Some "12345")
    by reflexivity.
  apply search_train_leftmost in Hsearch as (pre & post & Hleft).
  assert (He : Spec.env_ok (Examples.online 1000))
    by (vm_compute; repeat split; discriminate).
  destruct (Hgroup pre "12345" post Hleft) as [_ Hdigits].
  destruct (Hdigits eq_refl) as [_ Hrun].
  destruct (Hrun He) as [actual Hmock].
  eexists. split; [exact Hmock |]. split; reflexivity.
Defined.

End FetchText.

(** ** The cleanup of a text input *)

Section Cleanup.

Import DataProcessingTool.

Lemma rstrip_keeps_end (t : string) (c : ascii) :
  Str.is_space c = false ->
  Str.rstrip (t ++ String c EmptyString) = t ++ String c EmptyString.
Proof.
  intros Hc. induction t as [| a t IH].
  - cbn [String.append Str.rstrip]. change (EmptyString ++ String c EmptyString)
      with (String c EmptyString). cbn [Str.rstrip]. now rewrite Hc.
  - change (String a t ++ String c EmptyString)
      with (String a (t ++ String c EmptyString)).
    cbn [Str.rstrip]. rewrite IH.
    destruct t; cbn [Str.is_empty]; now rewrite andb_false_r.
Qed.

Lemma drop_last_end (t : string) (c : ascii) :
  Str.drop_last (t ++ String c EmptyString) = t.
Proof.
  induction t as [| a t IH]; [reflexivity |].
  change (String a t ++ String c EmptyString)
    with (String a (t ++ String c EmptyString)).
  destruct t as [| b t].
  - reflexivity.
  - change (String b t ++ String c EmptyString)
      with (String b (t ++ String c EmptyString)) in *.
    change (Str.drop_last (String a (String b (t ++ String c EmptyString))))
      with (String a (Str.drop_last (String b (t ++ String c EmptyString)))).
    now rewrite IH.
Qed.

Lemma last_char_end (t : string) (c : ascii) :
  Str.last_char (t ++ String c EmptyString) = Some c.
Proof.
  induction t as [| a t IH]; [reflexivity |].
  change (String a t ++ String c EmptyString)
    with (String a (t ++ String c EmptyString)).
  destruct t as [| b t]; [reflexivity |].
  change (String b t ++ String c EmptyString)
    with (String b (t ++ String c EmptyString)) in *.
  exact IH.
Qed.

(** A text between double quotes and whitespace: [strip] leaves the
    quoted text, the slice takes the quotes off. *)
Lemma unwrap_quoted (pre body post : string) :
  Spec.all_space pre = true -> Spec.all_space post = true ->
  let cleaned := Str.strip (pre ++ Examples.quoted body ++ post) in
  cleaned = Examples.quoted body
  /\ Str.startswith Str.dquote cleaned && Str.endswith Str.dquote cleaned = true
  /\ Str.slice_1_m1 cleaned = body.
Proof.
  intros Hpre Hpost. cbv zeta.
  assert (Hstrip : Str.strip (pre ++ Examples.quoted body ++ post)
                   = Examples.quoted body).
  { unfold Str.strip. rewrite lstrip_spaces by exact Hpre.
    unfold Examples.quoted.
    change (String Str.dquote (body ++ String Str.dquote EmptyString) ++ post)
      with (String Str.dquote ((body ++ String Str.dquote EmptyString) ++ post)).
    cbn [Str.lstrip]. change (Str.is_space Str.dquote) with false. cbn iota.
    change (String Str.dquote ((body ++ String Str.dquote EmptyString) ++ post))
      with (String Str.dquote (body ++ String Str.dquote EmptyString) ++ post).
    rewrite rstrip_app_spaces by exact Hpost.
    change (String Str.dquote (body ++ String Str.dquote EmptyString))
      with ((String Str.dquote body) ++ String Str.dquote EmptyString).
    now apply rstrip_keeps_end. }
  rewrite Hstrip. split; [reflexivity |]. unfold Examples.quoted. split.
  - unfold Str.startswith, Str.endswith. cbn [Str.first_char Str.char_is].
    change (String Str.dquote (body ++ String Str.dquote EmptyString))
      with ((String Str.dquote body) ++ String Str.dquote EmptyString).
    rewrite last_char_end. reflexivity.
  - cbn [Str.slice_1_m1]. apply drop_last_end.
Qed.

Lemma replace_skip (old new s rest : string) :
  Str.replace_from old new (s ++ rest) (String.length s)
  = Str.replace_from old new rest 0.
Proof.
  induction s as [| c s IH]; [reflexivity |].
  change (String c s ++ rest) with (String c (s ++ rest)).
  cbn [String.length Str.replace_from]. exact IH.
Qed.

Lemma prefix_app (s rest : string) : String.prefix s (s ++ rest) = true.
Proof.
  apply String.prefix_correct.
  induction s as [| c s IH]; [now destruct rest |].
  change (String c s ++ rest) with (String c (s ++ rest)).
  cbn [String.length String.substring]. now rewrite IH.
Qed.

(** One occurrence of [old] after a text without its first character is
    replaced, and the replacement goes on behind it. *)
Lemma replace_first (a : ascii) (old new before rest : string) :
  Spec.all_chars (fun c => negb (Ascii.eqb c a)) before = true ->
  Str.replace (String a old) new (before ++ String a old ++ rest)
  = before ++ new ++ Str.replace (String a old) new rest.
Proof.
  intros Hb. unfold Str.replace. induction before as [| c before IH].
  - change (EmptyString ++ ?t) with t.
    pose proof (prefix_app (String a old) rest) as Hp.
    change (String a old ++ rest) with (String a (old ++ rest)) in *.
    cbn [Str.replace_from]. rewrite Hp. f_equal.
    cbn [String.length Nat.sub]. rewrite Nat.sub_0_r.
    apply replace_skip.
  - cbn [Spec.all_chars] in Hb. apply andb_true_iff in Hb as [Hc Hb].
    apply negb_true_iff, Ascii.eqb_neq in Hc.
    change (String c before ++ ?t) with (String c (before ++ t)).
    cbn [Str.replace_from String.prefix].
    destruct (ascii_dec a c) as [-> | _]; [contradiction |].
    now rewrite IH.
Qed.

(** Taking the backslashes off undoes [Spec.escape_quotes]. *)
Lemma unescape_escaped (t : string) :
  Spec.no_backslash t = true ->
  Str.replace (String Str.backslash (String Str.dquote EmptyString))
              (String Str.dquote EmptyString) (Spec.escape_quotes t) = t.
Proof.
  unfold Spec.no_backslash, Str.replace. induction t as [| c t IH]; [reflexivity |].
  cbn [Spec.all_chars]. intros H. apply andb_true_iff in H as [Hc H].
  apply negb_true_iff in Hc. cbn [Spec.escape_quotes].
  destruct (Ascii.eqb c Str.dquote) eqn:Hq.
  - apply Ascii.eqb_eq in Hq. subst c.
    pose proof (replace_first Str.backslash (String Str.dquote EmptyString)
                  (String Str.dquote EmptyString) EmptyString
                  (Spec.escape_quotes t) eq_refl) as Hr.
    unfold Str.replace in Hr.
    change (Str.replace_from (String Str.backslash (String Str.dquote EmptyString))
              (String Str.dquote EmptyString)
              (String Str.backslash (String Str.dquote (Spec.escape_quotes t))) 0
            = String Str.dquote
                (Str.replace_from
                   (String Str.backslash (String Str.dquote EmptyString))
                   (String Str.dquote EmptyString) (Spec.escape_quotes t) 0)) in Hr.
    rewrite Hr. now rewrite IH.
  - apply Ascii.eqb_neq in Hc.
    cbn [Str.replace_from String.prefix].
    destruct (ascii_dec Str.backslash c) as [<- | _]; [contradiction |].
    now rewrite IH.
Qed.

Lemma clean_wrapped (pre t post : string) :
  Spec.all_space pre = true -> Spec.all_space post = true ->
  Spec.no_backslash t = true ->
  clean_input (pre ++ Examples.quoted (Spec.escape_quotes t) ++ post) = t.
Proof.
  intros Hpre Hpost Ht. unfold clean_input.
  destruct (unwrap_quoted pre (Spec.escape_quotes t) post Hpre Hpost)
    as (_ & -> & ->).
  rewrite unescape_escaped by exact Ht.
  now apply replace_absent.
Qed.

End Cleanup.

Section CleanupResults.

Context (rt : PyRuntime) (glyph : DataProcessingTool.emoji -> string)
        (icon_text : ResponseGeneratorTool.icon -> string)
        (failure_text : ResponseGeneratorTool.failure -> string)
        (strftime_hm : datetime -> string).

(** X28. A text without backslash that was written as a JSON string (a
    backslash before each double quote, double quotes around it, any
    whitespace outside) comes out of the cleanup as it was, and the
    normaliser, the geospatial tool and the formatter answer on the
    written form as on what [json.loads] makes of the text itself. *)
Theorem cleanup_unwraps_json_string (now : datetime) (pre t post : string) :
  Spec.all_space pre = true -> Spec.all_space post = true ->
  Spec.no_backslash t = true ->
  let written := pre ++ Examples.quoted (Spec.escape_quotes t) ++ post in
  DataProcessingTool.clean_input written = t
  /\ DataProcessingTool._run rt now (InStr written)
     = match json_loads rt t with
       | Some v => DataProcessingTool._run rt now (InObj v)
       | None => DataProcessingTool.Error (JStr "Could not parse input data") None
       end
  /\ GeospatialTool._run rt (InStr written)
     = match json_loads rt t with
       | Some v => GeospatialTool._run rt (InObj v)
       | None => GeospatialTool.Error "Could not parse input data"
       end
  /\ ResponseGeneratorTool._run rt glyph icon_text failure_text strftime_hm
       (InStr written)
     = match json_loads rt t with
       | Some v => ResponseGeneratorTool._run rt glyph icon_text failure_text
                     strftime_hm (InObj v)
       | None => ResponseGeneratorTool.Error "Could not parse input data"
       end.
Proof.
  intros Hpre Hpost Ht written.
  pose proof (clean_wrapped pre t post Hpre Hpost Ht) as Hclean.
  fold written in Hclean. split; [exact Hclean |].
  unfold DataProcessingTool._run, GeospatialTool._run, ResponseGeneratorTool._run.
  cbv zeta. rewrite Hclean.
  destruct (json_loads rt t) as [v |]; repeat split; reflexivity.
Qed.

End CleanupResults.

Lemma cleanup_unwraps_json_string_witness :
  DataProcessingTool.clean_input
    (" " ++ Examples.quoted (Spec.escape_quotes (Examples.quoted "12345")) ++ " ")
  = Examples.quoted "12345"
  /\ GeospatialTool._run Runtime.reference
       (InStr (" " ++ Examples.quoted (Spec.escape_quotes (Examples.quoted "12345"))
                ++ " "))
     = GeospatialTool.Error "Invalid input format".
Proof.
  destruct (cleanup_unwraps_json_string Runtime.reference (fun _ => "*")
              (fun _ => "*") (fun _ => "error") (fun _ => "12:00")
              Examples.noon " " (Examples.quoted "12345") " "
              eq_refl eq_refl eq_refl) as (Hclean & _ & Hgeo & _).
  split; [exact Hclean |]. rewrite Hgeo. reflexivity.
Defined.



